(** * LinkedIn user-profile scraper: a shallow embedding of
      [modules/linked/src/user-profile-module.ts]

    The development has three layers.

    - [JS]: the JavaScript string primitives the module relies on
      ([trim], [split], [parseInt], [substring], [lastIndexOf],
      [encodeURI], and a backtracking matcher for the regular expressions
      written in the source).
    - [Surface]: the browser page the module drives, as an oracle whose
      answers may depend on everything done to the page so far, together
      with a small state-and-exception monad for the [async] methods.
    - [UserProfileModule]: the methods of the class, one definition per
      method, in the order of the source.

    Texts are values of [string]; a character stands for one UTF-16 code
    unit in the range 0..255 (Latin-1), which is where every character the
    source mentions by name lives.  Console output is not part of the
    model. *)

From Stdlib Require Import String Ascii List ZArith NArith Bool Arith Lia.
Import ListNotations.
Open Scope string_scope.

(* ===================================================================== *)
(** * JavaScript strings                                                  *)
(* ===================================================================== *)

Module JS.

(** ** Characters *)

Definition code (c : ascii) : N := N_of_ascii c.

(** WhiteSpace and LineTerminator code units below 256: TAB, LF, VT, FF, CR,
    SPACE and NO-BREAK SPACE.  This is the set used by [trim], by the
    leading-blank skipping of [parseInt] and by the class [\s]. *)
Definition isWhiteSpace (c : ascii) : bool :=
  let n := code c in
  ((9 <=? n) && (n <=? 13) || (n =? 32) || (n =? 160))%N.

Definition isDigit (c : ascii) : bool :=
  let n := code c in ((48 <=? n) && (n <=? 57))%N.

Definition digitValue (c : ascii) : Z := Z.of_N (code c) - 48.

(** ** length, substring, lastIndexOf *)

Definition length (s : string) : Z := Z.of_nat (String.length s).

Fixpoint drop (n : nat) (s : string) : string :=
  match n, s with
  | O, _ => s
  | S n', String _ s' => drop n' s'
  | S _, EmptyString => EmptyString
  end.

Fixpoint take (n : nat) (s : string) : string :=
  match n, s with
  | O, _ => EmptyString
  | S n', String c s' => String c (take n' s')
  | S _, EmptyString => EmptyString
  end.

Definition clamp (s : string) (i : Z) : nat :=
  Z.to_nat (Z.min (Z.max i 0) (length s)).

(** [s.substring(a, b)]: both ends are clamped to [0, s.length] and swapped
    when they come in the wrong order. *)
Definition substring (s : string) (a b : Z) : string :=
  let a' := clamp s a in
  let b' := clamp s b in
  let lo := Nat.min a' b' in
  let hi := Nat.max a' b' in
  take (hi - lo) (drop lo s).

(** [s.substring(a)] *)
Definition substringFrom (s : string) (a : Z) : string :=
  drop (clamp s a) s.

Fixpoint startsWith (p s : string) : bool :=
  match p, s with
  | EmptyString, _ => true
  | String a p', String b s' => Ascii.eqb a b && startsWith p' s'
  | String _ _, EmptyString => false
  end.

(** Greatest index at which [p] occurs in [s], scanning [s] from position
    [i]; [None] when there is none. *)
Fixpoint lastOccurrence (p s : string) (i : Z) : option Z :=
  let here := if startsWith p s then Some i else None in
  match s with
  | EmptyString => here
  | String _ s' =>
      match lastOccurrence p s' (i + 1) with
      | Some j => Some j
      | None => here
      end
  end.

(** [s.lastIndexOf(p)], [-1] when [p] does not occur. *)
Definition lastIndexOf (s p : string) : Z :=
  match lastOccurrence p s 0 with
  | Some j => j
  | None => -1
  end.

(** ** trim *)

Fixpoint trimStart (s : string) : string :=
  match s with
  | String c s' => if isWhiteSpace c then trimStart s' else s
  | EmptyString => EmptyString
  end.

Fixpoint trimEnd (s : string) : string :=
  match s with
  | String c s' =>
      match trimEnd s' with
      | EmptyString => if isWhiteSpace c then EmptyString else String c EmptyString
      | t => String c t
      end
  | EmptyString => EmptyString
  end.

Definition trim (s : string) : string := trimEnd (trimStart s).

(** ** split on a one-character separator *)

(** [s.split(sep)] for a separator of length one: the pieces between the
    occurrences of [sep], never an empty array. *)
Fixpoint split (sep : ascii) (s : string) : list string :=
  match s with
  | EmptyString => [EmptyString]
  | String c s' =>
      if Ascii.eqb c sep then EmptyString :: split sep s'
      else
        match split sep s' with
        | piece :: pieces => String c piece :: pieces
        | [] => [String c EmptyString]
        end
  end.

(** ** Numbers and parseInt *)

(** The numbers [parseInt] can return: NaN, the two infinities, and the
    doubles that are integers, [Num z] being the double of value [z] (a
    negative zero is [Num 0]). *)
Inductive number : Type :=
| NaN
| Num (z : Z)
| Infinity
| NegInfinity.

(** The double for an integer: the integer itself below 2^53 in absolute
    value; beyond, the nearest integer with 53 significant bits, a tie
    going to the even one; an infinity from 2^1024 on. *)
Definition toNumber (z : Z) : number :=
  let n := Z.abs z in
  if (n <? 2 ^ 53)%Z then Num z
  else
    let shift := (Z.log2 n - 52)%Z in
    let q := Z.shiftr n shift in
    let r := (n - Z.shiftl q shift)%Z in
    let half := Z.shiftl 1 (shift - 1) in
    let q' := if (half <? r)%Z || ((r =? half)%Z && Z.odd q) then (q + 1)%Z else q in
    let v := Z.shiftl q' shift in
    if (2 ^ 1024 <=? v)%Z then (if (z <? 0)%Z then NegInfinity else Infinity)
    else Num (if (z <? 0)%Z then (- v)%Z else v).

Fixpoint digitsValue (s : string) (acc : Z) : Z :=
  match s with
  | String c s' => if isDigit c then digitsValue s' (10 * acc + digitValue c) else acc
  | EmptyString => acc
  end.

(** [parseInt(s, 10)]: skip leading blanks, read an optional sign, then the
    longest run of decimal digits; NaN when that run is empty, and the
    double for the signed value of the run otherwise. *)
Definition parseInt (s : string) : number :=
  let t := trimStart s in
  let '(sign, u) :=
    match t with
    | String "-" r => ((-1)%Z, r)
    | String "+" r => (1%Z, r)
    | _ => (1%Z, t)
    end in
  match u with
  | String c _ => if isDigit c then toNumber (sign * digitsValue u 0) else NaN
  | EmptyString => NaN
  end.

(** ** encodeURI *)

Definition hexDigit (n : N) : ascii :=
  if (n <? 10)%N then ascii_of_N (48 + n) else ascii_of_N (55 + n).

Definition percent (byte : N) : string :=
  String "%" (String (hexDigit (byte / 16)) (String (hexDigit (byte mod 16)) EmptyString)).

Definition isAlpha (c : ascii) : bool :=
  let n := code c in
  ((65 <=? n) && (n <=? 90) || (97 <=? n) && (n <=? 122))%N.

(** Characters [encodeURI] leaves alone: letters, digits, the URI marks and
    the reserved characters together with [#]. *)
Definition uriKeep (c : ascii) : bool :=
  isAlpha c || isDigit c ||
  existsb (Ascii.eqb c)
    [ "-"%char; "_"%char; "."%char; "!"%char; "~"%char; "*"%char; "'"%char;
      "("%char; ")"%char; ";"%char; "/"%char; "?"%char; ":"%char; "@"%char;
      "&"%char; "="%char; "+"%char; "$"%char; ","%char; "#"%char ].

(** Every other code unit is replaced by the percent-escapes of its UTF-8
    bytes: one byte below 128, two bytes from 128 to 255. *)
Definition encodeChar (c : ascii) : string :=
  let n := code c in
  if uriKeep c then String c EmptyString
  else if (n <? 128)%N then percent n
  else percent (192 + n / 64) ++ percent (128 + n mod 64).

Fixpoint encodeURI (s : string) : string :=
  match s with
  | String c s' => encodeChar c ++ encodeURI s'
  | EmptyString => EmptyString
  end.

End JS.

(* ===================================================================== *)
(** * Regular expressions                                                 *)
(* ===================================================================== *)

(** A backtracking matcher in continuation-passing style, following the
    matcher semantics of the language standard: alternatives are tried in
    priority order (greedy quantifiers take the longest repetition first),
    and the first complete match wins.  The syntax covers what the three
    regular expressions of the source use: literal characters, the classes
    [\s], [\d], [[0-9]], [[^\d]] and [[^/]], the anchors, greedy [*] and [+]
    on a one-character atom, greedy [?] on a group, and capture groups. *)

Module RegExp.

Inductive cclass : Type :=
| CDigit                      (* \d  and  [0-9] *)
| CSpace                      (* \s *)
| CChar (c : ascii)           (* a single character *)
| CNot (k : cclass).          (* [^...] *)

Fixpoint cclass_mem (k : cclass) (c : ascii) : bool :=
  match k with
  | CDigit => JS.isDigit c
  | CSpace => JS.isWhiteSpace c
  | CChar d => Ascii.eqb c d
  | CNot k' => negb (cclass_mem k' c)
  end.

Inductive regex : Type :=
| Eps
| Lit (c : ascii)
| Cls (k : cclass)
| Bol                         (* ^ *)
| Eol                         (* $ *)
| Star (k : cclass)           (* k*  *)
| Opt (r : regex)             (* r?  *)
| Grp (n : nat) (r : regex)   (* (r), capture group number n, from 1 *)
| Seq (r1 r2 : regex).

Definition Plus (k : cclass) : regex := Seq (Cls k) (Star k).

Definition seq (rs : list regex) : regex := fold_right Seq Eps rs.

Fixpoint Str (s : string) : regex :=
  match s with
  | EmptyString => Eps
  | String c s' => Seq (Lit c) (Str s')
  end.

(** Case folding of the [i] flag: a code unit is compared through its
    upper-case form.  Below 256 that moves [a-z] and the accented lower-case
    letters (0xE0..0xFE but the division sign) down by 32. *)
Definition canonicalize (c : ascii) : ascii :=
  let n := JS.code c in
  if ((97 <=? n) && (n <=? 122) || (224 <=? n) && (n <=? 254) && negb (n =? 247))%N
  then ascii_of_N (n - 32)
  else c.

Definition litMatches (ignoreCase : bool) (pat c : ascii) : bool :=
  if ignoreCase then Ascii.eqb (canonicalize c) (canonicalize pat)
  else Ascii.eqb c pat.

Definition captures : Type := list (option string).

Fixpoint setCapture (n : nat) (v : option string) (cs : captures) : captures :=
  match n, cs with
  | O, _ :: cs' => v :: cs'
  | S n', c :: cs' => c :: setCapture n' v cs'
  | _, [] => []
  end.

(** A matcher state: the index reached, the input still ahead of it, and
    the captures so far ([nth n caps] is group [n + 1]). *)
Record mstate : Type := MState {
  pos : nat;
  rest : string;
  caps : captures
}.

Definition cont : Type := mstate -> option mstate.

(** [k*] from index [p] with [s] ahead: one more character first, the
    continuation as it stands only when that fails. *)
Fixpoint mstar (k : cclass) (s : string) (p : nat) (cs : captures) (c : cont)
  : option mstate :=
  match s with
  | String a s' =>
      if cclass_mem k a then
        match mstar k s' (S p) cs c with
        | Some y => Some y
        | None => c (MState p s cs)
        end
      else c (MState p s cs)
  | EmptyString => c (MState p s cs)
  end.

Fixpoint m (ignoreCase : bool) (r : regex) (x : mstate) (c : cont) : option mstate :=
  match r with
  | Eps => c x
  | Lit a =>
      match rest x with
      | String b s' =>
          if litMatches ignoreCase a b then c (MState (S (pos x)) s' (caps x)) else None
      | EmptyString => None
      end
  | Cls k =>
      match rest x with
      | String b s' =>
          if cclass_mem k b then c (MState (S (pos x)) s' (caps x)) else None
      | EmptyString => None
      end
  | Bol => if Nat.eqb (pos x) 0 then c x else None
  | Eol => match rest x with EmptyString => c x | String _ _ => None end
  | Star k => mstar k (rest x) (pos x) (caps x) c
  | Opt r' =>
      (* an iteration that consumes nothing is rejected *)
      match m ignoreCase r' x
              (fun y => if Nat.eqb (pos y) (pos x) then None else c y) with
      | Some y => Some y
      | None => c x
      end
  | Grp n r' =>
      m ignoreCase r' x
        (fun y =>
           c (MState (pos y) (rest y)
                (setCapture (n - 1) (Some (JS.take (pos y - pos x) (rest x))) (caps y))))
  | Seq r1 r2 => m ignoreCase r1 x (fun y => m ignoreCase r2 y c)
  end.

(** What [exec] returns on success: where the match starts, the matched
    text, and the capture groups ([None] is [undefined]). *)
Record MatchResult : Type := Match {
  index : nat;
  matched : string;
  groups : captures
}.

(** [group mr n] is [mr[n]] for [n >= 1]. *)
Definition group (mr : MatchResult) (n : nat) : option string :=
  nth (n - 1) (groups mr) None.

(** The search of a non-global expression: start positions from [p] on,
    leftmost first, up to and including the end of the input. *)
Fixpoint scan (ignoreCase : bool) (r : regex) (ngroups : nat) (s : string) (p : nat)
  : option MatchResult :=
  match m ignoreCase r (MState p s (repeat None ngroups)) Some with
  | Some y => Some (Match p (JS.take (pos y - p) s) (caps y))
  | None =>
      match s with
      | String _ s' => scan ignoreCase r ngroups s' (S p)
      | EmptyString => None
      end
  end.

Record RegExp : Type := MkRegExp {
  source : regex;
  ngroups : nat;
  ignoreCase : bool
}.

Definition exec (re : RegExp) (s : string) : option MatchResult :=
  scan (ignoreCase re) (source re) (ngroups re) s 0.

(** [s.match(re)] for an expression without the [g] flag. *)
Definition match_ (s : string) (re : RegExp) : option MatchResult := exec re s.

(** A replacement text: literal pieces and [$n] references. *)
Inductive repl : Type :=
| RText (t : string)
| RGroup (n : nat).

Definition expand (mr : MatchResult) (tpl : list repl) : string :=
  fold_right
    (fun piece acc =>
       match piece with
       | RText t => t ++ acc
       | RGroup n => match group mr n with Some g => g ++ acc | None => acc end
       end)
    EmptyString tpl.

(** [s.replace(re, tpl)] for an expression without the [g] flag: the first
    match is replaced, a text without a match is returned as it is. *)
Definition replace (s : string) (re : RegExp) (tpl : list repl) : string :=
  match exec re s with
  | None => s
  | Some mr =>
      JS.take (index mr) s ++ expand mr tpl
        ++ JS.drop (index mr + String.length (matched mr)) s
  end.

End RegExp.

(* ===================================================================== *)
(** * The page and the asynchronous methods                               *)
(* ===================================================================== *)

Module Surface.

(** A selector is an entry of the selector table ([selectors.user...], kept
    by its path), a selector written out in the source, or the
    concatenation of two selectors by a template literal. *)
Inductive selector : Type :=
| Sel (path : string)
| XPath (text : string)
| Cat (a b : selector).

Fixpoint selector_eqb (a b : selector) : bool :=
  match a, b with
  | Sel p, Sel q => String.eqb p q
  | XPath p, XPath q => String.eqb p q
  | Cat a1 a2, Cat b1 b2 => selector_eqb a1 b1 && selector_eqb a2 b2
  | _, _ => false
  end.

(** An element handle. *)
Definition handle : Type := nat.

(** What a rejected promise carries: the driver's [errors.TimeoutError], a
    [TypeError] of the language (a property read on [null] or [undefined]),
    or any other failure of the page (closed target, detached frame,
    failed navigation). *)
Inductive error : Type :=
| TimeoutError
| TypeError
| SurfaceError (message : string).

Definition isTimeoutError (e : error) : bool :=
  match e with TimeoutError => true | _ => false end.

(** A settled promise. *)
Inductive result (A : Type) : Type :=
| Ok (a : A)
| Err (e : error).
Arguments Ok {A} a.
Arguments Err {A} e.

(** What the module does to the page, as opposed to what it reads. *)
Inductive event : Type :=
| Goto (u : string)
| Click (h : handle)
| WaitForSelector (scope : option handle) (sel : selector)
| WaitForTimeout (base jitter : N)      (* base + Math.random() * jitter *)
| ScrollUntilElementAppears (sel : selector)
| ClickUntilElementDissapears (sel : selector) (scope : option handle)
| ScrollElement (h : option handle).

(** The history of the page: everything done to it, latest first. *)
Definition World : Type := list event.

(** The page with the helpers of the base class [Module].  Every answer is
    a function of the history, so a click or a wait may change what the
    next question returns; an answer is a settled promise. *)
Record Surface : Type := MkSurface {
  (* playwright Page *)
  url : World -> string;
  goto : string -> World -> result unit;
  textContent : selector -> World -> result (option string);
  waitForSelector : selector -> World -> result handle;
  query : selector -> World -> result (option handle);            (* page.$  *)
  queryAll : selector -> World -> result (list handle);           (* page.$$ *)
  waitForTimeout : World -> result unit;
  (* playwright ElementHandle *)
  el_query : handle -> selector -> World -> result (option handle);
  el_queryAll : handle -> selector -> World -> result (list handle);
  el_textContent : handle -> World -> result (option string);
  el_click : handle -> World -> result unit;
  el_waitForSelector : handle -> selector -> World -> result handle;
  (* this.helpers *)
  scrollUntilElementAppears : selector -> World -> result unit;
  clickUntilElementDissapears : selector -> option handle -> World -> result unit;
  getAttributeSafe : selector -> string -> handle -> World -> result string;
  safeTextContent : selector -> handle -> World -> result string;
  isElementPresent : selector -> handle -> World -> result bool;
  filteredTextContent : selector -> selector -> handle -> World -> result (option string);
  elementCompletelyScrolled : option handle -> World -> result bool;
  scrollElement : option handle -> World -> result unit
}.

End Surface.

(** ** The monad of [async] methods *)

Module Async.
Import Surface.

(** A method ends by returning, by throwing, or (the scroll loop of the
    endorsers popup only) it is still running when the fuel given to it is
    spent. *)
Inductive outcome (A : Type) : Type :=
| Ret (a : A) (w : World)
| Thrown (e : error) (w : World)
| OutOfFuel.
Arguments Ret {A} a w.
Arguments Thrown {A} e w.
Arguments OutOfFuel {A}.

Definition M (A : Type) : Type := World -> outcome A.

Definition ret {A} (a : A) : M A := fun w => Ret a w.

Definition throw {A} (e : error) : M A := fun w => Thrown e w.

Definition bind {A B} (c : M A) (f : A -> M B) : M B :=
  fun w =>
    match c w with
    | Ret a w' => f a w'
    | Thrown e w' => Thrown e w'
    | OutOfFuel => OutOfFuel
    end.

(** [try { x = c } catch (e) { return h(e) } ; k(x)] *)
Definition tryOrReturn {A B} (c : M A) (h : error -> M B) (k : A -> M B) : M B :=
  fun w =>
    match c w with
    | Ret a w' => k a w'
    | Thrown e w' => h e w'
    | OutOfFuel => OutOfFuel
    end.

(** Starting an operation that only reads: the promise it returns settles
    to what the page answers now. *)
Definition promise {A} (ask : World -> result A) : M (result A) :=
  fun w => Ret (ask w) w.

Definition await {A} (p : result A) : M A :=
  match p with
  | Ok a => ret a
  | Err e => throw e
  end.

(** An operation that acts on the page, awaited on the spot: it is entered
    in the history whether it succeeds or not. *)
Definition perform {A} (ev : event) (ask : World -> result A) : M A :=
  fun w =>
    match ask w with
    | Ok a => Ret a (ev :: w)
    | Err e => Thrown e (ev :: w)
    end.

(** [Promise.all(xs.map(f))]: the callbacks in the order of the array; the
    first rejection is the rejection of the whole. *)
Fixpoint mapM {A B} (f : A -> M B) (xs : list A) : M (list B) :=
  match xs with
  | [] => ret []
  | x :: xs' =>
      bind (f x) (fun y => bind (mapM f xs') (fun ys => ret (y :: ys)))
  end.

End Async.

Declare Scope async_scope.
Delimit Scope async_scope with async.
Notation "x <- c ;; k" := (Async.bind c (fun x => k))
  (at level 61, c at next level, right associativity) : async_scope.
Notation "c ;; k" := (Async.bind c (fun _ => k))
  (at level 61, right associativity) : async_scope.

(* ===================================================================== *)
(** * The records the module builds                                       *)
(* ===================================================================== *)

(** One module per model of [./models], with the fields of the object
    literals of the source.  A field the source can leave [undefined] is an
    [option]. *)

Module DateInterval.
Record t : Type := mk { start : string; end_ : string }.
End DateInterval.

Module EducationDate.
Record t : Type := mk { start : JS.number; end_ : JS.number }.
End EducationDate.

Module Company.
Record t : Type := mk { name : option string; linkedInURL : string }.
End Company.

Module Role.
Record t : Type := mk {
  name : string;
  location : string;
  description : string;
  duration : string;
  timeInterval : DateInterval.t;
  contractType : string
}.
End Role.

Module Experience.
Record t : Type := mk {
  company : Company.t;
  roles : list Role.t;
  location : string;
  totalDuration : string
}.
End Experience.

Module School.
Record t : Type := mk { name : string; url : string }.
End School.

Module Education.
Record t : Type := mk {
  school : School.t;
  fieldOfStudy : string;
  degree : string;
  description : string;
  activitiesAndSocieties : string;
  date : EducationDate.t
}.
End Education.

Module Issuer.
Record t : Type := mk { name : string; linkedInURL : string }.
End Issuer.

Module Credential.
Record t : Type := mk { id : string; url : string }.
End Credential.

Module Certification.
Record t : Type := mk {
  name : string;
  issuer : Issuer.t;
  credential : Credential.t;
  issued : string;
  expiration : string
}.
End Certification.

Module User.
Record t : Type := mk { name : string; username : string }.
End User.

Module Skill.
Record t : Type := mk {
  endorsements : list User.t;
  name : string;
  hasLinkedInAssesmentBadge : bool;
  numberOfEndorsements : JS.number
}.
End Skill.

(* ===================================================================== *)
(** * helpers/string-helpers                                              *)
(* ===================================================================== *)

(** The module imports [splitDashes] from [./helpers/string-helpers], a file
    that is not part of the sources at hand.  The methods below take the
    helper as a parameter, so that what is proved of them holds whatever the
    helper does; the definition here is the helper as the specification
    words it, used where a statement is about the helper's own answer and
    wherever a method is run. *)

Module StringHelpers.

(** Modelled from the spec: [splitDashes], the default export of
    [./helpers/string-helpers], which is missing from the sources.  The
    specification words it as "split an interval string on a dash
    character"; the dash is the hyphen-minus of its examples, every part is
    kept, and trimming is left to the callers, which is where the module
    does it. *)
Definition splitDashes (text : string) : list string := JS.split "-" text.

End StringHelpers.

(* ===================================================================== *)
(** * class UserProfileModule                                             *)
(* ===================================================================== *)

Module UserProfileModule.
Import Surface Async RegExp.
Local Open Scope async_scope.

(** [x ?? d] *)
Definition nullish {A} (x : option A) (d : A) : A :=
  match x with Some a => a | None => d end.

(** Truthiness of a value that is a string or [undefined]. *)
Definition truthy (x : option string) : bool :=
  match x with
  | Some (String _ _) => true
  | _ => false
  end.

Section StringHelper.

(** [import splitDashes from './helpers/string-helpers'] *)
Variable splitDashes : string -> list string.

(** ** The texts parsed by the module *)

(** [` https://www.linkedin.com/in/${this.id}/ `] through [encodeURI]. *)
Definition profileURL (id : string) : string :=
  JS.encodeURI ("https://www.linkedin.com/in/" ++ id ++ "/").

(** [about]: the info text with the last occurrence of the text to delete
    cut out of it. *)
Definition aboutText (ri id : string) : string :=
  JS.trim
    (JS.substring ri 0 (JS.lastIndexOf ri id)
       ++ JS.substringFrom ri (JS.lastIndexOf ri id + JS.length id)).

(** [education]: the [date] field from the dash-split date text. *)
Definition educationDate (di : list string) : EducationDate.t :=
  {| EducationDate.start := JS.parseInt (nullish (nth_error di 0) "-1");
     EducationDate.end_ :=
       if (1 <? List.length di)%nat
       then match nth_error di 1 with
            | Some d => JS.parseInt d
            | None => JS.NaN
            end
       else JS.parseInt (nullish (nth_error di 0) "-1") |}.

Definition educationOf
  (schoolName schoolURL dateInterval fieldOfStudy degree description
     activitiesAndSocieties : string) : Education.t :=
  let school := {| School.name := schoolName; School.url := schoolURL |} in
  let di := splitDashes dateInterval in
  {| Education.school := school;
     Education.fieldOfStudy := fieldOfStudy;
     Education.degree := degree;
     Education.description := description;
     Education.activitiesAndSocieties := activitiesAndSocieties;
     Education.date := educationDate di |}.

(** [[^\d]*\s+[0-9]+] *)
Definition dateText : regex :=
  seq [Star (CNot CDigit); Plus CSpace; Plus CDigit].

(** [/issued\s*([^\d]*\s+[0-9]+)\s*(no)? expiration date\s*([^\d]*\s+[0-9]+)?/i] *)
Definition datesRegExp : RegExp :=
  {| source :=
       seq [ Str "issued"; Star CSpace; Grp 1 dateText; Star CSpace;
             Opt (Grp 2 (Str "no")); Str " expiration date"; Star CSpace;
             Opt (Grp 3 dateText) ];
     ngroups := 3;
     ignoreCase := true |}.

Record ParsedDate : Type := MkParsedDate { issued : string; expiration : string }.

(** The [parsedDate] object of [certifications], after the [if]. *)
Definition parsedDateOf (matchResult : option MatchResult) : ParsedDate :=
  match matchResult with
  | Some mr =>
      {| issued := nullish (group mr 1) "";   (* group 1 takes part in every match *)
         expiration :=
           if truthy (group mr 2) then nullish (group mr 3) "N/A" else "N/A" |}
  | None => {| issued := ""; expiration := "" |}
  end.

Definition parseDates (dates : string) : ParsedDate :=
  parsedDateOf (match_ dates datesRegExp).

(** [/\s*credential\s+id\s*/i] *)
Definition credentialIdRegExp : RegExp :=
  {| source := seq [Star CSpace; Str "credential"; Plus CSpace; Str "id"; Star CSpace];
     ngroups := 0;
     ignoreCase := true |}.

Definition certificationOf
  (companyUrl companyName certificateName dates credentialId credentialURL : string)
  : Certification.t :=
  let parsedDate := parseDates dates in
  {| Certification.name := JS.trim certificateName;
     Certification.issuer :=
       {| Issuer.name := JS.trim companyName;
          Issuer.linkedInURL := JS.trim companyUrl |};
     Certification.credential :=
       {| Credential.id := JS.trim (replace credentialId credentialIdRegExp []);
          Credential.url := JS.trim credentialURL |};
     Certification.issued := issued parsedDate;
     Certification.expiration := expiration parsedDate |}.

(** [[^/]] *)
Definition notSlash : cclass := CNot (CChar "/").

(** [/^\/in\/([^/]+)\/$/] *)
Definition usernameRegExp : RegExp :=
  {| source := seq [Bol; Str "/in/"; Grp 1 (Plus notSlash); Lit "/"; Eol];
     ngroups := 1;
     ignoreCase := false |}.

(** [href.replace(/^\/in\/([^/]+)\/$/, '$1')] *)
Definition usernameOf (href : string) : string :=
  replace href usernameRegExp [RGroup 1].

(** The interval of a role on the multiple-roles path, from the dash-split
    text of the first role-info element. *)
Definition roleTimeInterval (ti : list string) : DateInterval.t :=
  {| DateInterval.start := JS.trim (nullish (nth_error ti 0) "");
     DateInterval.end_ :=
       JS.trim
         (nullish
            (if negb (List.length ti =? 2)%nat then nth_error ti 0 else nth_error ti 1)
            "") |}.

(** [x!.trim()]: a [TypeError] when [x] is [undefined]. *)
Definition trimOrThrow (x : option string) : result string :=
  match x with
  | Some s => Ok (JS.trim s)
  | None => Err TypeError
  end.

(** The [.then] callback of [getExperienceWithSingleRole]. *)
Definition singleRoleExperience (cn tInterval loc dur desc rn url : string)
  : result Experience.t :=
  let parsedCompanyName :=
    map JS.trim
      (filter (fun e => negb (String.length e =? 0)%nat) (JS.split "010"%char cn)) in
  let contractType := nullish (nth_error parsedCompanyName 1) "" in
  let splittedTimeInterval := splitDashes tInterval in
  match trimOrThrow (nth_error splittedTimeInterval 0) with
  | Err e => Err e
  | Ok start =>
      match trimOrThrow
              (if (List.length splittedTimeInterval =? 2)%nat
               then nth_error splittedTimeInterval 1
               else nth_error splittedTimeInterval 0) with
      | Err e => Err e
      | Ok end_ =>
          let dateInterval :=
            {| DateInterval.start := start; DateInterval.end_ := end_ |} in
          Ok {| Experience.company :=
                  {| Company.name := nth_error parsedCompanyName 0;
                     Company.linkedInURL := url |};
                Experience.location := loc;
                Experience.roles :=
                  [ {| Role.description := desc;
                       Role.duration := dur;
                       Role.location := loc;
                       Role.name := rn;
                       Role.timeInterval := dateInterval;
                       Role.contractType := contractType |} ];
                Experience.totalDuration := dur |}
      end
  end.

(** ** The methods *)

(** An operation that only reads the page is started with [promise] where
    the source creates the promise and awaited where the source awaits it.
    A [Promise.all] over an array literal is the awaits of its elements from
    left to right, so that of several rejections the leftmost is the one
    thrown. *)

Section Methods.

Variable sf : Surface.     (* this.page and this.helpers *)
Variable id : string.      (* this.id *)

Definition init : M unit :=
  let u := profileURL id in
  fun w =>
    if String.eqb (url sf w) u then Ret tt w
    else perform (Goto u) (goto sf u) w.

Definition fullName : M (option string) :=
  init ;;
  p <- promise (textContent sf (Sel "user.profile.base.fullName")) ;;
  await p.

Definition shortDescription : M (option string) :=
  init ;;
  p <- promise (textContent sf (Sel "user.profile.base.shortDesc")) ;;
  await p.

Definition location : M (option string) :=
  init ;;
  p <- promise (textContent sf (Sel "user.profile.base.location")) ;;
  await p.

(** The [try] block of [about]; a text that is [null] makes the property
    reads on it throw. *)
Definition aboutBody : M string :=
  p <- promise (textContent sf (Sel "user.profile.base.info")) ;;
  ri <- await p ;;
  q <- promise (textContent sf (Sel "user.profile.base.infoTextToDelete")) ;;
  del <- await q ;;
  match ri, del with
  | Some ri', Some del' => ret (aboutText ri' del')
  | _, _ => throw TypeError
  end.

Definition about : M string :=
  init ;;
  tryOrReturn aboutBody
    (fun e => if isTimeoutError e then ret "" else throw e)
    ret.

Definition isPremium : M bool :=
  init ;;
  tryOrReturn
    (perform (WaitForSelector None (Sel "user.profile.base.premiumBadge"))
       (waitForSelector sf (Sel "user.profile.base.premiumBadge")))
    (fun _ => ret false)
    (fun _ => ret true).

Definition isInfluencer : M bool :=
  init ;;
  tryOrReturn
    (perform (WaitForSelector None (Sel "user.profile.base.influencerBadge"))
       (waitForSelector sf (Sel "user.profile.base.influencerBadge")))
    (fun _ => ret false)
    (fun _ => ret true).

(** *** Experiences *)

(** [e?.textContent()] *)
Definition optTextContent (e : option handle) : World -> result (option string) :=
  fun w =>
    match e with
    | Some h => el_textContent sf h w
    | None => Ok None
    end.

(** [roleElement.$(sel).then((e) => e?.textContent())] *)
Definition queryText (scope : handle) (sel : selector) : World -> result (option string) :=
  fun w =>
    match el_query sf scope sel w with
    | Ok e => optTextContent e w
    | Err e => Err e
    end.

(** [xs[i]!.textContent()]: the property read throws on [undefined]. *)
Definition textContentAt (xs : list handle) (i : nat) : M (result (option string)) :=
  match nth_error xs i with
  | Some h => promise (el_textContent sf h)
  | None => throw TypeError
  end.

(** The callback mapped over [roleElements] in
    [getExperiencesWithMultipleRoles]. *)
Definition roleOf (roleElement : handle) : M Role.t :=
  roleName <- promise (queryText roleElement (Sel "user.profile.experience.roleName")) ;;
  roleInfoP <- promise (el_queryAll sf roleElement (Sel "user.profile.experience.roleInfo")) ;;
  contractType <-
    promise (safeTextContent sf (Sel "user.profile.experience.contratType") roleElement) ;;
  roleInfo <- await roleInfoP ;;
  roleLocation <-
    (if (2 <? List.length roleInfo)%nat then textContentAt roleInfo 2
     else ret (Ok (Some ""))) ;;
  t0P <- textContentAt roleInfo 0 ;;
  t0 <- await t0P ;;
  let ti := splitDashes (nullish t0 "") in
  durationP <- textContentAt roleInfo 1 ;;
  descriptionP <-
    promise (filteredTextContent sf (Sel "user.profile.experience.roleDescription")
               (Sel "user.profile.experience.roleDescriptionMore") roleElement) ;;
  rn <- await roleName ;;
  ct <- await contractType ;;
  rl <- await roleLocation ;;
  duration <- await durationP ;;
  description <- await descriptionP ;;
  ret {| Role.name := nullish rn "";
         Role.location := nullish rl "";
         Role.description := nullish description "";
         Role.duration := JS.trim (nullish duration "");
         Role.timeInterval := roleTimeInterval ti;
         Role.contractType := ct |}.

Definition getExperiencesWithMultipleRoles
  (experienceItem : handle) (roleElements : list handle) (companyInternalURL : string)
  : M Experience.t :=
  companyNameP <-
    promise (safeTextContent sf (Sel "user.profile.experience.groupTitle") experienceItem) ;;
  totalDurationP <-
    promise (safeTextContent sf (Sel "user.profile.experience.groupSubTitle") experienceItem) ;;
  companyName <- await companyNameP ;;
  totalDuration <- await totalDurationP ;;
  roles <- mapM roleOf roleElements ;;
  ret {| Experience.company :=
           {| Company.linkedInURL := companyInternalURL;
              Company.name := Some companyName |};
         Experience.roles := roles;
         Experience.location := "";
         Experience.totalDuration := totalDuration |}.

Definition summary (s : selector) : selector :=
  Cat (Sel "user.profile.experience.summary") s.

Definition getExperienceWithSingleRole
  (experienceItem : handle) (companyURL : result string) : M Experience.t :=
  let companyName := summary (Sel "user.profile.experience.companyName") in
  let roleName := summary (XPath "//h3") in
  let timeInterval := summary (Sel "user.profile.experience.timeInterval") in
  let location := summary (Sel "user.profile.experience.location") in
  let duration := summary (Sel "user.profile.experience.duration") in
  let description := Sel "user.profile.experience.description" in
  cnP <- promise (safeTextContent sf companyName experienceItem) ;;
  tIntervalP <- promise (safeTextContent sf timeInterval experienceItem) ;;
  locP <- promise (safeTextContent sf location experienceItem) ;;
  durP <- promise (safeTextContent sf duration experienceItem) ;;
  descP <- promise (safeTextContent sf description experienceItem) ;;
  rnP <- promise (safeTextContent sf roleName experienceItem) ;;
  cn <- await cnP ;;
  tInterval <- await tIntervalP ;;
  loc <- await locP ;;
  dur <- await durP ;;
  desc <- await descP ;;
  rn <- await rnP ;;
  url <- await companyURL ;;
  await (singleRoleExperience cn tInterval loc dur desc rn url).

(** The callback mapped over the company blocks in [experiences]. *)
Definition experienceOf (experienceItem : handle) : M Experience.t :=
  companyURLLink <- promise (getAttributeSafe sf (XPath "//a") "href" experienceItem) ;;
  roleElements <-
    promise (el_queryAll sf experienceItem (Sel "user.profile.experience.roleContainer")) ;;
  perform
    (ClickUntilElementDissapears (Sel "user.profile.experience.expandRoles")
       (Some experienceItem))
    (clickUntilElementDissapears sf (Sel "user.profile.experience.expandRoles")
       (Some experienceItem)) ;;
  re <- await roleElements ;;
  curl <- await companyURLLink ;;
  if negb (List.length re =? 0)%nat
  then getExperiencesWithMultipleRoles experienceItem re curl
  else getExperienceWithSingleRole experienceItem companyURLLink.

Definition experiences : M (list Experience.t) :=
  init ;;
  tryOrReturn
    (perform (ScrollUntilElementAppears (Sel "user.profile.experience.group"))
       (scrollUntilElementAppears sf (Sel "user.profile.experience.group")))
    (fun _ => ret [])
    (fun _ =>
       perform (ClickUntilElementDissapears (Sel "user.profile.experience.moreButton") None)
         (clickUntilElementDissapears sf (Sel "user.profile.experience.moreButton") None) ;;
       p <- promise (queryAll sf (Sel "user.profile.experience.group")) ;;
       experienceWE <- await p ;;
       mapM experienceOf experienceWE).

(** *** Education *)

Definition educationItem (educationListItem : handle) : M Education.t :=
  let read sel := promise (safeTextContent sf sel educationListItem) in
  schoolNameP <- read (Sel "user.profile.education.schoolName") ;;
  schoolURLP <- promise (getAttributeSafe sf (XPath "//a") "href" educationListItem) ;;
  dateIntervalP <- read (Sel "user.profile.education.date") ;;
  fieldOfStudyP <- read (Sel "user.profile.education.fieldName") ;;
  degreeP <- read (Sel "user.profile.education.degreeName") ;;
  descriptionP <- read (Sel "user.profile.education.description") ;;
  activitiesAndSocietiesP <- read (Sel "user.profile.education.activitiesAndSocieties") ;;
  schoolName <- await schoolNameP ;;
  schoolURL <- await schoolURLP ;;
  dateInterval <- await dateIntervalP ;;
  fieldOfStudy <- await fieldOfStudyP ;;
  degree <- await degreeP ;;
  description <- await descriptionP ;;
  activitiesAndSocieties <- await activitiesAndSocietiesP ;;
  ret (educationOf schoolName schoolURL dateInterval fieldOfStudy degree description
         activitiesAndSocieties).

Definition education : M (list Education.t) :=
  init ;;
  tryOrReturn
    (perform (ScrollUntilElementAppears (Sel "user.profile.education.section"))
       (scrollUntilElementAppears sf (Sel "user.profile.education.section")))
    (fun _ => ret [])
    (fun _ =>
       p <- promise (query sf (Sel "user.profile.education.section")) ;;
       educationSection <- await p ;;
       perform
         (ClickUntilElementDissapears (Sel "user.profile.education.seeMoreButton")
            educationSection)
         (clickUntilElementDissapears sf (Sel "user.profile.education.seeMoreButton")
            educationSection) ;;
       q <- promise (queryAll sf (Sel "user.profile.education.listItem")) ;;
       educationListItems <- await q ;;
       mapM educationItem educationListItems).

(** *** Certifications *)

Definition certificationItemOf (certificationItem : handle) : M Certification.t :=
  companyUrlP <-
    promise (getAttributeSafe sf (Sel "user.profile.certifications.companyURL") "href"
               certificationItem) ;;
  companyNameP <-
    promise (safeTextContent sf (Sel "user.profile.certifications.companyName")
               certificationItem) ;;
  certificateNameP <-
    promise (safeTextContent sf (Sel "user.profile.certifications.name") certificationItem) ;;
  datesP <-
    promise (safeTextContent sf (Sel "user.profile.certifications.dates") certificationItem) ;;
  credentialIdP <-
    promise (safeTextContent sf (Sel "user.profile.certifications.credential.id")
               certificationItem) ;;
  credentialURLP <-
    promise (getAttributeSafe sf (Sel "user.profile.certifications.credential.url") "href"
               certificationItem) ;;
  companyUrl <- await companyUrlP ;;
  companyName <- await companyNameP ;;
  certificateName <- await certificateNameP ;;
  dates <- await datesP ;;
  credentialId <- await credentialIdP ;;
  credentialURL <- await credentialURLP ;;
  ret (certificationOf companyUrl companyName certificateName dates credentialId
         credentialURL).

Definition certifications : M (list Certification.t) :=
  init ;;
  tryOrReturn
    (perform (ScrollUntilElementAppears (Sel "user.profile.certifications.section"))
       (scrollUntilElementAppears sf (Sel "user.profile.certifications.section")))
    (fun _ => ret [])
    (fun _ =>
       p <- promise (query sf (Sel "user.profile.certifications.section")) ;;
       section <- await p ;;
       perform
         (ClickUntilElementDissapears (Sel "user.profile.certifications.seeMore") section)
         (clickUntilElementDissapears sf (Sel "user.profile.certifications.seeMore") section) ;;
       perform (WaitForTimeout 5000 0) (waitForTimeout sf) ;;
       match section with
       | None => throw TypeError          (* section.$$ on null *)
       | Some s =>
           q <- promise (el_queryAll sf s (Sel "user.profile.certifications.item")) ;;
           certificationItems <- await q ;;
           mapM certificationItemOf certificationItems
       end).

(** *** Skills and endorsements *)

(** The [while] loop of [getEndorsementsFromPopup]. *)
Fixpoint scrollToEnd (fuel : nat) (listContainer : option handle)
  (elementScrollCompleted : bool) : M unit :=
  if elementScrollCompleted then ret tt
  else
    match fuel with
    | O => fun _ => OutOfFuel
    | S fuel' =>
        perform (ScrollElement listContainer) (scrollElement sf listContainer) ;;
        perform (WaitForTimeout 5000 5000) (waitForTimeout sf) ;;
        p <- promise (elementCompletelyScrolled sf listContainer) ;;
        completed <- await p ;;
        scrollToEnd fuel' listContainer completed
    end.

Definition endorserOf (endorser : handle) : M User.t :=
  nameP <-
    promise (safeTextContent sf (Sel "user.profile.skills.enodorsements.entityName")
               endorser) ;;
  name <- await nameP ;;
  hrefP <-
    promise (getAttributeSafe sf (Sel "user.profile.skills.enodorsements.entityLink")
               "href" endorser) ;;
  href <- await hrefP ;;
  ret {| User.name := name; User.username := usernameOf href |}.

(** [await x?.click()] *)
Definition optClick (x : option handle) : M unit :=
  match x with
  | Some h => perform (Click h) (el_click sf h)
  | None => ret tt
  end.

Definition getEndorsementsFromPopup (fuel : nat) (element : option handle)
  : M (list User.t) :=
  let popup := Sel "user.profile.skills.enodorsements.popup" in
  let listSel := Sel "user.profile.skills.enodorsements.listContainer" in
  optClick element ;;
  perform (WaitForSelector None popup) (waitForSelector sf popup) ;;
  p <- promise (query sf popup) ;;
  popupContainer <- await p ;;
  listContainer <-
    match popupContainer with
    | Some pc =>
        lc <- perform (WaitForSelector (Some pc) listSel) (el_waitForSelector sf pc listSel) ;;
        ret (Some lc)
    | None => ret None
    end ;;
  c <- promise (elementCompletelyScrolled sf listContainer) ;;
  elementScrollCompleted <- await c ;;
  scrollToEnd fuel listContainer elementScrollCompleted ;;
  match listContainer with
  | None => throw TypeError               (* listContainer!.$$ on undefined *)
  | Some lc =>
      q <- promise (el_queryAll sf lc (Sel "user.profile.skills.enodorsements.entity")) ;;
      endorsers <- await q ;;
      users <- mapM endorserOf endorsers ;;
      closeP <-
        match popupContainer with
        | Some pc =>
            promise (el_query sf pc (Sel "user.profile.skills.enodorsements.closeButton"))
        | None => ret (Ok None)
        end ;;
      closeButton <- await closeP ;;
      optClick closeButton ;;
      ret users
  end.

(** The body of the [for] loop of [skills]. *)
Definition skillOf (fuel : nat) (detailed : bool) (skillItem : handle) : M Skill.t :=
  let itemDetailsLink := Sel "user.profile.skills.itemDetailsLink" in
  skillName <-
    promise (safeTextContent sf (Sel "user.profile.skills.entityName") skillItem) ;;
  hasLinkedInAssesmentBadge <-
    promise (isElementPresent sf (Sel "user.profile.skills.assesmentBadge") skillItem) ;;
  numberOfEndorsements <-
    promise (safeTextContent sf
               (Cat itemDetailsLink (Sel "user.profile.skills.numberOfEndorsements"))
               skillItem) ;;
  n <- await numberOfEndorsements ;;
  let nbe := JS.parseInt n in
  endorsers <-
    (if detailed then
       linkP <- promise (el_query sf skillItem itemDetailsLink) ;;
       link <- await linkP ;;
       getEndorsementsFromPopup fuel link
     else ret []) ;;
  name <- await skillName ;;
  badge <- await hasLinkedInAssesmentBadge ;;
  ret {| Skill.endorsements := endorsers;
         Skill.name := JS.trim name;
         Skill.hasLinkedInAssesmentBadge := badge;
         Skill.numberOfEndorsements := nbe |}.

Definition skills (fuel : nat) (detailed : bool) : M (list Skill.t) :=
  init ;;
  tryOrReturn
    (perform (ScrollUntilElementAppears (Sel "user.profile.skills.section"))
       (scrollUntilElementAppears sf (Sel "user.profile.skills.section")))
    (fun _ => ret [])
    (fun _ =>
       p <- promise (query sf (Sel "user.profile.skills.section")) ;;
       section <- await p ;;
       perform (ClickUntilElementDissapears (Sel "user.profile.skills.seeMore") section)
         (clickUntilElementDissapears sf (Sel "user.profile.skills.seeMore") section) ;;
       perform (WaitForTimeout 5000 0) (waitForTimeout sf) ;;
       q <- promise (queryAll sf
                       (Cat (Sel "user.profile.skills.section")
                          (Sel "user.profile.skills.item"))) ;;
       skillItems <- await q ;;
       mapM (skillOf fuel detailed) skillItems).

End Methods.

End StringHelper.

End UserProfileModule.

(* ===================================================================== *)
(** * Vocabulary of the statements                                        *)
(* ===================================================================== *)

(** [absent c s]: the character [c] does not occur in [s]. *)
Fixpoint absent (c : ascii) (s : string) : bool :=
  match s with
  | EmptyString => true
  | String a s' => negb (Ascii.eqb a c) && absent c s'
  end.

Module Trace.
Import Surface Async.

Definition isGoto (ev : event) : bool :=
  match ev with Goto _ => true | _ => false end.

Definition isClick (ev : event) : bool :=
  match ev with Click _ => true | _ => false end.

(** Number of [page.goto] calls in a history. *)
Definition navigations (w : World) : nat := List.length (filter isGoto w).

(** Number of [click] calls on element handles in a history. *)
Definition clicks (w : World) : nat := List.length (filter isClick w).

(** The history a method leaves behind, when it ends. *)
Definition finalWorld {A} (o : outcome A) : option World :=
  match o with
  | Ret _ w => Some w
  | Thrown _ w => Some w
  | OutOfFuel => None
  end.

Definition throws {A} (o : outcome A) : Prop :=
  exists e w, o = Thrown e w.

(** A method that never calls [page.goto]. *)
Definition stays {A} (c : M A) : Prop :=
  forall w w', finalWorld (c w) = Some w' -> navigations w' = navigations w.

(** A method that only reads: it ends, and leaves the history as it was. *)
Definition reads {A} (c : M A) : Prop :=
  forall w, (exists a, c w = Ret a w) \/ (exists e, c w = Thrown e w).

End Trace.

(** The public accessors of the class, each of which starts with
    [await this.init()]. *)
Inductive accessor : Type :=
| FullName | ShortDescription | Location | About | IsPremium | IsInfluencer
| Experiences | EducationList | Certifications | Skills (detailed : bool).

Definition void {A} (c : Async.M A) : Async.M unit := Async.bind c (fun _ => Async.ret tt).

Definition call (splitDashes : string -> list string) (sf : Surface.Surface)
  (id : string) (fuel : nat) (a : accessor) : Async.M unit :=
  match a with
  | FullName => void (UserProfileModule.fullName sf id)
  | ShortDescription => void (UserProfileModule.shortDescription sf id)
  | Location => void (UserProfileModule.location sf id)
  | About => void (UserProfileModule.about sf id)
  | IsPremium => void (UserProfileModule.isPremium sf id)
  | IsInfluencer => void (UserProfileModule.isInfluencer sf id)
  | Experiences => void (UserProfileModule.experiences splitDashes sf id)
  | EducationList => void (UserProfileModule.education splitDashes sf id)
  | Certifications => void (UserProfileModule.certifications sf id)
  | Skills detailed => void (UserProfileModule.skills sf id fuel detailed)
  end.

(** The intervals of the roles of an experience that was built. *)
Definition intervalsOf (r : Surface.result Experience.t) : option (list DateInterval.t) :=
  match r with
  | Surface.Ok e => Some (map Role.timeInterval (Experience.roles e))
  | Surface.Err _ => None
  end.

(** A caller that awaits the four section extractors one after the other. *)
Definition sections (splitDashes : string -> list string) (sf : Surface.Surface)
  (id : string) (fuel : nat) (detailed : bool)
  : Async.M (list Experience.t * list Education.t * list Certification.t * list Skill.t) :=
  Async.bind (UserProfileModule.experiences splitDashes sf id) (fun xs =>
  Async.bind (UserProfileModule.education splitDashes sf id) (fun es =>
  Async.bind (UserProfileModule.certifications sf id) (fun cs =>
  Async.bind (UserProfileModule.skills sf id fuel detailed) (fun ss =>
  Async.ret (xs, es, cs, ss))))).

(** ** Pages used to run the methods on *)

Module Sample.
Import Surface.

Definition profile : string := UserProfileModule.profileURL "jane-doe".

(** A page already on the profile of [jane-doe].  [sections] tells whether
    the section waits succeed; a wait for any other selector fails with
    [waitError]; every list query answers [items], the role-info query
    [roleInfo]; no detail link, popup or close button is ever found; a text
    or an attribute read through a selector answers [texts] of it, a text
    read on a handle answers [text]. *)
Definition page (sections : bool) (waitError : error) (items roleInfo : list handle)
  (texts : selector -> string) (text : string) : Surface :=
  {| url := fun _ => profile;
     goto := fun _ _ => Ok tt;
     textContent := fun sel _ => Ok (Some (texts sel));
     waitForSelector := fun _ _ => Err waitError;
     query := fun _ _ => Ok (Some 0);
     queryAll := fun _ _ => Ok items;
     waitForTimeout := fun _ => Ok tt;
     el_query := fun _ _ _ => Ok None;
     el_queryAll := fun _ sel _ =>
       if selector_eqb sel (Sel "user.profile.experience.roleInfo") then Ok roleInfo
       else Ok items;
     el_textContent := fun _ _ => Ok (Some text);
     el_click := fun _ _ => Ok tt;
     el_waitForSelector := fun _ _ _ => Err waitError;
     scrollUntilElementAppears := fun _ _ =>
       if sections then Ok tt else Err TimeoutError;
     clickUntilElementDissapears := fun _ _ _ => Ok tt;
     getAttributeSafe := fun sel _ _ _ => Ok (texts sel);
     safeTextContent := fun sel _ _ => Ok (texts sel);
     isElementPresent := fun _ _ _ => Ok false;
     filteredTextContent := fun sel _ _ _ => Ok (Some (texts sel));
     elementCompletelyScrolled := fun _ _ => Ok true;
     scrollElement := fun _ _ => Ok tt |}.

(** The texts of a company block with a single role. *)
Definition acme (sel : selector) : string :=
  if selector_eqb sel (UserProfileModule.summary (Sel "user.profile.experience.companyName"))
  then "Acme Corp" ++ String "010" "Full-time"
  else if selector_eqb sel
            (UserProfileModule.summary (Sel "user.profile.experience.timeInterval"))
  then "Jan 2019 - Mar 2021"
  else if selector_eqb sel (XPath "//a") then "/company/acme/"
  else "".

(** The texts of a skill endorsed three times by [jane-doe]. *)
Definition endorsed (sel : selector) : string :=
  if selector_eqb sel (Sel "user.profile.skills.enodorsements.entityLink")
  then "/in/jane-doe/"
  else "3".

(** The same page seen from elsewhere: [page.url()] answers [here] until a
    navigation has been made. *)
Definition pageAt (here : string) : Surface :=
  let p := page true TimeoutError [] [] (fun _ => "") "" in
  {| url := fun w => if (Trace.navigations w =? 0)%nat then here else profile;
     goto := goto p;
     textContent := textContent p;
     waitForSelector := waitForSelector p;
     query := query p;
     queryAll := queryAll p;
     waitForTimeout := waitForTimeout p;
     el_query := el_query p;
     el_queryAll := el_queryAll p;
     el_textContent := el_textContent p;
     el_click := el_click p;
     el_waitForSelector := el_waitForSelector p;
     scrollUntilElementAppears := scrollUntilElementAppears p;
     clickUntilElementDissapears := clickUntilElementDissapears p;
     getAttributeSafe := getAttributeSafe p;
     safeTextContent := safeTextContent p;
     isElementPresent := isElementPresent p;
     filteredTextContent := filteredTextContent p;
     elementCompletelyScrolled := elementCompletelyScrolled p;
     scrollElement := scrollElement p |}.

End Sample.

(** ** Decimal numerals *)

(** The decimal numeral of a natural number, most significant digit first:
    the digits of [n] are put in front of [acc], last digit first. *)
Fixpoint decimalDigits (fuel n : nat) (acc : string) : string :=
  match fuel with
  | O => acc
  | S fuel' =>
      let acc' := String (ascii_of_nat (48 + n mod 10)) acc in
      if (n / 10 =? 0)%nat then acc' else decimalDigits fuel' (n / 10) acc'
  end.

Definition decimal (n : nat) : string := decimalDigits (S n) n "".

(** ** More vocabulary *)

(** [allOf p s]: every character of [s] satisfies [p]. *)
Fixpoint allOf (p : ascii -> bool) (s : string) : bool :=
  match s with
  | EmptyString => true
  | String c s' => p c && allOf p s'
  end.

(** The 256 characters. *)
Definition allAscii : list ascii := map ascii_of_nat (seq 0 256).

Module Trace2.
Import Surface Async Trace.

(** A method that adds no event selected by [p] to the history. *)
Definition keeps {A} (p : event -> bool) (c : M A) : Prop :=
  forall w w', finalWorld (c w) = Some w' -> filter p w' = filter p w.

(** The events of the endorsers popup: a click on a handle, a wait for a
    selector, a scroll of the list. *)
Definition isPopupEvent (ev : event) : bool :=
  match ev with
  | Click _ | WaitForSelector _ _ | ScrollElement _ => true
  | _ => false
  end.

Definition isScroll (ev : event) : bool :=
  match ev with ScrollElement _ => true | _ => false end.

(** Number of [scrollElement] calls in a history. *)
Definition scrolls (w : World) : nat := List.length (filter isScroll w).

(** The history after [k] more rounds of the scroll loop on [lc]: a scroll,
    then a pause of five to ten seconds. *)
Fixpoint afterScrolls (k : nat) (lc : option handle) (w : World) : World :=
  match k with
  | O => w
  | S k' => afterScrolls k' lc (WaitForTimeout 5000 5000 :: ScrollElement lc :: w)
  end.

End Trace2.

(** ** What a match is *)

Module Matching.
Import RegExp.

(** [Matches i r x y]: the expression [r] can take the matcher from the
    state [x] to the state [y].  This is the relation the backtracking
    matcher searches, without the order in which it tries the ways. *)
Fixpoint Matches (i : bool) (r : regex) (x y : mstate) : Prop :=
  match r with
  | Eps => y = x
  | Lit a =>
      exists b s', rest x = String b s' /\ litMatches i a b = true
                   /\ y = MState (S (pos x)) s' (caps x)
  | Cls k =>
      exists b s', rest x = String b s' /\ cclass_mem k b = true
                   /\ y = MState (S (pos x)) s' (caps x)
  | Bol => pos x = 0%nat /\ y = x
  | Eol => rest x = EmptyString /\ y = x
  | Star k =>
      exists seg, allOf (cclass_mem k) seg = true /\ rest x = seg ++ rest y
                  /\ pos y = (pos x + String.length seg)%nat /\ caps y = caps x
  | Opt r' => y = x \/ (Matches i r' x y /\ pos y <> pos x)
  | Grp n r' =>
      exists y0, Matches i r' x y0
                 /\ y = MState (pos y0) (rest y0)
                        (setCapture (n - 1) (Some (JS.take (pos y0 - pos x) (rest x)))
                           (caps y0))
  | Seq r1 r2 => exists z, Matches i r1 x z /\ Matches i r2 z y
  end.

(** An expression without capture groups. *)
Fixpoint groupFree (r : regex) : bool :=
  match r with
  | Grp _ _ => false
  | Opt r' => groupFree r'
  | Seq r1 r2 => groupFree r1 && groupFree r2
  | _ => true
  end.

End Matching.

(** ** More pages to run the methods on *)

Module Pages.
Import Surface.

(** [p] with another answer to [page.textContent]. *)
Definition withTextContent (f : selector -> World -> result (option string)) (p : Surface)
  : Surface :=
  {| url := url p;
     goto := goto p;
     textContent := f;
     waitForSelector := waitForSelector p;
     query := query p;
     queryAll := queryAll p;
     waitForTimeout := waitForTimeout p;
     el_query := el_query p;
     el_queryAll := el_queryAll p;
     el_textContent := el_textContent p;
     el_click := el_click p;
     el_waitForSelector := el_waitForSelector p;
     scrollUntilElementAppears := scrollUntilElementAppears p;
     clickUntilElementDissapears := clickUntilElementDissapears p;
     getAttributeSafe := getAttributeSafe p;
     safeTextContent := safeTextContent p;
     isElementPresent := isElementPresent p;
     filteredTextContent := filteredTextContent p;
     elementCompletelyScrolled := elementCompletelyScrolled p;
     scrollElement := scrollElement p |}.

(** [p] with another answer to [page.goto]. *)
Definition withGoto (f : string -> World -> result unit) (p : Surface) : Surface :=
  {| url := url p;
     goto := f;
     textContent := textContent p;
     waitForSelector := waitForSelector p;
     query := query p;
     queryAll := queryAll p;
     waitForTimeout := waitForTimeout p;
     el_query := el_query p;
     el_queryAll := el_queryAll p;
     el_textContent := el_textContent p;
     el_click := el_click p;
     el_waitForSelector := el_waitForSelector p;
     scrollUntilElementAppears := scrollUntilElementAppears p;
     clickUntilElementDissapears := clickUntilElementDissapears p;
     getAttributeSafe := getAttributeSafe p;
     safeTextContent := safeTextContent p;
     isElementPresent := isElementPresent p;
     filteredTextContent := filteredTextContent p;
     elementCompletelyScrolled := elementCompletelyScrolled p;
     scrollElement := scrollElement p |}.

Definition plain : Surface := Sample.page true TimeoutError [] [] (fun _ => "") "".

(** A profile whose info block reads [info] and whose toggle reads
    [toggle]. *)
Definition withInfo (info toggle : string) : Surface :=
  Sample.page true TimeoutError [] []
    (fun sel =>
       if selector_eqb sel (Sel "user.profile.base.infoTextToDelete") then toggle
       else info)
    "".

(** A profile with two skills and an endorsers popup that opens: the list
    in it is completely scrolled once [n] scrolls have been made, and holds
    the endorsers [endorsers]; the popup has the close button 9. *)
Definition withPopup (n : nat) (endorsers : list handle) : Surface :=
  let p := Sample.page true TimeoutError [1; 2] [] Sample.endorsed "" in
  {| url := url p;
     goto := goto p;
     textContent := textContent p;
     waitForSelector := fun _ _ => Ok 7;
     query := query p;
     queryAll := queryAll p;
     waitForTimeout := waitForTimeout p;
     el_query := fun _ sel _ =>
       if selector_eqb sel (Sel "user.profile.skills.enodorsements.closeButton")
       then Ok (Some 9) else Ok (Some 5);
     el_queryAll := fun _ _ _ => Ok endorsers;
     el_textContent := el_textContent p;
     el_click := el_click p;
     el_waitForSelector := fun _ _ _ => Ok 8;
     scrollUntilElementAppears := scrollUntilElementAppears p;
     clickUntilElementDissapears := clickUntilElementDissapears p;
     getAttributeSafe := getAttributeSafe p;
     safeTextContent := safeTextContent p;
     isElementPresent := isElementPresent p;
     filteredTextContent := filteredTextContent p;
     elementCompletelyScrolled := fun _ v => Ok (n <=? Trace2.scrolls v)%nat;
     scrollElement := scrollElement p |}.

(** The texts of an education item and of a certification item. *)
Definition records (sel : selector) : string :=
  if selector_eqb sel (Sel "user.profile.education.date") then "2015 - 2019"
  else if selector_eqb sel (Sel "user.profile.certifications.dates")
  then "Issued Jan 2022 No Expiration Date"
  else if selector_eqb sel (Sel "user.profile.certifications.credential.id")
  then "Credential ID ABC-123"
  else "MIT".

(** A profile whose sections are announced but whose section elements are
    not found by the query that follows. *)
Definition vanishing : Surface :=
  let p := plain in
  {| url := url p;
     goto := goto p;
     textContent := textContent p;
     waitForSelector := waitForSelector p;
     query := fun _ _ => Ok None;
     queryAll := queryAll p;
     waitForTimeout := waitForTimeout p;
     el_query := el_query p;
     el_queryAll := el_queryAll p;
     el_textContent := el_textContent p;
     el_click := el_click p;
     el_waitForSelector := el_waitForSelector p;
     scrollUntilElementAppears := scrollUntilElementAppears p;
     clickUntilElementDissapears := clickUntilElementDissapears p;
     getAttributeSafe := getAttributeSafe p;
     safeTextContent := safeTextContent p;
     isElementPresent := isElementPresent p;
     filteredTextContent := filteredTextContent p;
     elementCompletelyScrolled := elementCompletelyScrolled p;
     scrollElement := scrollElement p |}.

(** A profile with one company block, the handle 7, in which no role
    sub-item is found; the texts of the block are [texts]. *)
Definition singleRole (texts : selector -> string) : Surface :=
  let p := Sample.page true TimeoutError [7] [] texts "" in
  {| url := url p;
     goto := goto p;
     textContent := textContent p;
     waitForSelector := waitForSelector p;
     query := query p;
     queryAll := queryAll p;
     waitForTimeout := waitForTimeout p;
     el_query := el_query p;
     el_queryAll := fun _ _ _ => Ok [];
     el_textContent := el_textContent p;
     el_click := el_click p;
     el_waitForSelector := el_waitForSelector p;
     scrollUntilElementAppears := scrollUntilElementAppears p;
     clickUntilElementDissapears := clickUntilElementDissapears p;
     getAttributeSafe := getAttributeSafe p;
     safeTextContent := safeTextContent p;
     isElementPresent := isElementPresent p;
     filteredTextContent := filteredTextContent p;
     elementCompletelyScrolled := elementCompletelyScrolled p;
     scrollElement := scrollElement p |}.

(** The texts of [Sample.acme] with the company text [cn]. *)
Definition blockWith (cn : string) (sel : selector) : string :=
  if selector_eqb sel (UserProfileModule.summary (Sel "user.profile.experience.companyName"))
  then cn
  else Sample.acme sel.

(** A page away from the profile that cannot be navigated. *)
Definition unreachable : Surface :=
  withGoto (fun _ _ => Err (SurfaceError "net::ERR_NAME_NOT_RESOLVED"))
    (Sample.pageAt "about:blank").

End Pages.

(* ===================================================================== *)
(** * Facts about the string primitives                                   *)
(* ===================================================================== *)

Section StringFacts.

Example trim_blanks : JS.trim (String "009" " Jan 2019 " ++ String "010" "") = "Jan 2019".
Proof. reflexivity. Qed.

Example split_dashes : JS.split "-" "2015 - 2019" = ["2015 "; " 2019"].
Proof. reflexivity. Qed.

Example split_empty : JS.split "-" "" = [""].
Proof. reflexivity. Qed.

Example parseInt_year : JS.parseInt " 2019" = JS.Num 2019.
Proof. reflexivity. Qed.

Example parseInt_prefix : JS.parseInt "-12px" = JS.Num (-12).
Proof. reflexivity. Qed.

Example parseInt_empty : JS.parseInt "" = JS.NaN.
Proof. reflexivity. Qed.

Example lastIndexOf_last : JS.lastIndexOf "abcabc" "bc" = 4%Z.
Proof. reflexivity. Qed.

Example lastIndexOf_none : JS.lastIndexOf "abc" "x" = (-1)%Z.
Proof. reflexivity. Qed.

Example aboutText_cut :
  UserProfileModule.aboutText "About  Hello world see more " "see more" = "About  Hello world".
Proof. reflexivity. Qed.

Example credential_label_removed :
  JS.trim (RegExp.replace " Credential ID ABC-123 " UserProfileModule.credentialIdRegExp [])
  = "ABC-123".
Proof. reflexivity. Qed.

Lemma split_nonempty (c : ascii) (s : string) : JS.split c s <> [].
Proof.
  induction s as [|a s IH]; simpl; [discriminate|].
  destruct (Ascii.eqb a c); [discriminate|].
  destruct (JS.split c s); [contradiction|discriminate].
Qed.

Lemma split_absent (c : ascii) (s : string) :
  absent c s = true -> JS.split c s = [s].
Proof.
  induction s as [|a s IH]; simpl; intros H; [reflexivity|].
  apply andb_true_iff in H as [Ha Hs].
  apply negb_true_iff in Ha. rewrite Ha, (IH Hs). reflexivity.
Qed.

Lemma split_app (c : ascii) (a b : string) :
  absent c a = true -> JS.split c (a ++ String c b) = a :: JS.split c b.
Proof.
  induction a as [|x a IH]; simpl; intros H.
  - rewrite Ascii.eqb_refl. reflexivity.
  - apply andb_true_iff in H as [Hx Ha].
    apply negb_true_iff in Hx. rewrite Hx, (IH Ha). reflexivity.
Qed.

Lemma trimEnd_app_blank (a : string) (c : ascii) :
  JS.isWhiteSpace c = true -> JS.trimEnd (a ++ String c "") = JS.trimEnd a.
Proof.
  intros Hc. induction a as [|x a IH]; simpl.
  - rewrite Hc. reflexivity.
  - rewrite IH. reflexivity.
Qed.

Lemma trimStart_app_blank (a : string) (c : ascii) :
  JS.isWhiteSpace c = true ->
  (JS.trimStart a = "" /\ JS.trimStart (a ++ String c "") = "")
  \/ JS.trimStart (a ++ String c "") = JS.trimStart a ++ String c "".
Proof.
  intros Hc. induction a as [|x a IH]; simpl.
  - left. rewrite Hc. split; reflexivity.
  - destruct (JS.isWhiteSpace x); [exact IH|]. right. reflexivity.
Qed.

Lemma trim_app_blank (a : string) (c : ascii) :
  JS.isWhiteSpace c = true -> JS.trim (a ++ String c "") = JS.trim a.
Proof.
  intros Hc. unfold JS.trim.
  destruct (trimStart_app_blank a c Hc) as [[H1 H2]|H].
  - rewrite H1, H2. reflexivity.
  - rewrite H. apply trimEnd_app_blank. exact Hc.
Qed.

Lemma trim_blank_app (b : string) (c : ascii) :
  JS.isWhiteSpace c = true -> JS.trim (String c b) = JS.trim b.
Proof. intros Hc. unfold JS.trim. simpl. rewrite Hc. reflexivity. Qed.

Lemma append_assoc (a b c : string) : (a ++ b) ++ c = a ++ (b ++ c).
Proof. induction a as [|x a IH]; simpl; [reflexivity|]. rewrite IH. reflexivity. Qed.

Lemma append_empty_r (a : string) : a ++ "" = a.
Proof. induction a as [|x a IH]; simpl; [reflexivity|]. rewrite IH. reflexivity. Qed.

(** The dash-split of ["A - B"] when neither side holds a dash. *)
Lemma splitDashes_pair (a b : string) :
  absent "-" a = true -> absent "-" b = true ->
  StringHelpers.splitDashes (a ++ " - " ++ b) = [a ++ " "; String " " b].
Proof.
  intros Ha Hb. unfold StringHelpers.splitDashes.
  change (a ++ " - " ++ b) with (a ++ String " " (String "-" (String " " b))).
  replace (a ++ String " " (String "-" (String " " b)))
    with ((a ++ " ") ++ String "-" (String " " b))
    by (rewrite append_assoc; reflexivity).
  rewrite split_app.
  - rewrite split_absent; [reflexivity|]. simpl. exact Hb.
  - clear Hb. induction a as [|x a IH]; simpl in *; [reflexivity|].
    apply andb_true_iff in Ha as [Hx Ha]. rewrite Hx. simpl. apply IH, Ha.
Qed.

Lemma splitDashes_single (text : string) :
  absent "-" text = true -> StringHelpers.splitDashes text = [text].
Proof. apply split_absent. Qed.

(** The helper as the specification words it answers ["A - B"] with two
    parts that are [A] and [B] up to the blanks around the dash, when
    neither side holds a dash. *)
Lemma splitDashes_sides (a b : string) :
  absent "-" a = true -> absent "-" b = true ->
  exists pa pb,
    StringHelpers.splitDashes (a ++ " - " ++ b) = [pa; pb]
    /\ JS.trim pa = JS.trim a /\ JS.trim pb = JS.trim b.
Proof.
  intros Ha Hb. exists (a ++ " "), (String " " b). split; [|split].
  - apply splitDashes_pair; assumption.
  - apply trim_app_blank. reflexivity.
  - apply trim_blank_app. reflexivity.
Qed.

End StringFacts.

(* ===================================================================== *)
(** * Intervals, dates and names read from texts                          *)
(* ===================================================================== *)

Section Parsing.
Import Surface RegExp UserProfileModule.

(** The date of an education item, part by part: the first part parsed, and
    the second part parsed when there is one. *)
Lemma educationDate_parts (d0 : string) (others : list string) :
  educationDate (d0 :: others)
  = {| EducationDate.start := JS.parseInt d0;
       EducationDate.end_ :=
         match others with
         | d1 :: _ => JS.parseInt d1
         | [] => JS.parseInt d0
         end |}.
Proof. destruct others; reflexivity. Qed.

(** ** Certification dates *)

(** The parts of C1 the code keeps: a dates text the pattern does not match
    leaves both fields empty, and a match that has the "no" group but no
    date after it has the expiration ["N/A"]. *)
Lemma parseDates_unmatched (dates : string) :
  match_ dates datesRegExp = None ->
  parseDates dates = {| issued := ""; expiration := "" |}.
Proof. unfold parseDates. intros ->. reflexivity. Qed.

Lemma parseDates_no_expiration (dates : string) (mr : MatchResult) :
  match_ dates datesRegExp = Some mr ->
  group mr 3 = None ->
  expiration (parseDates dates) = "N/A".
Proof.
  unfold parseDates. intros -> H3. simpl. rewrite H3.
  destruct (truthy _); reflexivity.
Qed.

Example parseDates_no_expiration_marker :
  parseDates "Issued Jan 2022 No expiration date"
  = {| issued := "Jan 2022"; expiration := "N/A" |}.
Proof. reflexivity. Qed.

(** Whatever the match, the expiration is the text of group 3 only when the
    "no" group took part in the match. *)
Lemma parsedDateOf_without_no (mr : MatchResult) :
  group mr 2 = None -> expiration (parsedDateOf (Some mr)) = "N/A".
Proof. intros H. simpl. rewrite H. reflexivity. Qed.

(** C1, where the code departs from it.  The dates text
    ["Issued Jan 2022 Expiration date Jan 2025"] matches the pattern with an
    explicit expiration month and year, captured by group 3; the "no" group
    is left out of the match, and the certification gets the expiration
    ["N/A"] instead of the captured ["Jan 2025"]. *)
Theorem C1_explicit_expiration_lost
  (companyUrl companyName certificateName credentialId credentialURL : string) :
  let dates := "Issued Jan 2022 Expiration date Jan 2025" in
  match_ dates datesRegExp
    = Some {| index := 0;
              matched := dates;
              groups := [Some "Jan 2022"; None; Some "Jan 2025"] |}
  /\ Certification.issued
       (certificationOf companyUrl companyName certificateName dates credentialId
          credentialURL) = "Jan 2022"
  /\ Certification.expiration
       (certificationOf companyUrl companyName certificateName dates credentialId
          credentialURL) = "N/A".
Proof. cbv zeta. repeat split. Qed.

(** ** Endorser user names *)

Lemma take_length_app (a b : string) : JS.take (String.length a) (a ++ b) = a.
Proof. induction a as [|x a IH]; simpl; [destruct b; reflexivity|]. rewrite IH. reflexivity. Qed.

Lemma drop_length (a : string) : JS.drop (String.length a) a = "".
Proof. induction a as [|x a IH]; simpl; [reflexivity|exact IH]. Qed.

Lemma length_app (a b : string) :
  String.length (a ++ b) = (String.length a + String.length b)%nat.
Proof. induction a as [|x a IH]; simpl; [reflexivity|]. rewrite IH. reflexivity. Qed.

(** A literal in front of an expression, under case-sensitive matching. *)
Lemma m_lit_seq (a : ascii) (r : regex) (x : mstate) (c : cont) (y : mstate) :
  m false (Seq (Lit a) r) x c = Some y ->
  exists s', rest x = String a s' /\ m false r (MState (S (pos x)) s' (caps x)) c = Some y.
Proof.
  simpl. destruct (rest x) as [|b s']; [discriminate|].
  unfold litMatches. destruct (Ascii.eqb_spec b a) as [->|]; [|discriminate].
  intros H. exists s'. split; [reflexivity|exact H].
Qed.

(** An expression anchored at the start finds nothing from a later index. *)
Lemma scan_bol_later (i : bool) (r : regex) (n : nat) (s : string) (p : nat) :
  scan i (Seq Bol r) n s (S p) = None.
Proof.
  revert p. induction s as [|a s IH]; intros p; simpl; [reflexivity|apply IH].
Qed.

(** [[^/]*] in front of a slash takes everything up to that slash, when what
    follows the repetition cannot start with anything but a slash. *)
Lemma mstar_notSlash_upto (seg t : string) (p : nat) (cs : captures) (c : cont) :
  absent "/" seg = true ->
  (forall q a s, cclass_mem notSlash a = true -> c (MState q (String a s) cs) = None) ->
  mstar notSlash (seg ++ String "/" t) p cs c
  = c (MState (p + String.length seg) (String "/" t) cs).
Proof.
  intros Hseg Hc. revert p. induction seg as [|a seg IH]; intros p.
  - simpl. rewrite Nat.add_0_r. reflexivity.
  - simpl in Hseg. apply andb_true_iff in Hseg as [Ha Hseg].
    cbn [append mstar]. change (cclass_mem notSlash a) with (negb (Ascii.eqb a "/")).
    rewrite Ha, (IH Hseg (S p)).
    replace (p + String.length (String a seg))%nat with (S p + String.length seg)%nat
      by (simpl; lia).
    destruct (c (MState (S p + String.length seg) (String "/" t) cs)) eqn:E;
      [reflexivity|].
    apply Hc. change (negb (Ascii.eqb a "/") = true). exact Ha.
Qed.

(** Where [[^/]*] can stop: after a run without slash. *)
Lemma mstar_notSlash_inv (s : string) (p : nat) (cs : captures) (c : cont) (y : mstate) :
  mstar notSlash s p cs c = Some y ->
  exists seg t,
    s = seg ++ t /\ absent "/" seg = true
    /\ c (MState (p + String.length seg) t cs) = Some y.
Proof.
  revert p. induction s as [|a s IH]; intros p H.
  - exists "", "". simpl in *. rewrite Nat.add_0_r. auto.
  - cbn [mstar] in H. change (cclass_mem notSlash a) with (negb (Ascii.eqb a "/")) in H.
    destruct (negb (Ascii.eqb a "/")) eqn:Ha.
    + destruct (mstar notSlash s (S p) cs c) eqn:E.
      * injection H as ->.
        destruct (IH (S p) E) as (seg & t & -> & Hseg & Hy).
        exists (String a seg), t. simpl. rewrite Ha, Hseg.
        replace (p + S (String.length seg))%nat with (S p + String.length seg)%nat by lia.
        auto.
      * exists "", (String a s). simpl. rewrite Nat.add_0_r. auto.
    + exists "", (String a s). simpl. rewrite Nat.add_0_r. auto.
Qed.

Lemma username_match (b : ascii) (seg : string) :
  absent "/" (String b seg) = true ->
  m false (source usernameRegExp) (MState 0 ("/in/" ++ String b seg ++ "/") [None]) Some
  = Some (MState (6 + String.length seg) "" [Some (String b seg)]).
Proof.
  intros H. simpl in H. apply andb_true_iff in H as [Hb Hseg].
  cbn -[mstar JS.take Nat.sub].
  unfold litMatches; cbn -[mstar JS.take Nat.sub].
  rewrite Hb, (mstar_notSlash_upto seg "" 5 [None]); [|exact Hseg|].
  - cbn -[JS.take]. replace (5 + String.length seg - 4)%nat with (String.length (String b seg))
      by (simpl; lia).
    change (String b (seg ++ "/")) with (String b seg ++ "/").
    change (S (String.length seg)) with (String.length (String b seg)).
    rewrite take_length_app. reflexivity.
  - intros q a s Ha. cbn. change (negb (Ascii.eqb a "/") = true) in Ha.
    apply negb_true_iff in Ha. rewrite Ha. reflexivity.
Qed.

Ltac peel H s :=
  let c := fresh "c" in
  destruct s as [|c s]; [discriminate H|];
  cbn -[mstar JS.take Nat.sub] in H;
  match type of H with
  | context [Ascii.eqb c ?a] =>
      destruct (Ascii.eqb_spec c a) as [->|]; [|discriminate H]
  end.

Lemma username_match_inv (href : string) (y : mstate) :
  m false (source usernameRegExp) (MState 0 href [None]) Some = Some y ->
  exists seg, seg <> "" /\ absent "/" seg = true /\ href = "/in/" ++ seg ++ "/".
Proof.
  intros H. cbn -[mstar JS.take Nat.sub] in H. unfold litMatches in H.
  peel H href. peel H href. peel H href. peel H href.
  destruct href as [|b s]; [discriminate H|].
  cbn -[mstar JS.take Nat.sub] in H.
  destruct (negb (Ascii.eqb b "/")) eqn:Hb; [|discriminate H].
  apply mstar_notSlash_inv in H as (seg & t & -> & Hseg & H).
  cbn in H. destruct t as [|c t]; [discriminate H|].
  destruct (Ascii.eqb_spec c "/") as [->|]; [|discriminate H].
  destruct t; [|discriminate H].
  exists (String b seg). repeat split.
  - discriminate.
  - simpl. rewrite Hb. exact Hseg.
Qed.

(** The user name of a profile path is its segment; any other address is
    kept as it is. *)
Lemma usernameOf_profile_path (seg : string) :
  seg <> "" -> absent "/" seg = true -> usernameOf ("/in/" ++ seg ++ "/") = seg.
Proof.
  intros Hne Hseg. destruct seg as [|b seg]; [contradiction|].
  unfold usernameOf, replace, exec.
  change (scan (ignoreCase usernameRegExp) (source usernameRegExp) (ngroups usernameRegExp)
            ("/in/" ++ String b seg ++ "/") 0)
    with (match m false (source usernameRegExp)
                  (MState 0 ("/in/" ++ String b seg ++ "/") [None]) Some with
          | Some y => Some (Match 0 (JS.take (pos y - 0) ("/in/" ++ String b seg ++ "/"))
                              (caps y))
          | None => scan false (source usernameRegExp) 1 ("in/" ++ String b seg ++ "/") 1
          end).
  rewrite (username_match b seg Hseg).
  cbn [index matched groups pos caps expand fold_right group nth Nat.sub JS.take].
  replace (6 + String.length seg - 0)%nat
    with (String.length ("/in/" ++ String b seg ++ "/"))
    by (simpl; rewrite length_app; simpl; lia).
  rewrite <- (append_empty_r ("/in/" ++ String b seg ++ "/")) at 2.
  rewrite take_length_app.
  cbn [Nat.add]. rewrite drop_length, append_empty_r. 
  simpl. rewrite append_empty_r. reflexivity.
Qed.

Lemma usernameOf_other (href : string) :
  (forall seg, seg <> "" -> absent "/" seg = true -> href <> "/in/" ++ seg ++ "/") ->
  usernameOf href = href.
Proof.
  intros Hn. unfold usernameOf, replace, exec.
  assert (E : scan (ignoreCase usernameRegExp) (source usernameRegExp)
                (ngroups usernameRegExp) href 0 = None).
  { destruct (m false (source usernameRegExp) (MState 0 href [None]) Some) as [y|] eqn:Hm.
    - apply username_match_inv in Hm as (seg & Hne & Hseg & ->).
      exfalso. exact (Hn seg Hne Hseg eq_refl).
    - destruct href as [|a href].
      + cbn [scan ignoreCase source ngroups usernameRegExp repeat] in *.
        rewrite Hm. reflexivity.
      + cbn [scan ignoreCase source ngroups usernameRegExp repeat] in *.
        rewrite Hm. apply scan_bol_later. }
  rewrite E. reflexivity.
Qed.

(** C6. The user name of an endorser is read off the [href] of its link:
    an address of the shape [/in/<segment>/], the segment being non-empty
    and free of slashes, gives the segment (["/in/jane-doe/"] gives
    ["jane-doe"]); an address of any other shape is the user name as it
    is. *)
Theorem C6_username_from_profile_url
  (sf : Surface) (endorser : handle) (w : World) (name href seg other : string)
  (Hname : safeTextContent sf (Sel "user.profile.skills.enodorsements.entityName")
             endorser w = Ok name)
  (Hhref : getAttributeSafe sf (Sel "user.profile.skills.enodorsements.entityLink")
             "href" endorser w = Ok href)
  (Hne : seg <> "") (Hseg : absent "/" seg = true)
  (Hother : forall s, s <> "" -> absent "/" s = true -> other <> "/in/" ++ s ++ "/") :
  endorserOf sf endorser w
    = Async.Ret {| User.name := name; User.username := usernameOf href |} w
  /\ usernameOf ("/in/" ++ seg ++ "/") = seg
  /\ usernameOf "/in/jane-doe/" = "jane-doe"
  /\ usernameOf other = other.
Proof.
  repeat split.
  - unfold endorserOf, Async.bind, Async.promise. rewrite Hname. simpl.
    rewrite Hhref. reflexivity.
  - apply usernameOf_profile_path; assumption.
  - apply usernameOf_other. exact Hother.
Qed.

Lemma C6_username_from_profile_url_witness :
  endorserOf (Sample.page true TimeoutError [] [] Sample.endorsed "") 3 []
    = Async.Ret {| User.name := "3"; User.username := "jane-doe" |} []
  /\ usernameOf "https://www.linkedin.com/in/jane-doe/"
     = "https://www.linkedin.com/in/jane-doe/".
Proof.
  assert (Hother : forall s, s <> "" -> absent "/" s = true ->
                     "https://www.linkedin.com/in/jane-doe/" <> "/in/" ++ s ++ "/")
    by (intros s _ _ H; simpl in H; discriminate H).
  destruct (C6_username_from_profile_url
              (Sample.page true TimeoutError [] [] Sample.endorsed "") 3 []
              "3" "/in/jane-doe/" "jane-doe" "https://www.linkedin.com/in/jane-doe/"
              eq_refl eq_refl ltac:(discriminate) eq_refl Hother)
    as [H1 [_ [_ H4]]].
  split; [exact H1 | exact H4].
Defined.

End Parsing.

(* ===================================================================== *)
(** * Facts about the monad                                               *)
(* ===================================================================== *)

Section AsyncFacts.
Import Surface Async Trace.

Context {A B : Type}.

Lemma stays_ret (a : A) : stays (ret a).
Proof. intros w w' H. injection H as <-. reflexivity. Qed.

Lemma stays_throw (e : error) : stays (@throw A e).
Proof. intros w w' H. injection H as <-. reflexivity. Qed.

Lemma stays_await (p : result A) : stays (await p).
Proof. destruct p; [apply stays_ret|apply stays_throw]. Qed.

Lemma stays_promise (ask : World -> result A) : stays (promise ask).
Proof. intros w w' H. injection H as <-. reflexivity. Qed.

Lemma stays_perform (ev : event) (ask : World -> result A) :
  isGoto ev = false -> stays (perform ev ask).
Proof.
  intros Hev w w'. unfold perform.
  destruct (ask w); intros H; injection H as <-;
    unfold navigations; simpl; rewrite Hev; reflexivity.
Qed.

Lemma stays_bind (c : M A) (f : A -> M B) :
  stays c -> (forall a, stays (f a)) -> stays (bind c f).
Proof.
  intros Hc Hf w w'. unfold bind.
  destruct (c w) as [a w1|e w1|] eqn:E.
  - intros H. rewrite (Hf a w1 w' H). apply Hc. rewrite E. reflexivity.
  - intros H. injection H as <-. apply Hc. rewrite E. reflexivity.
  - discriminate.
Qed.

Lemma stays_tryOrReturn (c : M A) (h : error -> M B) (k : A -> M B) :
  stays c -> (forall e, stays (h e)) -> (forall a, stays (k a)) ->
  stays (tryOrReturn c h k).
Proof.
  intros Hc Hh Hk w w'. unfold tryOrReturn.
  destruct (c w) as [a w1|e w1|] eqn:E.
  - intros H. rewrite (Hk a w1 w' H). apply Hc. rewrite E. reflexivity.
  - intros H. rewrite (Hh e w1 w' H). apply Hc. rewrite E. reflexivity.
  - discriminate.
Qed.

Lemma reads_ret (a : A) : reads (ret a).
Proof. intros w. left. exists a. reflexivity. Qed.

Lemma reads_throw (e : error) : reads (@throw A e).
Proof. intros w. right. exists e. reflexivity. Qed.

Lemma reads_await (p : result A) : reads (await p).
Proof. destruct p; [apply reads_ret|apply reads_throw]. Qed.

Lemma reads_promise (ask : World -> result A) : reads (promise ask).
Proof. intros w. left. exists (ask w). reflexivity. Qed.

Lemma reads_bind (c : M A) (f : A -> M B) :
  reads c -> (forall a, reads (f a)) -> reads (bind c f).
Proof.
  intros Hc Hf w. unfold bind.
  destruct (Hc w) as [[a ->]|[e ->]]; [apply Hf|].
  right. exists e. reflexivity.
Qed.

End AsyncFacts.

Section AsyncListFacts.
Import Surface Async Trace.

Context {A B : Type}.

Lemma stays_mapM (f : A -> M B) (xs : list A) :
  (forall x, stays (f x)) -> stays (mapM f xs).
Proof.
  intros Hf. induction xs as [|x xs IH]; simpl.
  - apply stays_ret.
  - apply stays_bind; [apply Hf|]. intros y.
    apply stays_bind; [exact IH|]. intros ys. apply stays_ret.
Qed.

(** [Promise.all] over callbacks that only read is rejected as soon as one
    of them is. *)
Lemma mapM_throws (f : A -> M B) (xs : list A) (x : A) (w : World) :
  (forall y, reads (f y)) -> In x xs -> throws (f x w) -> throws (mapM f xs w).
Proof.
  intros Hf Hin Hx. induction xs as [|y ys IH]; [contradiction|].
  simpl. unfold bind at 1.
  destruct (Hf y w) as [[b Eb]|[e Ee]].
  - rewrite Eb. destruct Hin as [->|Hin].
    + destruct Hx as (e & w' & Hx). rewrite Hx in Eb. discriminate.
    + destruct (IH Hin) as (e & w' & E). unfold bind. rewrite E.
      exists e, w'. reflexivity.
  - rewrite Ee. exists e, w. reflexivity.
Qed.

End AsyncListFacts.

(* ===================================================================== *)
(** * The methods on a page                                               *)
(* ===================================================================== *)

Section MethodFacts.
Import Surface Async Trace UserProfileModule.
Local Open Scope async_scope.

Variable splitDashes : string -> list string.
Variable sf : Surface.
Variable id : string.

(** ** Section extractors on a profile without the section *)

Lemma experiences_absent (w w1 : World) (e : error) :
  init sf id w = Ret tt w1 ->
  scrollUntilElementAppears sf (Sel "user.profile.experience.group") w1 = Err e ->
  experiences splitDashes sf id w
  = Ret [] (ScrollUntilElementAppears (Sel "user.profile.experience.group") :: w1).
Proof.
  intros Hinit H. unfold experiences, bind. rewrite Hinit.
  unfold tryOrReturn, perform. rewrite H. reflexivity.
Qed.

Lemma education_absent (w w1 : World) (e : error) :
  init sf id w = Ret tt w1 ->
  scrollUntilElementAppears sf (Sel "user.profile.education.section") w1 = Err e ->
  education splitDashes sf id w
  = Ret [] (ScrollUntilElementAppears (Sel "user.profile.education.section") :: w1).
Proof.
  intros Hinit H. unfold education, bind. rewrite Hinit.
  unfold tryOrReturn, perform. rewrite H. reflexivity.
Qed.

Lemma certifications_absent (w w1 : World) (e : error) :
  init sf id w = Ret tt w1 ->
  scrollUntilElementAppears sf (Sel "user.profile.certifications.section") w1 = Err e ->
  certifications sf id w
  = Ret [] (ScrollUntilElementAppears (Sel "user.profile.certifications.section") :: w1).
Proof.
  intros Hinit H. unfold certifications, bind. rewrite Hinit.
  unfold tryOrReturn, perform. rewrite H. reflexivity.
Qed.

Lemma skills_absent (fuel : nat) (detailed : bool) (w w1 : World) (e : error) :
  init sf id w = Ret tt w1 ->
  scrollUntilElementAppears sf (Sel "user.profile.skills.section") w1 = Err e ->
  skills sf id fuel detailed w
  = Ret [] (ScrollUntilElementAppears (Sel "user.profile.skills.section") :: w1).
Proof.
  intros Hinit H. unfold skills, bind. rewrite Hinit.
  unfold tryOrReturn, perform. rewrite H. reflexivity.
Qed.

(** C7. Each of the four section extractors, once [init] has returned,
    answers the failure of the wait for its section (a timeout or any other
    error) with the empty list: it returns, it does not throw. *)
Theorem C7_absent_section_gives_empty
  (fuel : nat) (detailed : bool) (w w1 : World) (e : error)
  (Hinit : init sf id w = Ret tt w1) :
  let absent_ sel := scrollUntilElementAppears sf sel w1 = Err e in
  let after sel := ScrollUntilElementAppears sel :: w1 in
  (absent_ (Sel "user.profile.experience.group") ->
   experiences splitDashes sf id w = Ret [] (after (Sel "user.profile.experience.group")))
  /\ (absent_ (Sel "user.profile.education.section") ->
      education splitDashes sf id w = Ret [] (after (Sel "user.profile.education.section")))
  /\ (absent_ (Sel "user.profile.certifications.section") ->
      certifications sf id w = Ret [] (after (Sel "user.profile.certifications.section")))
  /\ (absent_ (Sel "user.profile.skills.section") ->
      skills sf id fuel detailed w = Ret [] (after (Sel "user.profile.skills.section"))).
Proof.
  cbv zeta. repeat split; intros H.
  - exact (experiences_absent w w1 e Hinit H).
  - exact (education_absent w w1 e Hinit H).
  - exact (certifications_absent w w1 e Hinit H).
  - exact (skills_absent fuel detailed w w1 e Hinit H).
Qed.

(** With every section missing, a caller that runs the four extractors in
    turn gets four empty lists: no extractor keeps the next from running. *)
Lemma sections_all_absent (fuel : nat) (detailed : bool) (w : World) :
  (forall v, url sf v = profileURL id) ->
  (forall sel v, scrollUntilElementAppears sf sel v = Err TimeoutError) ->
  exists w', sections splitDashes sf id fuel detailed w = Ret ([], [], [], []) w'.
Proof.
  intros Hurl Habsent.
  assert (Hinit : forall v, init sf id v = Ret tt v).
  { intros v. unfold init. rewrite Hurl, String.eqb_refl. reflexivity. }
  unfold sections, bind.
  rewrite (experiences_absent w w TimeoutError (Hinit w) (Habsent _ _)).
  rewrite (education_absent _ _ TimeoutError (Hinit _) (Habsent _ _)).
  rewrite (certifications_absent _ _ TimeoutError (Hinit _) (Habsent _ _)).
  rewrite (skills_absent fuel detailed _ _ TimeoutError (Hinit _) (Habsent _ _)).
  eexists. reflexivity.
Qed.

(** ** Errors of the page *)

(** An error thrown by [init] (a failed navigation) leaves every accessor
    as it is. *)
Lemma init_error_propagates (fuel : nat) (a : accessor) (w w1 : World) (e : error) :
  init sf id w = Thrown e w1 -> call splitDashes sf id fuel a w = Thrown e w1.
Proof.
  intros H.
  destruct a; unfold call, void, fullName, shortDescription, location, about, isPremium,
    isInfluencer, experiences, education, certifications, skills, bind;
    rewrite H; reflexivity.
Qed.

(** [about] tells a timeout from the other errors: the first gives the
    empty text, the others are thrown again. *)
Lemma about_timeout_or_rethrow (w w1 : World) (e : error) :
  init sf id w = Ret tt w1 ->
  textContent sf (Sel "user.profile.base.info") w1 = Err e ->
  about sf id w = if isTimeoutError e then Ret "" w1 else Thrown e w1.
Proof.
  intros Hinit H. unfold about, bind. rewrite Hinit.
  unfold tryOrReturn, aboutBody, bind, promise. rewrite H. simpl.
  destruct e; reflexivity.
Qed.

(** C8, where the code departs from it.  The badge probes catch whatever
    the wait throws: when [waitForSelector] fails with an error [e] of any
    kind, a closed or detached page included, [isPremium] and [isInfluencer]
    return [false] and the error is lost to the caller. *)
Theorem C8_badge_probe_swallows_any_error
  (w w1 : World) (e : error)
  (Hinit : init sf id w = Ret tt w1) :
  (waitForSelector sf (Sel "user.profile.base.premiumBadge") w1 = Err e ->
   isPremium sf id w
   = Ret false (WaitForSelector None (Sel "user.profile.base.premiumBadge") :: w1))
  /\ (waitForSelector sf (Sel "user.profile.base.influencerBadge") w1 = Err e ->
      isInfluencer sf id w
      = Ret false (WaitForSelector None (Sel "user.profile.base.influencerBadge") :: w1)).
Proof.
  split; intros H.
  - unfold isPremium, bind. rewrite Hinit. unfold tryOrReturn, perform. rewrite H.
    reflexivity.
  - unfold isInfluencer, bind. rewrite Hinit. unfold tryOrReturn, perform. rewrite H.
    reflexivity.
Qed.

(** ** The endorsers popup *)

Lemma getEndorsementsFromPopup_no_popup (fuel : nat) (w : World) (e : error) :
  waitForSelector sf (Sel "user.profile.skills.enodorsements.popup") w = Err e ->
  getEndorsementsFromPopup sf fuel None w
  = Thrown e (WaitForSelector None (Sel "user.profile.skills.enodorsements.popup") :: w).
Proof.
  intros H. unfold getEndorsementsFromPopup, bind, optClick, ret, perform.
  rewrite H. reflexivity.
Qed.

(** C3, where the code departs from it.  Without a detail link nothing is
    clicked, but the method goes on to wait for the popup; when that wait
    fails (a timeout, say) the error leaves [getEndorsementsFromPopup], and
    it leaves the loop body of [skills] for that item as well, whatever the
    link: no empty list is returned in its place. *)
Theorem C3_popup_timeout_is_thrown
  (fuel : nat) (w : World) (e : error) (skillItem : handle) (n : string)
  (link : option handle)
  (Hpopup : forall v,
      waitForSelector sf (Sel "user.profile.skills.enodorsements.popup") v = Err e) :
  let popup := WaitForSelector None (Sel "user.profile.skills.enodorsements.popup") in
  getEndorsementsFromPopup sf fuel None w = Thrown e (popup :: w)
  /\ clicks (popup :: w) = clicks w
  /\ (safeTextContent sf
        (Cat (Sel "user.profile.skills.itemDetailsLink")
           (Sel "user.profile.skills.numberOfEndorsements")) skillItem w = Ok n ->
      el_query sf skillItem (Sel "user.profile.skills.itemDetailsLink") w = Ok link ->
      throws (skillOf sf fuel true skillItem w)).
Proof.
  cbv zeta. repeat split.
  - apply getEndorsementsFromPopup_no_popup, Hpopup.
  - intros Hn Hlink. unfold skillOf, bind, promise. rewrite Hn. simpl. rewrite Hlink.
    simpl. unfold getEndorsementsFromPopup, bind.
    destruct link as [h|]; simpl.
    + unfold perform. destruct (el_click sf h w).
      * rewrite Hpopup. eexists _, _. reflexivity.
      * eexists _, _. reflexivity.
    + unfold ret, perform. rewrite Hpopup. eexists _, _. reflexivity.
Qed.

Lemma mapM_head_throws {X Y : Type} (f : X -> M Y) (x : X) (xs : list X) (w : World) :
  throws (f x w) -> throws (mapM f (x :: xs) w).
Proof.
  intros (e & w' & H). simpl. unfold bind. rewrite H. exists e, w'. reflexivity.
Qed.

(** A skill item whose loop body throws ends the whole of [skills]. *)
Lemma skills_aborted_by_first_item
  (fuel : nat) (detailed : bool) (w w1 : World) (section : option handle)
  (skillItem : handle) (others : list handle) :
  let w2 := ScrollUntilElementAppears (Sel "user.profile.skills.section") :: w1 in
  let w3 := ClickUntilElementDissapears (Sel "user.profile.skills.seeMore") section :: w2 in
  let w4 := WaitForTimeout 5000 0 :: w3 in
  init sf id w = Ret tt w1 ->
  scrollUntilElementAppears sf (Sel "user.profile.skills.section") w1 = Ok tt ->
  query sf (Sel "user.profile.skills.section") w2 = Ok section ->
  clickUntilElementDissapears sf (Sel "user.profile.skills.seeMore") section w2 = Ok tt ->
  waitForTimeout sf w3 = Ok tt ->
  queryAll sf (Cat (Sel "user.profile.skills.section") (Sel "user.profile.skills.item")) w4
    = Ok (skillItem :: others) ->
  throws (skillOf sf fuel detailed skillItem w4) ->
  throws (skills sf id fuel detailed w).
Proof.
  cbv zeta. intros Hinit Hscroll Hsection Hmore Hwait Hitems Hthrow.
  unfold skills, bind, tryOrReturn, perform, promise.
  rewrite Hinit, Hscroll, Hsection. cbv beta iota delta [await ret].
  rewrite Hmore, Hwait, Hitems. cbv beta iota.
  apply mapM_head_throws. exact Hthrow.
Qed.

(** ** Roles of a company with several roles *)

Ltac reads_step :=
  first
    [ apply reads_ret | apply reads_throw | apply reads_await | apply reads_promise
    | apply reads_bind; [|intros]
    | match goal with
      | |- reads (if ?b then _ else _) => destruct b
      | |- reads (match ?x with _ => _ end) => destruct x
      end ].

Lemma textContentAt_reads (xs : list handle) (i : nat) : reads (textContentAt sf xs i).
Proof. unfold textContentAt. repeat reads_step. Qed.

Lemma roleOf_reads (roleElement : handle) : reads (roleOf splitDashes sf roleElement).
Proof.
  unfold roleOf.
  repeat first [apply textContentAt_reads | reads_step].
Qed.

Lemma roleOf_no_info (roleElement : handle) (w : World) :
  el_queryAll sf roleElement (Sel "user.profile.experience.roleInfo") w = Ok [] ->
  roleOf splitDashes sf roleElement w = Thrown TypeError w.
Proof.
  intros H. unfold roleOf, bind, promise. rewrite H. reflexivity.
Qed.

Lemma roleOf_one_info (roleElement h : handle) (w : World) :
  el_queryAll sf roleElement (Sel "user.profile.experience.roleInfo") w = Ok [h] ->
  roleOf splitDashes sf roleElement w
  = match el_textContent sf h w with
    | Ok _ => Thrown TypeError w
    | Err e => Thrown e w
    end.
Proof.
  intros H. unfold roleOf, bind, promise. rewrite H. simpl.
  destruct (el_textContent sf h w); reflexivity.
Qed.

(** With exactly two role-info elements the role is built, its location
    being the empty text. *)
Lemma roleOf_two_infos (roleElement h0 h1 : handle) (w : World)
  (rn dates dur desc : option string) (ct : string) :
  el_queryAll sf roleElement (Sel "user.profile.experience.roleInfo") w = Ok [h0; h1] ->
  queryText sf roleElement (Sel "user.profile.experience.roleName") w = Ok rn ->
  safeTextContent sf (Sel "user.profile.experience.contratType") roleElement w = Ok ct ->
  el_textContent sf h0 w = Ok dates ->
  el_textContent sf h1 w = Ok dur ->
  filteredTextContent sf (Sel "user.profile.experience.roleDescription")
    (Sel "user.profile.experience.roleDescriptionMore") roleElement w = Ok desc ->
  roleOf splitDashes sf roleElement w
  = Ret {| Role.name := nullish rn "";
           Role.location := "";
           Role.description := nullish desc "";
           Role.duration := JS.trim (nullish dur "");
           Role.timeInterval := roleTimeInterval (splitDashes (nullish dates ""));
           Role.contractType := ct |} w.
Proof.
  intros Hinfo Hrn Hct H0 H1 Hdesc. unfold roleOf, bind, promise.
  rewrite Hinfo. simpl. unfold promise. rewrite H0. simpl.
  rewrite Hrn, Hct, H1, Hdesc. reflexivity.
Qed.

(** C9. On the multiple-roles path a role sub-item must come with two
    role-info elements at least: with fewer the role callback throws (a
    [TypeError] from the read at index 0 when there is none, from the read
    at index 1 when there is one and its text could be read), and with it
    the whole of [getExperiencesWithMultipleRoles]; with exactly two, the
    role is built and only its location falls back to the empty text. *)
Theorem C9_role_info_needs_two_elements
  (roleElement : handle) (w : World) (roleInfo : list handle)
  (Hinfo : el_queryAll sf roleElement (Sel "user.profile.experience.roleInfo") w
           = Ok roleInfo)
  (Hshort : (List.length roleInfo < 2)%nat) :
  throws (roleOf splitDashes sf roleElement w)
  /\ (roleInfo = [] -> roleOf splitDashes sf roleElement w = Thrown TypeError w)
  /\ (forall h t, roleInfo = [h] -> el_textContent sf h w = Ok t ->
        roleOf splitDashes sf roleElement w = Thrown TypeError w)
  /\ (forall experienceItem roleElements url,
        In roleElement roleElements ->
        throws (getExperiencesWithMultipleRoles splitDashes sf experienceItem roleElements url w)).
Proof.
  assert (Hthrow : throws (roleOf splitDashes sf roleElement w)).
  { destruct roleInfo as [|h [|h' rest]]; [| |simpl in Hshort; lia].
    - rewrite (roleOf_no_info _ _ Hinfo). eexists _, _. reflexivity.
    - rewrite (roleOf_one_info _ _ _ Hinfo).
      destruct (el_textContent sf h w); eexists _, _; reflexivity. }
  repeat split.
  - exact Hthrow.
  - intros ->. apply roleOf_no_info, Hinfo.
  - intros h t -> Ht. rewrite (roleOf_one_info _ _ _ Hinfo), Ht. reflexivity.
  - intros experienceItem roleElements url Hin.
    unfold getExperiencesWithMultipleRoles, bind at 1 2 3 4, promise.
    destruct (safeTextContent sf (Sel "user.profile.experience.groupTitle") experienceItem w);
      [|eexists _, _; reflexivity].
    destruct (safeTextContent sf (Sel "user.profile.experience.groupSubTitle")
                experienceItem w); [|eexists _, _; reflexivity].
    simpl await. unfold ret at 1 2.
    destruct (mapM_throws (roleOf splitDashes sf) roleElements roleElement w roleOf_reads
                Hin Hthrow)
      as (e & w' & E).
    unfold bind. rewrite E. eexists _, _. reflexivity.
Qed.

(** ** Navigation *)

Ltac stays_step :=
  first
    [ apply stays_ret | apply stays_throw | apply stays_await | apply stays_promise
    | apply stays_perform; reflexivity
    | apply stays_bind; [|intros]
    | apply stays_tryOrReturn; [|intros|intros]
    | apply stays_mapM; intros
    | match goal with
      | |- stays (if ?b then _ else _) => destruct b
      | |- stays (match ?x with _ => _ end) => destruct x
      end ].

Lemma scrollToEnd_stays (fuel : nat) (listContainer : option handle) (completed : bool) :
  stays (scrollToEnd sf fuel listContainer completed).
Proof.
  revert completed. induction fuel as [|fuel IH]; intros completed; simpl.
  - destruct completed; [apply stays_ret|]. intros w w' H. discriminate H.
  - destruct completed; [apply stays_ret|]. repeat first [apply IH | stays_step].
Qed.

Lemma getEndorsementsFromPopup_stays (fuel : nat) (element : option handle) :
  stays (getEndorsementsFromPopup sf fuel element).
Proof.
  unfold getEndorsementsFromPopup, optClick.
  repeat first [apply scrollToEnd_stays | stays_step | progress unfold endorserOf].
Qed.

Lemma roleOf_stays (roleElement : handle) : stays (roleOf splitDashes sf roleElement).
Proof. unfold roleOf, textContentAt. repeat stays_step. Qed.

Lemma experienceOf_stays (experienceItem : handle) :
  stays (experienceOf splitDashes sf experienceItem).
Proof.
  unfold experienceOf, getExperiencesWithMultipleRoles, getExperienceWithSingleRole.
  repeat first [apply roleOf_stays | stays_step].
Qed.

Lemma init_on_profile (w : World) :
  url sf w = profileURL id -> init sf id w = Ret tt w.
Proof. intros H. unfold init. rewrite H, String.eqb_refl. reflexivity. Qed.

(** After [init], a body that does not navigate: one navigation at most,
    none when the page is on the profile. *)
Lemma after_init {X : Type} (body : M X) (w w' : World) :
  stays body ->
  finalWorld ((init sf id ;; body)%async w) = Some w' ->
  (navigations w' <= navigations w + 1)%nat
  /\ (url sf w = profileURL id -> navigations w' = navigations w).
Proof.
  intros Hbody. unfold bind, init.
  destruct (String.eqb_spec (url sf w) (profileURL id)) as [Hon|Hoff].
  - intros H. apply Hbody in H. rewrite H. split; [lia|reflexivity].
  - unfold perform. destruct (goto sf (profileURL id) w).
    + intros H. apply Hbody in H. rewrite H. unfold navigations. simpl.
      split; [lia|contradiction].
    + intros H. injection H as <-. unfold navigations. simpl.
      split; [lia|contradiction].
Qed.

Lemma finalWorld_void {X : Type} (c : M X) (w : World) :
  finalWorld (void c w) = finalWorld (c w).
Proof. unfold void, bind. destruct (c w); reflexivity. Qed.

Lemma call_navigations (fuel : nat) (a : accessor) (w w' : World) :
  finalWorld (call splitDashes sf id fuel a w) = Some w' ->
  (navigations w' <= navigations w + 1)%nat
  /\ (url sf w = profileURL id -> navigations w' = navigations w).
Proof.
  destruct a; unfold call; rewrite finalWorld_void;
    unfold fullName, shortDescription, location, about, aboutBody, isPremium, isInfluencer,
      experiences, education, educationItem, certifications, certificationItemOf, skills,
      skillOf;
    apply after_init;
    repeat first [apply experienceOf_stays | apply getEndorsementsFromPopup_stays
                 | stays_step].
Qed.

(** C10. On a page whose address already is the encoded profile address of
    the module's [id], [init] returns at once and leaves the history as it
    was.  An accessor therefore navigates once at most from any page, and
    not at all from a page on the profile; when the page is still on the
    profile after a first accessor, a second one finds the same address and
    does not navigate either. *)
Theorem C10_init_navigates_once_at_most
  (fuel : nat) (a b : accessor) (w : World)
  (Hon : url sf w = profileURL id) :
  init sf id w = Ret tt w
  /\ (forall v v', finalWorld (call splitDashes sf id fuel a v) = Some v' ->
        (navigations v' <= navigations v + 1)%nat)
  /\ (forall w1, finalWorld (call splitDashes sf id fuel a w) = Some w1 ->
        navigations w1 = navigations w
        /\ (url sf w1 = profileURL id ->
            init sf id w1 = Ret tt w1
            /\ forall w2, finalWorld (call splitDashes sf id fuel b w1) = Some w2 ->
                 navigations w2 = navigations w)).
Proof.
  split; [exact (init_on_profile w Hon)|]. split.
  - intros v v' H. apply (call_navigations fuel a v v' H).
  - intros w1 H1.
    destruct (call_navigations fuel a w w1 H1) as [_ Ha]. specialize (Ha Hon).
    split; [exact Ha|]. intros Hstill.
    split; [exact (init_on_profile w1 Hstill)|]. intros w2 H2.
    destruct (call_navigations fuel b w1 w2 H2) as [_ Hb].
    rewrite (Hb Hstill). exact Ha.
Qed.

End MethodFacts.

(* ===================================================================== *)
(** * Runs on the sample pages                                            *)
(* ===================================================================== *)

Section Runs.
Import Surface Async Trace UserProfileModule.

Lemma C7_absent_section_gives_empty_witness :
  let bare := Sample.page false TimeoutError [] [] (fun _ => "") "" in
  experiences StringHelpers.splitDashes bare "jane-doe" []
    = Ret [] [ScrollUntilElementAppears (Sel "user.profile.experience.group")]
  /\ education StringHelpers.splitDashes bare "jane-doe" []
    = Ret [] [ScrollUntilElementAppears (Sel "user.profile.education.section")]
  /\ certifications bare "jane-doe" []
    = Ret [] [ScrollUntilElementAppears (Sel "user.profile.certifications.section")]
  /\ skills bare "jane-doe" 0 true []
    = Ret [] [ScrollUntilElementAppears (Sel "user.profile.skills.section")].
Proof.
  cbv zeta.
  destruct (C7_absent_section_gives_empty StringHelpers.splitDashes
              (Sample.page false TimeoutError [] [] (fun _ => "") "")
              "jane-doe" 0 true [] [] TimeoutError eq_refl)
    as [H1 [H2 [H3 H4]]].
  exact (conj (H1 eq_refl) (conj (H2 eq_refl) (conj (H3 eq_refl) (H4 eq_refl)))).
Defined.

(** A page that is closed under the probe: the wait fails with an error
    that is not a timeout, and [isPremium] answers [false]. *)
Lemma C8_badge_probe_swallows_any_error_witness :
  isPremium (Sample.page true (SurfaceError "Target closed") [] [] (fun _ => "") "")
    "jane-doe" []
  = Ret false [WaitForSelector None (Sel "user.profile.base.premiumBadge")].
Proof.
  exact (proj1 (C8_badge_probe_swallows_any_error
                  (Sample.page true (SurfaceError "Target closed") [] [] (fun _ => "") "")
                  "jane-doe" [] [] (SurfaceError "Target closed") eq_refl) eq_refl).
Defined.

(** Two skills without a detail link, and no popup: the first item already
    ends [skills] with the timeout of the popup wait, where the run without
    endorsers returns both skills. *)
Lemma C3_popup_timeout_is_thrown_witness :
  let sf := Sample.page true TimeoutError [1; 2] [] Sample.endorsed "" in
  let popup := WaitForSelector None (Sel "user.profile.skills.enodorsements.popup") in
  getEndorsementsFromPopup sf 5 None [] = Thrown TimeoutError [popup]
  /\ throws (skillOf sf 5 true 1 [])
  /\ skills sf "jane-doe" 5 true []
     = Thrown TimeoutError
         [ popup; WaitForTimeout 5000 0;
           ClickUntilElementDissapears (Sel "user.profile.skills.seeMore") (Some 0);
           ScrollUntilElementAppears (Sel "user.profile.skills.section") ]
  /\ finalWorld (skills sf "jane-doe" 5 false [])
     = Some [ WaitForTimeout 5000 0;
              ClickUntilElementDissapears (Sel "user.profile.skills.seeMore") (Some 0);
              ScrollUntilElementAppears (Sel "user.profile.skills.section") ].
Proof.
  cbv zeta.
  destruct (C3_popup_timeout_is_thrown
              (Sample.page true TimeoutError [1; 2] [] Sample.endorsed "")
              5 [] TimeoutError 1 "3" None (fun _ => eq_refl))
    as [H1 [_ H3]].
  exact (conj H1 (conj (H3 eq_refl eq_refl) (conj eq_refl eq_refl))).
Defined.

Lemma C9_role_info_needs_two_elements_witness :
  roleOf StringHelpers.splitDashes
    (Sample.page true TimeoutError [1] [] (fun _ => "") "") 1 []
  = Thrown TypeError [].
Proof.
  exact (proj1 (proj2
    (C9_role_info_needs_two_elements StringHelpers.splitDashes
       (Sample.page true TimeoutError [1] [] (fun _ => "") "") 1 [] [] eq_refl
       Nat.lt_0_2)) eq_refl).
Defined.

Lemma C10_init_navigates_once_at_most_witness :
  init (Sample.page true TimeoutError [] [] (fun _ => "") "") "jane-doe" [] = Ret tt [].
Proof.
  exact (proj1 (C10_init_navigates_once_at_most StringHelpers.splitDashes
                  (Sample.page true TimeoutError [] [] (fun _ => "") "") "jane-doe"
                  0 FullName About [] eq_refl)).
Defined.

(** From another address the first accessor navigates to the profile, and
    the second one, finding the page there, does not. *)
Example navigates_then_stays :
  let sf := Sample.pageAt "https://www.linkedin.com/feed/" in
  let u := "https://www.linkedin.com/in/jane-doe/" in
  fullName sf "jane-doe" [] = Ret (Some "") [Goto u]
  /\ location sf "jane-doe" [Goto u] = Ret (Some "") [Goto u].
Proof. split; reflexivity. Qed.

(** The address is encoded before it is compared and visited. *)
Example profileURL_encoded :
  profileURL "jane doe" = "https://www.linkedin.com/in/jane%20doe/".
Proof. reflexivity. Qed.

(** A company with one role sub-item that has a single role-info element:
    [experiences] ends with the [TypeError]. *)
Example experiences_role_info_short :
  throws (experiences StringHelpers.splitDashes
            (Sample.page true TimeoutError [1] [4] (fun _ => "") "") "jane-doe" []).
Proof. eexists _, _. reflexivity. Qed.

End Runs.

(* ===================================================================== *)
(** * Years and counts                                                    *)
(* ===================================================================== *)

Section Numerals.
Import Surface UserProfileModule.

Example decimal_2015 : decimal 2015 = "2015".
Proof. reflexivity. Qed.

Lemma digit_char (d : nat) :
  (d < 10)%nat ->
  let c := ascii_of_nat (48 + d) in
  JS.isDigit c = true /\ JS.digitValue c = Z.of_nat d
  /\ JS.isWhiteSpace c = false /\ Ascii.eqb c "-" = false.
Proof.
  intros H. cbv zeta. do 10 (destruct d as [|d]; [repeat split|]). exfalso. lia.
Qed.

Lemma decimalDigits_value (fuel n : nat) (acc : string) :
  (n < fuel)%nat ->
  JS.digitsValue (decimalDigits fuel n acc) 0 = JS.digitsValue acc (Z.of_nat n).
Proof.
  revert n acc. induction fuel as [|fuel IH]; intros n acc Hn; [lia|].
  assert (Hd : (n mod 10 < 10)%nat) by (apply Nat.mod_upper_bound; lia).
  destruct (digit_char _ Hd) as (Hdig & Hval & _ & _).
  cbn [decimalDigits]. destruct (Nat.eqb_spec (n / 10) 0) as [Hz|Hnz].
  - cbn [JS.digitsValue]. rewrite Hdig, Hval. f_equal.
    pose proof (Nat.div_mod_eq n 10). lia.
  - rewrite IH.
    + cbn [JS.digitsValue]. rewrite Hdig, Hval. f_equal.
      pose proof (Nat.div_mod_eq n 10). lia.
    + destruct (Nat.lt_ge_cases n 10) as [Hlt|Hge];
        [apply Nat.div_small in Hlt; contradiction|].
      assert (n / 10 < n)%nat by (apply Nat.div_lt; lia). lia.
Qed.

Lemma decimalDigits_head (fuel n : nat) (acc : string) :
  exists c r, decimalDigits (S fuel) n acc = String c r
              /\ JS.isDigit c = true /\ JS.isWhiteSpace c = false.
Proof.
  revert n acc. induction fuel as [|fuel IH]; intros n acc.
  - assert (Hd : (n mod 10 < 10)%nat) by (apply Nat.mod_upper_bound; lia).
    destruct (digit_char _ Hd) as (Hdig & _ & Hws & _).
    cbn [decimalDigits]. destruct (n / 10 =? 0)%nat; eauto.
  - assert (Hd : (n mod 10 < 10)%nat) by (apply Nat.mod_upper_bound; lia).
    destruct (digit_char _ Hd) as (Hdig & _ & Hws & _).
    change (decimalDigits (S (S fuel)) n acc)
      with (if (n / 10 =? 0)%nat then String (ascii_of_nat (48 + n mod 10)) acc
            else decimalDigits (S fuel) (n / 10) (String (ascii_of_nat (48 + n mod 10)) acc)).
    destruct (n / 10 =? 0)%nat; [eauto|apply IH].
Qed.

Lemma decimalDigits_app (fuel n : nat) (acc : string) :
  decimalDigits fuel n acc = decimalDigits fuel n "" ++ acc.
Proof.
  revert n acc. induction fuel as [|fuel IH]; intros n acc; [reflexivity|].
  cbn [decimalDigits]. destruct (n / 10 =? 0)%nat; [reflexivity|].
  rewrite IH, (IH _ (String _ "")), append_assoc. reflexivity.
Qed.

Lemma decimalDigits_no_dash (fuel n : nat) (acc : string) :
  absent "-" (decimalDigits fuel n acc) = absent "-" acc.
Proof.
  revert n acc. induction fuel as [|fuel IH]; intros n acc; [reflexivity|].
  assert (Hd : (n mod 10 < 10)%nat) by (apply Nat.mod_upper_bound; lia).
  destruct (digit_char _ Hd) as (_ & _ & _ & Hdash).
  cbn [decimalDigits]. destruct (n / 10 =? 0)%nat; [|rewrite IH]; cbn [absent];
    rewrite Hdash; reflexivity.
Qed.

Lemma toNumber_exact (z : Z) : (Z.abs z < 2 ^ 53)%Z -> JS.toNumber z = JS.Num z.
Proof.
  intros H. unfold JS.toNumber. apply Z.ltb_lt in H. rewrite H. reflexivity.
Qed.

Lemma parseInt_digit_start (c : ascii) (r : string) :
  JS.isDigit c = true ->
  JS.parseInt (String c r) = JS.toNumber (JS.digitsValue (String c r) 0).
Proof.
  destruct c as [b0 b1 b2 b3 b4 b5 b6 b7].
  destruct b0, b1, b2, b3, b4, b5, b6, b7; intros H; try discriminate H;
    unfold JS.parseInt; cbn -[JS.toNumber Z.mul JS.digitsValue];
    rewrite Z.mul_1_l; reflexivity.
Qed.

Lemma parseInt_blank (c : ascii) (s : string) :
  JS.isWhiteSpace c = true -> JS.parseInt (String c s) = JS.parseInt s.
Proof. intros H. unfold JS.parseInt. simpl. rewrite H. reflexivity. Qed.

(** [parseInt] reads back the numeral of a natural number, whatever follows
    it, as long as that is not one more digit. *)
Lemma parseInt_decimal (n : nat) (after : string) :
  match after with String c _ => JS.isDigit c = false | EmptyString => True end ->
  JS.parseInt (decimal n ++ after) = JS.toNumber (Z.of_nat n).
Proof.
  intros Hafter. unfold decimal. rewrite <- decimalDigits_app.
  destruct (decimalDigits_head n n after) as (c & r & E & Hdig & _).
  rewrite E, (parseInt_digit_start c r Hdig), <- E, decimalDigits_value by lia.
  destruct after as [|a after]; simpl JS.digitsValue; [reflexivity|].
  rewrite Hafter. reflexivity.
Qed.

Lemma blank_is_no_digit (c : ascii) : JS.isWhiteSpace c = true -> JS.isDigit c = false.
Proof.
  destruct c as [b0 b1 b2 b3 b4 b5 b6 b7].
  destruct b0, b1, b2, b3, b4, b5, b6, b7; intros H; try discriminate H; reflexivity.
Qed.

Lemma trimStart_idempotent (s : string) : JS.trimStart (JS.trimStart s) = JS.trimStart s.
Proof.
  induction s as [|c s IH]; simpl; [reflexivity|].
  destruct (JS.isWhiteSpace c) eqn:E; [exact IH|]. simpl. rewrite E. reflexivity.
Qed.

Lemma parseInt_trimStart (s : string) : JS.parseInt (JS.trimStart s) = JS.parseInt s.
Proof. unfold JS.parseInt. rewrite trimStart_idempotent. reflexivity. Qed.

(** What [trimEnd] takes away is a run of blanks. *)
Lemma trimEnd_blanks (s : string) :
  exists t, s = JS.trimEnd s ++ t /\ allOf JS.isWhiteSpace t = true.
Proof.
  induction s as [|c s IH]; [exists ""; auto|].
  destruct IH as (t & E & Ht). cbn [JS.trimEnd].
  destruct (JS.trimEnd s) as [|d u] eqn:Eu.
  - cbn [append] in E. subst t. destruct (JS.isWhiteSpace c) eqn:Ec.
    + exists (String c s). split; [reflexivity|]. cbn [allOf]. rewrite Ec. exact Ht.
    + exists s. split; [reflexivity|exact Ht].
  - exists t. split; [|exact Ht]. cbn [append]. f_equal. exact E.
Qed.

(** A part that trims to the numeral of [n] parses to the double for [n]. *)
Lemma parseInt_of_trimmed (n : nat) (part : string) :
  JS.trim part = decimal n -> JS.parseInt part = JS.toNumber (Z.of_nat n).
Proof.
  intros H. rewrite <- parseInt_trimStart.
  destruct (trimEnd_blanks (JS.trimStart part)) as (t & E & Ht).
  unfold JS.trim in H. rewrite H in E. rewrite E. apply parseInt_decimal.
  destruct t as [|c t]; [exact I|]. simpl in Ht. apply andb_true_iff in Ht as [Hc _].
  exact (blank_is_no_digit c Hc).
Qed.

Lemma decimal_no_dash (n : nat) : absent "-" (decimal n) = true.
Proof. unfold decimal. rewrite decimalDigits_no_dash. reflexivity. Qed.

(** Beyond 2^53 a numeral is read as the nearest double. *)
Example parseInt_rounds : JS.parseInt "9007199254740993" = JS.Num 9007199254740992.
Proof. reflexivity. Qed.

End Numerals.

(* ===================================================================== *)
(** * The about text                                                      *)
(* ===================================================================== *)

Section About.
Import Surface Async UserProfileModule.

Lemma startsWith_prefix (p s : string) :
  JS.startsWith p s = true <-> exists t, s = p ++ t.
Proof.
  revert s. induction p as [|a p IH]; intros s; simpl.
  - split; [intros _; exists s; reflexivity|reflexivity].
  - destruct s as [|b s].
    + split; [discriminate|intros [t H]; discriminate H].
    + rewrite andb_true_iff, IH. split.
      * intros [Hab [t ->]]. apply Ascii.eqb_eq in Hab as ->. exists t. reflexivity.
      * intros [t H]. injection H as -> ->. split; [apply Ascii.eqb_refl|eauto].
Qed.

(** What [lastOccurrence] finds is an occurrence, and the last one. *)
Lemma lastOccurrence_found (p s : string) (i j : Z) :
  JS.lastOccurrence p s i = Some j ->
  exists a b, s = a ++ p ++ b /\ j = (i + JS.length a)%Z
              /\ forall a' b', s = a' ++ p ++ b' ->
                   (String.length a' <= String.length a)%nat.
Proof.
  revert i j. induction s as [|c s IH]; intros i j.
  - cbn [JS.lastOccurrence]. destruct (JS.startsWith p "") eqn:E; [|discriminate].
    intros H. injection H as <-. apply startsWith_prefix in E as [t E].
    destruct p; [|discriminate E]. exists "", "". repeat split.
    + unfold JS.length. simpl. lia.
    + intros a' b' H. destruct a'; [simpl; lia|discriminate H].
  - cbn [JS.lastOccurrence].
    destruct (JS.lastOccurrence p s (i + 1)) as [k|] eqn:Erec.
    + intros H. injection H as <-.
      destruct (IH _ _ Erec) as (a & b & -> & -> & Hmax).
      exists (String c a), b. repeat split.
      * unfold JS.length. simpl String.length. lia.
      * intros a' b' H. destruct a' as [|c' a']; [simpl; lia|].
        injection H as _ H. apply Hmax in H. simpl. lia.
    + destruct (JS.startsWith p (String c s)) eqn:E; [|discriminate].
      intros H. injection H as <-. apply startsWith_prefix in E as [t E].
      exists "", t. repeat split.
      * exact E.
      * unfold JS.length. simpl. lia.
      * intros a' b' H. destruct a' as [|c' a']; [simpl; lia|].
        exfalso. injection H as _ H. clear E.
        revert H Erec. generalize (i + 1)%Z. clear.
        revert a'. induction s as [|d s IHs]; intros a' z H.
        -- destruct a'; [|discriminate H]. simpl in H.
           cbn [JS.lastOccurrence].
           replace (JS.startsWith p "") with true; [discriminate|].
           symmetry. apply startsWith_prefix. exists b'. exact H.
        -- cbn [JS.lastOccurrence]. destruct a' as [|c' a'].
           ++ replace (JS.startsWith p (String d s)) with true
                by (symmetry; apply startsWith_prefix; exists b'; exact H).
              destruct (JS.lastOccurrence p s (z + 1)); discriminate.
           ++ injection H as _ H. intros E.
              destruct (JS.lastOccurrence p s (z + 1)) eqn:E'; [discriminate|].
              exact (IHs a' _ H E').
Qed.

Lemma lastOccurrence_missing (p s : string) (i : Z) :
  JS.lastOccurrence p s i = None -> forall a b, s <> a ++ p ++ b.
Proof.
  revert i. induction s as [|c s IH]; intros i; cbn [JS.lastOccurrence].
  - destruct (JS.startsWith p "") eqn:E; [discriminate|]. intros _ a b H.
    destruct a; [|discriminate H].
    assert (JS.startsWith p "" = true) by (apply startsWith_prefix; exists b; exact H).
    congruence.
  - destruct (JS.lastOccurrence p s (i + 1)) eqn:Erec; [discriminate|].
    destruct (JS.startsWith p (String c s)) eqn:E; [discriminate|]. intros _ a b H.
    destruct a as [|c' a].
    + assert (JS.startsWith p (String c s) = true)
        by (apply startsWith_prefix; exists b; exact H).
      congruence.
    + injection H as _ H. exact (IH _ Erec a b H).
Qed.

Lemma drop_length_app (a b : string) : JS.drop (String.length a) (a ++ b) = b.
Proof. induction a as [|x a IH]; simpl; [reflexivity|exact IH]. Qed.

Lemma drop_past_end (n : nat) (s : string) :
  (String.length s <= n)%nat -> JS.drop n s = "".
Proof.
  revert n. induction s as [|c s IH]; intros n H; destruct n; simpl in *;
    try reflexivity; try lia. apply IH. lia.
Qed.

Lemma append_same_length (a a' b b' : string) :
  a ++ b = a' ++ b' -> String.length a = String.length a' -> a = a' /\ b = b'.
Proof.
  revert a'. induction a as [|x a IH]; intros a' H L; destruct a' as [|x' a'];
    simpl in *; try discriminate; [auto|].
  injection H as -> H. injection L as L. destruct (IH _ H L) as [-> ->]. auto.
Qed.

(** The text left once the last occurrence is cut out. *)
Lemma aboutText_found (a del b : string) :
  (forall a' b', a ++ del ++ b = a' ++ del ++ b' ->
     (String.length a' <= String.length a)%nat) ->
  aboutText (a ++ del ++ b) del = JS.trim (a ++ b).
Proof.
  intros Hmax. unfold aboutText, JS.lastIndexOf.
  destruct (JS.lastOccurrence del (a ++ del ++ b) 0) as [j|] eqn:E.
  - destruct (lastOccurrence_found _ _ _ _ E) as (a0 & b0 & Heq & -> & Hmax0).
    assert (L : String.length a = String.length a0).
    { apply Nat.le_antisymm; [exact (Hmax0 a b eq_refl)|exact (Hmax a0 b0 Heq)]. }
    destruct (append_same_length _ _ _ _ Heq L) as [<- Hrest].
    f_equal. f_equal.
    + unfold JS.substring, JS.clamp, JS.length. rewrite length_app.
      replace (Z.to_nat (Z.min (Z.max 0 0) (Z.of_nat (String.length a + String.length (del ++ b)))))
        with 0%nat by lia.
      replace (Z.to_nat
                 (Z.min (Z.max (0 + Z.of_nat (String.length a)) 0)
                    (Z.of_nat (String.length a + String.length (del ++ b)))))
        with (String.length a) by lia.
      rewrite Nat.min_0_l, Nat.max_0_l, Nat.sub_0_r. simpl JS.drop.
      apply take_length_app.
    + unfold JS.substringFrom, JS.clamp, JS.length.
      rewrite <- append_assoc, (length_app (a ++ del) b), (length_app a del).
      replace (Z.to_nat _) with (String.length (a ++ del))
        by (rewrite length_app; lia).
      apply drop_length_app.
  - exfalso. exact (lastOccurrence_missing _ _ _ E a b eq_refl).
Qed.

(** The text left when there is nothing to cut: the info text without its
    first [del.length - 1] characters. *)
Lemma aboutText_missing (ri del : string) :
  (forall a b, ri <> a ++ del ++ b) ->
  aboutText ri del = JS.trim (JS.drop (String.length del - 1) ri).
Proof.
  intros Hno. unfold aboutText, JS.lastIndexOf.
  destruct (JS.lastOccurrence del ri 0) as [j|] eqn:E.
  - exfalso. destruct (lastOccurrence_found _ _ _ _ E) as (a & b & Heq & _).
    exact (Hno a b Heq).
  - f_equal.
    assert (E0 : JS.substring ri 0 (-1) = "").
    { unfold JS.substring, JS.clamp. 
      replace (Z.to_nat (Z.min (Z.max 0 0) (JS.length ri))) with 0%nat
        by (unfold JS.length; lia).
      replace (Z.to_nat (Z.min (Z.max (-1) 0) (JS.length ri))) with 0%nat
        by (unfold JS.length; lia).
      reflexivity. }
    rewrite E0. cbn [append]. unfold JS.substringFrom, JS.clamp, JS.length.
    destruct (Nat.le_gt_cases (String.length ri) (String.length del - 1)) as [Hle|Hgt].
    + rewrite (drop_past_end _ _ Hle). apply drop_past_end. lia.
    + f_equal. lia.
Qed.

End About.

Section AboutMethod.
Import Surface Async UserProfileModule.

Variable sf : Surface.
Variable id : string.

Lemma about_of_texts (w w1 : World) (ri del : string) :
  init sf id w = Ret tt w1 ->
  textContent sf (Sel "user.profile.base.info") w1 = Ok (Some ri) ->
  textContent sf (Sel "user.profile.base.infoTextToDelete") w1 = Ok (Some del) ->
  about sf id w = Ret (aboutText ri del) w1.
Proof.
  intros Hinit Hri Hdel. unfold about, bind. rewrite Hinit.
  unfold tryOrReturn, aboutBody, bind, promise. rewrite Hri. simpl. rewrite Hdel.
  reflexivity.
Qed.

(** X3. [about] is the info text with the last occurrence of the toggle
    text cut out of it, trimmed: when the info text is [a ++ del ++ b] and
    [del] occurs nowhere further right, the result is [trim (a ++ b)]. *)
Theorem about_cuts_last_occurrence
  (w w1 : World) (a del b : string)
  (Hinit : init sf id w = Ret tt w1)
  (Hri : textContent sf (Sel "user.profile.base.info") w1 = Ok (Some (a ++ del ++ b)))
  (Hdel : textContent sf (Sel "user.profile.base.infoTextToDelete") w1 = Ok (Some del))
  (Hlast : forall a' b', a ++ del ++ b = a' ++ del ++ b' ->
             (String.length a' <= String.length a)%nat) :
  about sf id w = Ret (JS.trim (a ++ b)) w1.
Proof.
  rewrite (about_of_texts w w1 _ _ Hinit Hri Hdel). f_equal.
  apply aboutText_found. exact Hlast.
Qed.

(** X4. When the toggle text does not occur in the info text, [about] is
    not the whole info text: [lastIndexOf] answers [-1], and the result is
    the info text without its first [del.length - 1] characters, trimmed. *)
Theorem about_without_toggle_loses_a_prefix
  (w w1 : World) (ri del : string)
  (Hinit : init sf id w = Ret tt w1)
  (Hri : textContent sf (Sel "user.profile.base.info") w1 = Ok (Some ri))
  (Hdel : textContent sf (Sel "user.profile.base.infoTextToDelete") w1 = Ok (Some del))
  (Hno : forall a b, ri <> a ++ del ++ b) :
  about sf id w = Ret (JS.trim (JS.drop (String.length del - 1) ri)) w1.
Proof.
  rewrite (about_of_texts w w1 _ _ Hinit Hri Hdel). f_equal.
  apply aboutText_missing. exact Hno.
Qed.

(** X5. The errors of [about].  A timeout of either text read gives the
    empty text; any other error of either read is thrown again; and a text
    that is [null] makes [about] throw a [TypeError]. *)
Theorem about_errors
  (w w1 : World)
  (Hinit : init sf id w = Ret tt w1) :
  let info := textContent sf (Sel "user.profile.base.info") w1 in
  let toggle := textContent sf (Sel "user.profile.base.infoTextToDelete") w1 in
  let caught (e : error) :=
    about sf id w = if isTimeoutError e then Ret "" w1 else Thrown e w1 in
  (forall e, info = Err e -> caught e)
  /\ (forall t e, info = Ok t -> toggle = Err e -> caught e)
  /\ (forall t, info = Ok None -> toggle = Ok t -> about sf id w = Thrown TypeError w1)
  /\ (forall t, info = Ok t -> toggle = Ok None -> about sf id w = Thrown TypeError w1).
Proof.
  cbv zeta. unfold about, bind. rewrite Hinit.
  unfold tryOrReturn, aboutBody, bind, promise.
  repeat split.
  - intros e ->. simpl. destruct e; reflexivity.
  - intros t e H1 H2. rewrite H1. simpl. rewrite H2. simpl. destruct e; reflexivity.
  - intros t H1 H2. rewrite H1. simpl. rewrite H2. reflexivity.
  - intros t H1 H2. rewrite H1. simpl. rewrite H2. destruct t; reflexivity.
Qed.

End AboutMethod.

Section AboutRuns.
Import Surface Async UserProfileModule.

Lemma about_cuts_last_occurrence_witness :
  about (Pages.withInfo "Hello world see more" "see more") "jane-doe" []
  = Ret "Hello world" [].
Proof.
  apply (about_cuts_last_occurrence (Pages.withInfo "Hello world see more" "see more")
           "jane-doe" [] [] "Hello world " "see more" "" eq_refl eq_refl eq_refl).
  intros a' b' H. apply (f_equal String.length) in H.
  rewrite !length_app in H. simpl in H. simpl. lia.
Defined.

Lemma about_without_toggle_loses_a_prefix_witness :
  about (Pages.withInfo "Hello world" "zzz") "jane-doe" [] = Ret "llo world" [].
Proof.
  apply (about_without_toggle_loses_a_prefix (Pages.withInfo "Hello world" "zzz")
           "jane-doe" [] [] "Hello world" "zzz" eq_refl eq_refl eq_refl).
  apply (lastOccurrence_missing "zzz" "Hello world" 0). reflexivity.
Defined.

Lemma about_errors_witness :
  about (Pages.withTextContent (fun _ _ => Err TimeoutError) Pages.plain) "jane-doe" []
    = Ret "" []
  /\ about (Pages.withTextContent (fun _ _ => Err (SurfaceError "Target closed"))
              Pages.plain) "jane-doe" []
    = Thrown (SurfaceError "Target closed") [].
Proof.
  split.
  - exact (proj1 (about_errors
                    (Pages.withTextContent (fun _ _ => Err TimeoutError) Pages.plain)
                    "jane-doe" [] [] eq_refl) TimeoutError eq_refl).
  - exact (proj1 (about_errors
                    (Pages.withTextContent (fun _ _ => Err (SurfaceError "Target closed"))
                       Pages.plain)
                    "jane-doe" [] [] eq_refl) (SurfaceError "Target closed") eq_refl).
Defined.

End AboutRuns.

(* ===================================================================== *)
(** * The profile address                                                 *)
(* ===================================================================== *)

Section ProfileURL.
Import Surface Async Trace UserProfileModule.

Lemma encodeURI_app (a b : string) :
  JS.encodeURI (a ++ b) = JS.encodeURI a ++ JS.encodeURI b.
Proof.
  induction a as [|c a IH]; simpl; [reflexivity|]. rewrite IH, append_assoc. reflexivity.
Qed.

Lemma encodeURI_kept (s : string) : allOf JS.uriKeep s = true -> JS.encodeURI s = s.
Proof.
  induction s as [|c s IH]; simpl; intros H; [reflexivity|].
  apply andb_true_iff in H as [Hc Hs]. unfold JS.encodeChar. rewrite Hc, (IH Hs).
  reflexivity.
Qed.

(** X6. An [id] made of characters that [encodeURI] leaves alone (letters,
    digits, hyphens and the like) has the profile address
    [https://www.linkedin.com/in/<id>/], as written. *)
Theorem profileURL_of_plain_id (id : string) (Hid : allOf JS.uriKeep id = true) :
  profileURL id = "https://www.linkedin.com/in/" ++ id ++ "/".
Proof.
  unfold profileURL. rewrite encodeURI_app, encodeURI_app, (encodeURI_kept id Hid).
  reflexivity.
Qed.

Lemma profileURL_of_plain_id_witness :
  profileURL "jane-doe-1a2b3c" = "https://www.linkedin.com/in/jane-doe-1a2b3c/".
Proof. exact (profileURL_of_plain_id "jane-doe-1a2b3c" eq_refl). Defined.

Lemma allAscii_complete (c : ascii) : In c allAscii.
Proof.
  unfold allAscii. rewrite <- (ascii_nat_embedding c). apply in_map, in_seq.
  pose proof (nat_ascii_bounded c). lia.
Qed.

Lemma encodeChar_nonempty (c : ascii) : JS.encodeChar c <> "".
Proof.
  unfold JS.encodeChar, JS.percent. destruct (JS.uriKeep c); [discriminate|].
  destruct (JS.code c <? 128)%N; discriminate.
Qed.

(** No escape of a character starts the escape of another one. *)
Lemma encodeChar_prefix_free (c1 c2 : ascii) :
  JS.startsWith (JS.encodeChar c1) (JS.encodeChar c2) = true -> c1 = c2.
Proof.
  assert (H : forallb (fun a => forallb (fun b =>
                implb (JS.startsWith (JS.encodeChar a) (JS.encodeChar b)) (Ascii.eqb a b))
                allAscii) allAscii = true) by (vm_compute; reflexivity).
  rewrite forallb_forall in H. specialize (H c1 (allAscii_complete c1)).
  rewrite forallb_forall in H. specialize (H c2 (allAscii_complete c2)).
  intros E. rewrite E in H. simpl in H. apply Ascii.eqb_eq, H.
Qed.

Lemma prefix_comparable (x y r1 r2 : string) :
  x ++ r1 = y ++ r2 -> JS.startsWith x y = true \/ JS.startsWith y x = true.
Proof.
  revert y. induction x as [|a x IH]; intros y H; [left; reflexivity|].
  destruct y as [|b y]; [right; reflexivity|].
  injection H as -> H. simpl. rewrite Ascii.eqb_refl. exact (IH y H).
Qed.

Lemma append_cancel_l (a b c : string) : a ++ b = a ++ c -> b = c.
Proof. induction a as [|x a IH]; simpl; intros H; [exact H|]. injection H as H. auto. Qed.

Lemma encodeURI_injective (s t : string) : JS.encodeURI s = JS.encodeURI t -> s = t.
Proof.
  revert t. induction s as [|c s IH]; intros t H; destruct t as [|d t]; simpl in H.
  - reflexivity.
  - exfalso. destruct (JS.encodeChar d) eqn:E; [exact (encodeChar_nonempty d E)|].
    discriminate H.
  - exfalso. destruct (JS.encodeChar c) eqn:E; [exact (encodeChar_nonempty c E)|].
    discriminate H.
  - assert (c = d) as ->.
    { destruct (prefix_comparable _ _ _ _ H) as [P|P].
      - exact (encodeChar_prefix_free _ _ P).
      - symmetry. exact (encodeChar_prefix_free _ _ P). }
    apply append_cancel_l in H. rewrite (IH t H). reflexivity.
Qed.

Lemma append_cancel_last (a b : string) (c : ascii) :
  a ++ String c "" = b ++ String c "" -> a = b.
Proof.
  revert b. induction a as [|x a IH]; intros b H; destruct b as [|y b]; simpl in H.
  - reflexivity.
  - injection H as _ H. destruct b; discriminate H.
  - injection H as _ H. destruct a; discriminate H.
  - injection H as -> H. rewrite (IH b H). reflexivity.
Qed.

(** X7. Two different ids never have the same profile address: the test
    [page.url() === u] of [init] cannot take the profile of one for the
    profile of the other. *)
Theorem profileURL_distinct (id1 id2 : string) (Hdiff : id1 <> id2) :
  profileURL id1 <> profileURL id2.
Proof.
  intros H. apply Hdiff. unfold profileURL in H. apply encodeURI_injective in H.
  apply append_cancel_l in H. exact (append_cancel_last _ _ _ H).
Qed.

Lemma profileURL_distinct_witness :
  profileURL "jane doe" <> profileURL "jane%20doe".
Proof. apply profileURL_distinct. discriminate. Defined.

End ProfileURL.

(* ===================================================================== *)
(** * What the accessors do to the page                                   *)
(* ===================================================================== *)

Section KeepsFacts.
Import Surface Async Trace Trace2.

Context {A B : Type}.
Variable p : event -> bool.

Lemma keeps_ret (a : A) : keeps p (ret a).
Proof. intros w w' H. injection H as <-. reflexivity. Qed.

Lemma keeps_throw (e : error) : keeps p (@throw A e).
Proof. intros w w' H. injection H as <-. reflexivity. Qed.

Lemma keeps_await (r : result A) : keeps p (await r).
Proof. destruct r; [apply keeps_ret|apply keeps_throw]. Qed.

Lemma keeps_promise (ask : World -> result A) : keeps p (promise ask).
Proof. intros w w' H. injection H as <-. reflexivity. Qed.

Lemma keeps_perform (ev : event) (ask : World -> result A) :
  p ev = false -> keeps p (perform ev ask).
Proof.
  intros Hev w w'. unfold perform.
  destruct (ask w); intros H; injection H as <-; simpl; rewrite Hev; reflexivity.
Qed.

Lemma keeps_bind (c : M A) (f : A -> M B) :
  keeps p c -> (forall a, keeps p (f a)) -> keeps p (bind c f).
Proof.
  intros Hc Hf w w'. unfold bind.
  destruct (c w) as [a w1|e w1|] eqn:E.
  - intros H. rewrite (Hf a w1 w' H). apply Hc. rewrite E. reflexivity.
  - intros H. injection H as <-. apply Hc. rewrite E. reflexivity.
  - discriminate.
Qed.

Lemma keeps_tryOrReturn (c : M A) (h : error -> M B) (k : A -> M B) :
  keeps p c -> (forall e, keeps p (h e)) -> (forall a, keeps p (k a)) ->
  keeps p (tryOrReturn c h k).
Proof.
  intros Hc Hh Hk w w'. unfold tryOrReturn.
  destruct (c w) as [a w1|e w1|] eqn:E.
  - intros H. rewrite (Hk a w1 w' H). apply Hc. rewrite E. reflexivity.
  - intros H. rewrite (Hh e w1 w' H). apply Hc. rewrite E. reflexivity.
  - discriminate.
Qed.

Lemma keeps_mapM (f : A -> M B) (xs : list A) :
  (forall x, keeps p (f x)) -> keeps p (mapM f xs).
Proof.
  intros Hf. induction xs as [|x xs IH]; simpl.
  - intros w w' H. injection H as <-. reflexivity.
  - intros w w'. unfold bind.
    destruct (f x w) as [y w1|e w1|] eqn:E.
    + destruct (mapM f xs w1) as [ys w2|e w2|] eqn:E2.
      * intros H. injection H as <-.
        rewrite (IH w1 w2) by (rewrite E2; reflexivity).
        apply (Hf x). rewrite E. reflexivity.
      * intros H. injection H as <-.
        rewrite (IH w1 w2) by (rewrite E2; reflexivity).
        apply (Hf x). rewrite E. reflexivity.
      * discriminate.
    + intros H. injection H as <-. apply (Hf x). rewrite E. reflexivity.
    + discriminate.
Qed.

End KeepsFacts.

Ltac keeps_step :=
  first
    [ apply keeps_ret | apply keeps_throw | apply keeps_await | apply keeps_promise
    | apply keeps_perform; reflexivity
    | apply keeps_bind; [|intros]
    | apply keeps_tryOrReturn; [|intros|intros]
    | apply keeps_mapM; intros
    | match goal with
      | |- Trace2.keeps _ (if ?b then _ else _) => destruct b
      | |- Trace2.keeps _ (match ?x with _ => _ end) => destruct x
      end ].

Section Navigation.
Import Surface Async Trace Trace2 UserProfileModule.

Variable splitDashes : string -> list string.
Variable sf : Surface.
Variable id : string.

Lemma scrollToEnd_keeps_goto (fuel : nat) (lc : option handle) (completed : bool) :
  keeps isGoto (scrollToEnd sf fuel lc completed).
Proof.
  revert completed. induction fuel as [|fuel IH]; intros completed; simpl.
  - destruct completed; [apply keeps_ret|]. intros w w' H. discriminate H.
  - destruct completed; [apply keeps_ret|]. repeat first [apply IH | keeps_step].
Qed.

Lemma bodies_keep_goto :
  (forall fuel element, keeps isGoto (getEndorsementsFromPopup sf fuel element))
  /\ (forall item, keeps isGoto (experienceOf splitDashes sf item)).
Proof.
  split.
  - intros fuel element. unfold getEndorsementsFromPopup, optClick, endorserOf.
    repeat first [apply scrollToEnd_keeps_goto | keeps_step].
  - intros item.
    unfold experienceOf, getExperiencesWithMultipleRoles, getExperienceWithSingleRole,
      roleOf, textContentAt.
    repeat keeps_step.
Qed.

(** After [init], a body that does not navigate: the only navigation there
    can be is the one of [init], to the profile address. *)
Lemma after_init_goto {X : Type} (body : M X) (w w' : World) :
  keeps isGoto body ->
  finalWorld (bind (init sf id) (fun _ => body) w) = Some w' ->
  if String.eqb (url sf w) (profileURL id)
  then filter isGoto w' = filter isGoto w
  else filter isGoto w' = Goto (profileURL id) :: filter isGoto w.
Proof.
  intros Hbody. unfold bind, init.
  destruct (String.eqb (url sf w) (profileURL id)).
  - intros H. exact (Hbody _ _ H).
  - unfold perform. destruct (goto sf (profileURL id) w).
    + intros H. apply Hbody in H. rewrite H. reflexivity.
    + intros H. injection H as <-. reflexivity.
Qed.

(** X8. The only address an accessor ever navigates to is the encoded
    profile address of its own [id]: it does so once when the page is
    elsewhere, and it does not navigate at all when the page is there. *)
Theorem accessor_navigates_to_profile_only
  (fuel : nat) (a : accessor) (w w' : World)
  (Hend : finalWorld (call splitDashes sf id fuel a w) = Some w') :
  if String.eqb (url sf w) (profileURL id)
  then filter isGoto w' = filter isGoto w
  else filter isGoto w' = Goto (profileURL id) :: filter isGoto w.
Proof.
  destruct bodies_keep_goto as [Hpopup Hexp].
  revert Hend. destruct a; unfold call; rewrite finalWorld_void;
    unfold fullName, shortDescription, location, about, aboutBody, isPremium, isInfluencer,
      experiences, education, educationItem, certifications, certificationItemOf, skills,
      skillOf;
    apply after_init_goto;
    repeat first [apply Hexp | apply Hpopup | keeps_step].
Qed.

(** X9. A navigation that fails is the failure of the accessor: when the
    page is not on the profile and [page.goto] rejects, every accessor
    rejects with the same error, having done nothing to the page but that
    one attempt. *)
Theorem failed_navigation_fails_every_accessor
  (fuel : nat) (a : accessor) (w : World) (e : error)
  (Haway : String.eqb (url sf w) (profileURL id) = false)
  (Hgoto : goto sf (profileURL id) w = Err e) :
  call splitDashes sf id fuel a w = Thrown e (Goto (profileURL id) :: w).
Proof.
  apply init_error_propagates. unfold init, perform. rewrite Haway, Hgoto. reflexivity.
Qed.

End Navigation.

Section NavigationRuns.
Import Surface Async Trace UserProfileModule.

Lemma accessor_navigates_to_profile_only_witness :
  let sf := Sample.pageAt "https://www.linkedin.com/feed/" in
  let u := "https://www.linkedin.com/in/jane-doe/" in
  finalWorld (call StringHelpers.splitDashes sf "jane-doe" 0 FullName []) = Some [Goto u]
  /\ filter isGoto [Goto u] = [Goto (profileURL "jane-doe")].
Proof.
  split; [reflexivity|].
  exact (accessor_navigates_to_profile_only StringHelpers.splitDashes
           (Sample.pageAt "https://www.linkedin.com/feed/") "jane-doe" 0 FullName
           [] [Goto "https://www.linkedin.com/in/jane-doe/"] eq_refl).
Defined.

Lemma failed_navigation_fails_every_accessor_witness :
  call StringHelpers.splitDashes Pages.unreachable "jane-doe" 3 (Skills true) []
  = Thrown (SurfaceError "net::ERR_NAME_NOT_RESOLVED")
      [Goto "https://www.linkedin.com/in/jane-doe/"].
Proof.
  exact (failed_navigation_fails_every_accessor StringHelpers.splitDashes
           Pages.unreachable "jane-doe" 3
           (Skills true) [] (SurfaceError "net::ERR_NAME_NOT_RESOLVED") eq_refl eq_refl).
Defined.

End NavigationRuns.

(* ===================================================================== *)
(** * One record per item                                                 *)
(* ===================================================================== *)

Section Lists.
Import Surface Async Trace Trace2 UserProfileModule.

(** [Promise.all] over callbacks that return without touching the page is
    the list of their results, in the order of the array. *)
Lemma mapM_results {X Y : Type} (f : X -> M Y) (g : X -> Y) (xs : list X) (w : World) :
  (forall x, In x xs -> f x w = Ret (g x) w) -> mapM f xs w = Ret (map g xs) w.
Proof.
  induction xs as [|x xs IH]; intros H; [reflexivity|].
  simpl. unfold bind. rewrite (H x (or_introl eq_refl)).
  rewrite IH by (intros y Hy; apply H; right; exact Hy). reflexivity.
Qed.

Variable splitDashes : string -> list string.
Variable sf : Surface.
Variable id : string.

(** X10. [education] gives one record per list item of the section, in the
    order of the page, each made of the seven reads on that item: the name
    and link of the school, the date text split into years, the field, the
    degree, the description and the activities. *)
Theorem education_one_record_per_item
  (w w1 : World) (section : option handle) (items : list handle)
  (text : selector -> handle -> string) (href : handle -> string)
  (Hinit : init sf id w = Ret tt w1) :
  let w2 := ScrollUntilElementAppears (Sel "user.profile.education.section") :: w1 in
  let w3 := ClickUntilElementDissapears (Sel "user.profile.education.seeMoreButton")
              section :: w2 in
  scrollUntilElementAppears sf (Sel "user.profile.education.section") w1 = Ok tt ->
  query sf (Sel "user.profile.education.section") w2 = Ok section ->
  clickUntilElementDissapears sf (Sel "user.profile.education.seeMoreButton") section w2
    = Ok tt ->
  queryAll sf (Sel "user.profile.education.listItem") w3 = Ok items ->
  (forall item sel, In item items -> safeTextContent sf sel item w3 = Ok (text sel item)) ->
  (forall item, In item items ->
     getAttributeSafe sf (XPath "//a") "href" item w3 = Ok (href item)) ->
  education splitDashes sf id w
  = Ret (map (fun item =>
                educationOf splitDashes
                  (text (Sel "user.profile.education.schoolName") item)
                  (href item)
                  (text (Sel "user.profile.education.date") item)
                  (text (Sel "user.profile.education.fieldName") item)
                  (text (Sel "user.profile.education.degreeName") item)
                  (text (Sel "user.profile.education.description") item)
                  (text (Sel "user.profile.education.activitiesAndSocieties") item))
           items) w3.
Proof.
  cbv zeta. intros Hscroll Hsection Hmore Hitems Htext Hhref.
  unfold education, bind, tryOrReturn, perform, promise.
  rewrite Hinit, Hscroll, Hsection. cbv beta iota delta [await ret].
  rewrite Hmore, Hitems. cbv beta iota.
  apply mapM_results. intros item Hin.
  unfold educationItem, bind, promise.
  rewrite !(Htext item _ Hin), (Hhref item Hin). reflexivity.
Qed.

(** X11. [certifications] gives one record per item of the section, in the
    order of the page, each made of the six reads on that item. *)
Theorem certifications_one_record_per_item
  (w w1 : World) (section : handle) (items : list handle)
  (text : selector -> handle -> string) (href : selector -> handle -> string)
  (Hinit : init sf id w = Ret tt w1) :
  let w2 := ScrollUntilElementAppears (Sel "user.profile.certifications.section") :: w1 in
  let w3 := ClickUntilElementDissapears (Sel "user.profile.certifications.seeMore")
              (Some section) :: w2 in
  let w4 := WaitForTimeout 5000 0 :: w3 in
  scrollUntilElementAppears sf (Sel "user.profile.certifications.section") w1 = Ok tt ->
  query sf (Sel "user.profile.certifications.section") w2 = Ok (Some section) ->
  clickUntilElementDissapears sf (Sel "user.profile.certifications.seeMore")
    (Some section) w2 = Ok tt ->
  waitForTimeout sf w3 = Ok tt ->
  el_queryAll sf section (Sel "user.profile.certifications.item") w4 = Ok items ->
  (forall item sel, In item items -> safeTextContent sf sel item w4 = Ok (text sel item)) ->
  (forall item sel, In item items ->
     getAttributeSafe sf sel "href" item w4 = Ok (href sel item)) ->
  certifications sf id w
  = Ret (map (fun item =>
                certificationOf
                  (href (Sel "user.profile.certifications.companyURL") item)
                  (text (Sel "user.profile.certifications.companyName") item)
                  (text (Sel "user.profile.certifications.name") item)
                  (text (Sel "user.profile.certifications.dates") item)
                  (text (Sel "user.profile.certifications.credential.id") item)
                  (href (Sel "user.profile.certifications.credential.url") item))
           items) w4.
Proof.
  cbv zeta. intros Hscroll Hsection Hmore Hwait Hitems Htext Hhref.
  unfold certifications, bind, tryOrReturn, perform, promise.
  rewrite Hinit, Hscroll, Hsection. cbv beta iota delta [await ret].
  rewrite Hmore, Hwait, Hitems. cbv beta iota.
  apply mapM_results. intros item Hin.
  unfold certificationItemOf, bind, promise.
  rewrite !(Htext item _ Hin), !(Hhref item _ Hin). reflexivity.
Qed.

(** X12. The section element of [certifications] is used without a check:
    when the wait for the section succeeds and the query that follows finds
    nothing, the method throws a [TypeError] after its five-second pause. *)
Theorem certifications_section_gone
  (w w1 : World)
  (Hinit : init sf id w = Ret tt w1) :
  let w2 := ScrollUntilElementAppears (Sel "user.profile.certifications.section") :: w1 in
  let w3 := ClickUntilElementDissapears (Sel "user.profile.certifications.seeMore")
              None :: w2 in
  scrollUntilElementAppears sf (Sel "user.profile.certifications.section") w1 = Ok tt ->
  query sf (Sel "user.profile.certifications.section") w2 = Ok None ->
  clickUntilElementDissapears sf (Sel "user.profile.certifications.seeMore") None w2
    = Ok tt ->
  waitForTimeout sf w3 = Ok tt ->
  certifications sf id w = Thrown TypeError (WaitForTimeout 5000 0 :: w3).
Proof.
  cbv zeta. intros Hscroll Hsection Hmore Hwait.
  unfold certifications, bind, tryOrReturn, perform, promise.
  rewrite Hinit, Hscroll, Hsection. cbv beta iota delta [await ret].
  rewrite Hmore, Hwait. reflexivity.
Qed.

(** X13. Without the endorsers ([detailed] false) [skills] gives one
    record per skill item, in the order of the page: the trimmed name, the
    badge, the count text through [parseInt], and no endorser.  Nothing of
    the popup is touched, and the fuel of the scroll loop plays no part. *)
Theorem skills_without_endorsers
  (fuel : nat) (w w1 : World) (section : option handle) (items : list handle)
  (text : selector -> handle -> string) (badge : handle -> bool)
  (Hinit : init sf id w = Ret tt w1) :
  let w2 := ScrollUntilElementAppears (Sel "user.profile.skills.section") :: w1 in
  let w3 := ClickUntilElementDissapears (Sel "user.profile.skills.seeMore") section :: w2 in
  let w4 := WaitForTimeout 5000 0 :: w3 in
  scrollUntilElementAppears sf (Sel "user.profile.skills.section") w1 = Ok tt ->
  query sf (Sel "user.profile.skills.section") w2 = Ok section ->
  clickUntilElementDissapears sf (Sel "user.profile.skills.seeMore") section w2 = Ok tt ->
  waitForTimeout sf w3 = Ok tt ->
  queryAll sf (Cat (Sel "user.profile.skills.section") (Sel "user.profile.skills.item")) w4
    = Ok items ->
  (forall item sel, In item items -> safeTextContent sf sel item w4 = Ok (text sel item)) ->
  (forall item, In item items ->
     isElementPresent sf (Sel "user.profile.skills.assesmentBadge") item w4
     = Ok (badge item)) ->
  skills sf id fuel false w
  = Ret (map (fun item =>
                {| Skill.endorsements := [];
                   Skill.name := JS.trim (text (Sel "user.profile.skills.entityName") item);
                   Skill.hasLinkedInAssesmentBadge := badge item;
                   Skill.numberOfEndorsements :=
                     JS.parseInt
                       (text (Cat (Sel "user.profile.skills.itemDetailsLink")
                                (Sel "user.profile.skills.numberOfEndorsements")) item) |})
           items) w4.
Proof.
  cbv zeta. intros Hscroll Hsection Hmore Hwait Hitems Htext Hbadge.
  unfold skills, bind, tryOrReturn, perform, promise.
  rewrite Hinit, Hscroll, Hsection. cbv beta iota delta [await ret].
  rewrite Hmore, Hwait, Hitems. cbv beta iota.
  apply mapM_results. intros item Hin.
  unfold skillOf, bind, promise.
  rewrite !(Htext item _ Hin), (Hbadge item Hin). reflexivity.
Qed.

Lemma scrolls_after_round (lc : option handle) (w : World) :
  scrolls (WaitForTimeout 5000 5000 :: ScrollElement lc :: w) = S (scrolls w).
Proof. reflexivity. Qed.

(** X14. The scroll loop of the endorsers popup runs until the list is
    reported completely scrolled, and no further.  On a page where that
    report turns true once [n] scrolls have been made, where scrolling and
    pausing succeed, the loop makes the [n - scrolls w] rounds that are
    missing (a scroll, then a pause, each) and returns; it is still running
    when the fuel is less than that. *)
Theorem scroll_loop_runs_until_complete
  (n : nat) (lc : option handle)
  (Hdone : forall v, elementCompletelyScrolled sf lc v = Ok (n <=? scrolls v)%nat)
  (Hscroll : forall v, scrollElement sf lc v = Ok tt)
  (Hpause : forall v, waitForTimeout sf v = Ok tt) :
  forall (fuel : nat) (w : World),
    scrollToEnd sf fuel lc (n <=? scrolls w)%nat w
    = if (n - scrolls w <=? fuel)%nat
      then Ret tt (afterScrolls (n - scrolls w) lc w)
      else OutOfFuel.
Proof.
  induction fuel as [|fuel IH]; intros w.
  - cbn [scrollToEnd]. destruct (Nat.leb_spec n (scrolls w)) as [Hle|Hgt].
    + replace (n - scrolls w)%nat with 0%nat by lia. reflexivity.
    + destruct (Nat.leb_spec (n - scrolls w) 0) as [H0|_]; [lia|reflexivity].
  - cbn [scrollToEnd]. destruct (Nat.leb_spec n (scrolls w)) as [Hle|Hgt].
    + replace (n - scrolls w)%nat with 0%nat by lia. reflexivity.
    + unfold bind, perform, promise. rewrite Hscroll, Hpause, Hdone. cbn [await ret].
      rewrite IH, scrolls_after_round.
      replace (n - scrolls w)%nat with (S (n - S (scrolls w))) by lia.
      reflexivity.
Qed.

(** X15. The endorsers of a skill whose list is already completely
    scrolled: the link is clicked, the popup and its list are waited for,
    and the result holds one user per entity of the list, in order, with
    the name read from it and the user name taken from its link; the close
    button is clicked last.  No scroll is made, whatever the fuel. *)
Theorem endorsers_of_scrolled_popup
  (fuel : nat) (w : World) (link waited popup container close : handle)
  (endorsers : list handle) (name href : handle -> string) :
  let popupSel := Sel "user.profile.skills.enodorsements.popup" in
  let listSel := Sel "user.profile.skills.enodorsements.listContainer" in
  let w1 := Click link :: w in
  let w2 := WaitForSelector None popupSel :: w1 in
  let w3 := WaitForSelector (Some popup) listSel :: w2 in
  el_click sf link w = Ok tt ->
  waitForSelector sf popupSel w1 = Ok waited ->
  query sf popupSel w2 = Ok (Some popup) ->
  el_waitForSelector sf popup listSel w2 = Ok container ->
  elementCompletelyScrolled sf (Some container) w3 = Ok true ->
  el_queryAll sf container (Sel "user.profile.skills.enodorsements.entity") w3 = Ok endorsers ->
  (forall x, In x endorsers ->
     safeTextContent sf (Sel "user.profile.skills.enodorsements.entityName") x w3
     = Ok (name x)) ->
  (forall x, In x endorsers ->
     getAttributeSafe sf (Sel "user.profile.skills.enodorsements.entityLink") "href" x w3
     = Ok (href x)) ->
  el_query sf popup (Sel "user.profile.skills.enodorsements.closeButton") w3
    = Ok (Some close) ->
  el_click sf close w3 = Ok tt ->
  getEndorsementsFromPopup sf fuel (Some link) w
  = Ret (map (fun x => {| User.name := name x; User.username := usernameOf (href x) |})
           endorsers)
      (Click close :: w3).
Proof.
  cbv zeta. intros Hclick Hpopup Hquery Hlist Hdone Hall Hname Hhref Hclose Hclick2.
  unfold getEndorsementsFromPopup, optClick, bind, perform, promise.
  rewrite Hclick, Hpopup, Hquery. cbv beta iota delta [await ret].
  rewrite Hlist, Hdone. cbv beta iota.
  replace (scrollToEnd sf fuel (Some container) true) with (@ret unit tt)
    by (destruct fuel; reflexivity).
  cbv beta iota delta [ret]. rewrite Hall. cbv beta iota.
  rewrite (mapM_results (endorserOf sf)
             (fun x => {| User.name := name x; User.username := usernameOf (href x) |})).
  - rewrite Hclose. cbv beta iota. rewrite Hclick2. reflexivity.
  - intros x Hin. unfold endorserOf, bind, promise.
    rewrite (Hname x Hin). simpl. rewrite (Hhref x Hin). reflexivity.
Qed.

End Lists.

Section ListRuns.
Import Surface Async Trace Trace2 UserProfileModule.

Lemma education_one_record_per_item_witness :
  let school :=
    {| Education.school := {| School.name := "MIT"; School.url := "MIT" |};
       Education.fieldOfStudy := "MIT";
       Education.degree := "MIT";
       Education.description := "MIT";
       Education.activitiesAndSocieties := "MIT";
       Education.date :=
         {| EducationDate.start := JS.Num 2015; EducationDate.end_ := JS.Num 2019 |} |} in
  exists w', education StringHelpers.splitDashes
               (Sample.page true TimeoutError [1; 2] [] Pages.records "")
               "jane-doe" [] = Ret [school; school] w'.
Proof.
  cbv zeta. eexists.
  exact (education_one_record_per_item StringHelpers.splitDashes
           (Sample.page true TimeoutError [1; 2] [] Pages.records "") "jane-doe"
           [] [] (Some 0) [1; 2] (fun sel _ => Pages.records sel)
           (fun _ => Pages.records (XPath "//a"))
           eq_refl eq_refl eq_refl eq_refl eq_refl
           (fun _ _ _ => eq_refl) (fun _ _ => eq_refl)).
Defined.

Lemma certifications_one_record_per_item_witness :
  let certificate :=
    {| Certification.name := "MIT";
       Certification.issuer := {| Issuer.name := "MIT"; Issuer.linkedInURL := "MIT" |};
       Certification.credential := {| Credential.id := "ABC-123"; Credential.url := "MIT" |};
       Certification.issued := "Jan 2022";
       Certification.expiration := "N/A" |} in
  exists w', certifications (Sample.page true TimeoutError [1; 2] [] Pages.records "")
               "jane-doe" [] = Ret [certificate; certificate] w'.
Proof.
  cbv zeta. eexists.
  exact (certifications_one_record_per_item
           (Sample.page true TimeoutError [1; 2] [] Pages.records "") "jane-doe"
           [] [] 0 [1; 2] (fun sel _ => Pages.records sel) (fun sel _ => Pages.records sel)
           eq_refl eq_refl eq_refl eq_refl eq_refl eq_refl
           (fun _ _ _ => eq_refl) (fun _ _ _ => eq_refl)).
Defined.

Lemma certifications_section_gone_witness :
  exists w', certifications Pages.vanishing "jane-doe" [] = Thrown TypeError w'.
Proof.
  eexists.
  exact (certifications_section_gone Pages.vanishing "jane-doe" [] [] eq_refl
           eq_refl eq_refl eq_refl eq_refl).
Defined.

Lemma skills_without_endorsers_witness :
  let skill :=
    {| Skill.endorsements := [];
       Skill.name := "3";
       Skill.hasLinkedInAssesmentBadge := false;
       Skill.numberOfEndorsements := JS.Num 3 |} in
  exists w', skills (Sample.page true TimeoutError [1; 2] [] Sample.endorsed "")
               "jane-doe" 0 false [] = Ret [skill; skill] w'.
Proof.
  cbv zeta. eexists.
  exact (skills_without_endorsers
           (Sample.page true TimeoutError [1; 2] [] Sample.endorsed "") "jane-doe"
           0 [] [] (Some 0) [1; 2] (fun sel _ => Sample.endorsed sel) (fun _ => false)
           eq_refl eq_refl eq_refl eq_refl eq_refl eq_refl
           (fun _ _ _ => eq_refl) (fun _ _ => eq_refl)).
Defined.

Lemma scroll_loop_runs_until_complete_witness :
  scrollToEnd (Pages.withPopup 2 []) 5 (Some 8) false []
    = Ret tt [ WaitForTimeout 5000 5000; ScrollElement (Some 8);
               WaitForTimeout 5000 5000; ScrollElement (Some 8) ]
  /\ scrollToEnd (Pages.withPopup 2 []) 1 (Some 8) false [] = OutOfFuel.
Proof.
  split.
  - exact (scroll_loop_runs_until_complete (Pages.withPopup 2 []) 2 (Some 8)
             (fun _ => eq_refl) (fun _ => eq_refl) (fun _ => eq_refl) 5 []).
  - exact (scroll_loop_runs_until_complete (Pages.withPopup 2 []) 2 (Some 8)
             (fun _ => eq_refl) (fun _ => eq_refl) (fun _ => eq_refl) 1 []).
Defined.

Lemma endorsers_of_scrolled_popup_witness :
  let jane := {| User.name := "3"; User.username := "jane-doe" |} in
  getEndorsementsFromPopup (Pages.withPopup 0 [3; 4]) 0 (Some 5) []
  = Ret [jane; jane]
      [ Click 9;
        WaitForSelector (Some 0) (Sel "user.profile.skills.enodorsements.listContainer");
        WaitForSelector None (Sel "user.profile.skills.enodorsements.popup");
        Click 5 ].
Proof.
  exact (endorsers_of_scrolled_popup (Pages.withPopup 0 [3; 4]) 0 [] 5 7 0 8 9 [3; 4]
           (fun _ => "3") (fun _ => "/in/jane-doe/")
           eq_refl eq_refl eq_refl eq_refl eq_refl eq_refl
           (fun _ _ => eq_refl) (fun _ _ => eq_refl) eq_refl eq_refl).
Defined.

End ListRuns.

(* ===================================================================== *)
(** * Intervals, company lines and education years                        *)
(* ===================================================================== *)

(** The helper [splitDashes] is a parameter of what follows: every
    statement says what the module makes of the parts the helper answers,
    whatever the helper. *)

Section Intervals.
Import Surface Async Trace UserProfileModule.

Variable splitDashes : string -> list string.
Variable sf : Surface.

(** ** The two interval parsers *)


(** The single-role path hands the six texts of the block and the company
    link to its callback. *)
Lemma getExperienceWithSingleRole_of_texts (experienceItem : handle) (w : World)
  (cn tInterval loc dur desc rn url : string) :
  safeTextContent sf (summary (Sel "user.profile.experience.companyName")) experienceItem w
    = Ok cn ->
  safeTextContent sf (summary (Sel "user.profile.experience.timeInterval")) experienceItem w
    = Ok tInterval ->
  safeTextContent sf (summary (Sel "user.profile.experience.location")) experienceItem w
    = Ok loc ->
  safeTextContent sf (summary (Sel "user.profile.experience.duration")) experienceItem w
    = Ok dur ->
  safeTextContent sf (Sel "user.profile.experience.description") experienceItem w
    = Ok desc ->
  safeTextContent sf (summary (XPath "//h3")) experienceItem w = Ok rn ->
  getExperienceWithSingleRole splitDashes sf experienceItem (Ok url) w
  = await (singleRoleExperience splitDashes cn tInterval loc dur desc rn url) w.
Proof.
  intros Hcn Hti Hloc Hdur Hdesc Hrn.
  unfold getExperienceWithSingleRole, bind, promise.
  rewrite Hcn, Hti, Hloc, Hdur, Hdesc, Hrn. reflexivity.
Qed.

(** The callback of the single-role path, from the parts the helper
    answers when there is a first part. *)
Lemma singleRoleExperience_of_parts
  (cn tInterval loc dur desc rn url start : string) (parts : list string) :
  splitDashes tInterval = start :: parts ->
  let kept :=
    map JS.trim
      (filter (fun e => negb (String.length e =? 0)%nat) (JS.split "010" cn)) in
  singleRoleExperience splitDashes cn tInterval loc dur desc rn url
  = Ok {| Experience.company :=
            {| Company.name := nth_error kept 0; Company.linkedInURL := url |};
          Experience.location := loc;
          Experience.roles :=
            [ {| Role.description := desc;
                 Role.duration := dur;
                 Role.location := loc;
                 Role.name := rn;
                 Role.timeInterval :=
                   {| DateInterval.start := JS.trim start;
                      DateInterval.end_ :=
                        JS.trim match parts with
                                | [e] => e
                                | _ => start
                                end |};
                 Role.contractType := nullish (nth_error kept 1) "" |} ];
          Experience.totalDuration := dur |}.
Proof.
  intros H. cbv zeta. unfold singleRoleExperience. rewrite H.
  destruct parts as [|e [|e' parts]]; reflexivity.
Qed.

Section Parsers.

Variables (roleElement experienceItem h0 h1 : handle) (more : list handle).
Variable w : World.
Variable text : string.
Variables (rn dur desc rl : option string) (ct : string).
Variables (cn loc sdur sdesc srn url : string).

Hypothesis Hinfo :
  el_queryAll sf roleElement (Sel "user.profile.experience.roleInfo") w
  = Ok (h0 :: h1 :: more).
Hypothesis Hrl :
  match more with
  | h2 :: _ => el_textContent sf h2 w = Ok rl
  | [] => rl = Some ""
  end.
Hypothesis Hrn :
  queryText sf roleElement (Sel "user.profile.experience.roleName") w = Ok rn.
Hypothesis Hct :
  safeTextContent sf (Sel "user.profile.experience.contratType") roleElement w = Ok ct.
Hypothesis Hdates : el_textContent sf h0 w = Ok (Some text).
Hypothesis Hdur : el_textContent sf h1 w = Ok dur.
Hypothesis Hdesc :
  filteredTextContent sf (Sel "user.profile.experience.roleDescription")
    (Sel "user.profile.experience.roleDescriptionMore") roleElement w = Ok desc.

Hypothesis Hcn :
  safeTextContent sf (summary (Sel "user.profile.experience.companyName")) experienceItem w
  = Ok cn.
Hypothesis Htext :
  safeTextContent sf (summary (Sel "user.profile.experience.timeInterval")) experienceItem w
  = Ok text.
Hypothesis Hloc :
  safeTextContent sf (summary (Sel "user.profile.experience.location")) experienceItem w
  = Ok loc.
Hypothesis Hsdur :
  safeTextContent sf (summary (Sel "user.profile.experience.duration")) experienceItem w
  = Ok sdur.
Hypothesis Hsdesc :
  safeTextContent sf (Sel "user.profile.experience.description") experienceItem w
  = Ok sdesc.
Hypothesis Hsrn :
  safeTextContent sf (summary (XPath "//h3")) experienceItem w = Ok srn.



End Parsers.

(** ** A company block without role sub-items *)

Variable id : string.

(** With one company block on the page and no role sub-item in it,
    [experiences] is the single-role path on that block, after the block's
    roles have been expanded. *)
Lemma experiences_single_block (w w1 : World) (experienceItem : handle) (url : string) :
  let w2 := ScrollUntilElementAppears (Sel "user.profile.experience.group") :: w1 in
  let w3 := ClickUntilElementDissapears (Sel "user.profile.experience.moreButton") None
              :: w2 in
  let w4 := ClickUntilElementDissapears (Sel "user.profile.experience.expandRoles")
              (Some experienceItem) :: w3 in
  init sf id w = Ret tt w1 ->
  scrollUntilElementAppears sf (Sel "user.profile.experience.group") w1 = Ok tt ->
  clickUntilElementDissapears sf (Sel "user.profile.experience.moreButton") None w2
    = Ok tt ->
  queryAll sf (Sel "user.profile.experience.group") w3 = Ok [experienceItem] ->
  getAttributeSafe sf (XPath "//a") "href" experienceItem w3 = Ok url ->
  el_queryAll sf experienceItem (Sel "user.profile.experience.roleContainer") w3 = Ok [] ->
  clickUntilElementDissapears sf (Sel "user.profile.experience.expandRoles")
    (Some experienceItem) w3 = Ok tt ->
  experiences splitDashes sf id w
  = bind (getExperienceWithSingleRole splitDashes sf experienceItem (Ok url))
      (fun experience => ret [experience]) w4.
Proof.
  cbv zeta. intros Hinit Hscroll Hmore Hitems Hurl Hroles Hexpand.
  unfold experiences, bind at 1, tryOrReturn, perform.
  rewrite Hinit, Hscroll. unfold bind at 1. rewrite Hmore.
  unfold bind at 1 2, promise. rewrite Hitems. cbv beta iota delta [await ret].
  cbn [mapM]. unfold experienceOf, bind at 1 2 3 4 5 6, promise, perform.
  rewrite Hurl, Hroles, Hexpand. cbv beta iota delta [await ret]. cbn [List.length Nat.eqb negb].
  unfold bind. destruct (getExperienceWithSingleRole _ _ _ _ _); reflexivity.
Qed.

(** C5, and where the code departs from it.  A company block in which no
    role sub-item is found goes through the single-role path, and
    [experiences] returns one experience with one role for it.  The lines of
    the company text are those of non-zero length, each trimmed after it was
    kept: the first is the company name and the second the contract type.
    So the text ["Acme Corp\nFull-time"] gives the name ["Acme Corp"] and
    the contract type ["Full-time"]; but a line of blanks is kept, and
    counts, empty once trimmed: in front of the text it is the company name
    and the line after it the contract type, and after the first line it is
    the contract type. *)
Theorem C5_blank_line_is_kept
  (w w1 : World) (experienceItem : handle)
  (cn tInterval loc dur desc rn url start : string) (parts : list string)
  (Hinit : init sf id w = Ret tt w1)
  (Hsplit : splitDashes tInterval = start :: parts) :
  let w2 := ScrollUntilElementAppears (Sel "user.profile.experience.group") :: w1 in
  let w3 := ClickUntilElementDissapears (Sel "user.profile.experience.moreButton") None
              :: w2 in
  let w4 := ClickUntilElementDissapears (Sel "user.profile.experience.expandRoles")
              (Some experienceItem) :: w3 in
  let lines := JS.split "010" cn in
  let kept := map JS.trim (filter (fun e => negb (String.length e =? 0)%nat) lines) in
  let experience name contractType :=
    {| Experience.company := {| Company.name := name; Company.linkedInURL := url |};
       Experience.location := loc;
       Experience.roles :=
         [ {| Role.description := desc;
              Role.duration := dur;
              Role.location := loc;
              Role.name := rn;
              Role.timeInterval :=
                {| DateInterval.start := JS.trim start;
                   DateInterval.end_ :=
                     JS.trim match parts with
                             | [e] => e
                             | _ => start
                             end |};
              Role.contractType := contractType |} ];
       Experience.totalDuration := dur |} in
  scrollUntilElementAppears sf (Sel "user.profile.experience.group") w1 = Ok tt ->
  clickUntilElementDissapears sf (Sel "user.profile.experience.moreButton") None w2
    = Ok tt ->
  queryAll sf (Sel "user.profile.experience.group") w3 = Ok [experienceItem] ->
  getAttributeSafe sf (XPath "//a") "href" experienceItem w3 = Ok url ->
  el_queryAll sf experienceItem (Sel "user.profile.experience.roleContainer") w3 = Ok [] ->
  clickUntilElementDissapears sf (Sel "user.profile.experience.expandRoles")
    (Some experienceItem) w3 = Ok tt ->
  safeTextContent sf (summary (Sel "user.profile.experience.companyName")) experienceItem w4
    = Ok cn ->
  safeTextContent sf (summary (Sel "user.profile.experience.timeInterval")) experienceItem w4
    = Ok tInterval ->
  safeTextContent sf (summary (Sel "user.profile.experience.location")) experienceItem w4
    = Ok loc ->
  safeTextContent sf (summary (Sel "user.profile.experience.duration")) experienceItem w4
    = Ok dur ->
  safeTextContent sf (Sel "user.profile.experience.description") experienceItem w4
    = Ok desc ->
  safeTextContent sf (summary (XPath "//h3")) experienceItem w4 = Ok rn ->
  experiences splitDashes sf id w
  = Ret [experience (nth_error kept 0) (nullish (nth_error kept 1) "")] w4
  /\ (forall (blank name : string) (rest : list string),
        lines = blank :: name :: rest ->
        blank <> "" -> JS.trim blank = "" -> name <> "" ->
        experiences splitDashes sf id w
        = Ret [experience (Some "") (JS.trim name)] w4)
  /\ (forall (name blank : string) (rest : list string),
        lines = name :: blank :: rest ->
        name <> "" -> blank <> "" -> JS.trim blank = "" ->
        experiences splitDashes sf id w
        = Ret [experience (Some (JS.trim name)) ""] w4).
Proof.
  cbv zeta. intros Hscroll Hmore Hitems Hurl Hroles Hexpand Hcn Hti Hloc Hdur Hdesc Hrn.
  rewrite (experiences_single_block w w1 experienceItem url
             Hinit Hscroll Hmore Hitems Hurl Hroles Hexpand).
  unfold bind.
  rewrite (getExperienceWithSingleRole_of_texts _ _ _ _ _ _ _ _ url
             Hcn Hti Hloc Hdur Hdesc Hrn).
  rewrite (singleRoleExperience_of_parts _ _ _ _ _ _ _ _ _ Hsplit).
  cbv beta iota delta [await ret]. split; [reflexivity|split].
  - intros blank name rest -> Hblank Htrim Hname.
    destruct blank as [|c blank]; [contradiction Hblank; reflexivity|].
    destruct name as [|d name]; [contradiction Hname; reflexivity|].
    cbn [filter String.length Nat.eqb negb map nth_error nullish]. rewrite Htrim.
    reflexivity.
  - intros name blank rest -> Hname Hblank Htrim.
    destruct name as [|d name]; [contradiction Hname; reflexivity|].
    destruct blank as [|c blank]; [contradiction Hblank; reflexivity|].
    cbn [filter String.length Nat.eqb negb map nth_error nullish]. rewrite Htrim.
    reflexivity.
Qed.

End Intervals.

Section IntervalRuns.
Import Surface Async Trace UserProfileModule.



Lemma C5_blank_line_is_kept_witness :
  let experience name contractType :=
    {| Experience.company :=
         {| Company.name := name; Company.linkedInURL := "/company/acme/" |};
       Experience.location := "";
       Experience.roles :=
         [ {| Role.name := "";
              Role.location := "";
              Role.description := "";
              Role.duration := "";
              Role.timeInterval :=
                {| DateInterval.start := "Jan 2019"; DateInterval.end_ := "Mar 2021" |};
              Role.contractType := contractType |} ];
       Experience.totalDuration := "" |} in
  let history :=
    [ ClickUntilElementDissapears (Sel "user.profile.experience.expandRoles") (Some 7);
      ClickUntilElementDissapears (Sel "user.profile.experience.moreButton") None;
      ScrollUntilElementAppears (Sel "user.profile.experience.group") ] in
  let run cn :=
    experiences StringHelpers.splitDashes (Pages.singleRole (Pages.blockWith cn))
      "jane-doe" [] in
  run ("Acme Corp" ++ String "010" "Full-time")
  = Ret [experience (Some "Acme Corp") "Full-time"] history
  /\ run ("  " ++ String "010" ("Acme Corp" ++ String "010" "Full-time"))
     = Ret [experience (Some "") "Acme Corp"] history
  /\ run ("Acme Corp" ++ String "010" ("  " ++ String "010" "Full-time"))
     = Ret [experience (Some "Acme Corp") ""] history.
Proof.
  cbv zeta. split; [|split].
  - exact (proj1
             (C5_blank_line_is_kept StringHelpers.splitDashes
                (Pages.singleRole
                   (Pages.blockWith ("Acme Corp" ++ String "010" "Full-time")))
                "jane-doe" [] [] 7
                ("Acme Corp" ++ String "010" "Full-time") "Jan 2019 - Mar 2021"
                "" "" "" "" "/company/acme/" "Jan 2019 " [" Mar 2021"]
                eq_refl eq_refl
                eq_refl eq_refl eq_refl eq_refl eq_refl eq_refl
                eq_refl eq_refl eq_refl eq_refl eq_refl eq_refl)).
  - refine (proj1 (proj2
              (C5_blank_line_is_kept StringHelpers.splitDashes
                 (Pages.singleRole
                    (Pages.blockWith
                       ("  " ++ String "010" ("Acme Corp" ++ String "010" "Full-time"))))
                 "jane-doe" [] [] 7
                 ("  " ++ String "010" ("Acme Corp" ++ String "010" "Full-time"))
                 "Jan 2019 - Mar 2021"
                 "" "" "" "" "/company/acme/" "Jan 2019 " [" Mar 2021"]
                 eq_refl eq_refl
                 eq_refl eq_refl eq_refl eq_refl eq_refl eq_refl
                 eq_refl eq_refl eq_refl eq_refl eq_refl eq_refl))
              "  " "Acme Corp" ["Full-time"] eq_refl _ eq_refl _); discriminate.
  - refine (proj2 (proj2
              (C5_blank_line_is_kept StringHelpers.splitDashes
                 (Pages.singleRole
                    (Pages.blockWith
                       ("Acme Corp" ++ String "010" ("  " ++ String "010" "Full-time"))))
                 "jane-doe" [] [] 7
                 ("Acme Corp" ++ String "010" ("  " ++ String "010" "Full-time"))
                 "Jan 2019 - Mar 2021"
                 "" "" "" "" "/company/acme/" "Jan 2019 " [" Mar 2021"]
                 eq_refl eq_refl
                 eq_refl eq_refl eq_refl eq_refl eq_refl eq_refl
                 eq_refl eq_refl eq_refl eq_refl eq_refl eq_refl))
              "Acme Corp" "  " ["Full-time"] eq_refl _ _ eq_refl); discriminate.
Defined.

End IntervalRuns.

Section EducationYears.
Import Surface Async Trace UserProfileModule.

Variable splitDashes : string -> list string.
Variable sf : Surface.
Variable id : string.

(** The callback of an education item, from the seven reads on it. *)
Lemma educationItem_of_texts (item : handle) (w : World) (text : selector -> string)
  (href : string) :
  (forall sel, safeTextContent sf sel item w = Ok (text sel)) ->
  getAttributeSafe sf (XPath "//a") "href" item w = Ok href ->
  educationItem splitDashes sf item w
  = Ret (educationOf splitDashes
           (text (Sel "user.profile.education.schoolName"))
           href
           (text (Sel "user.profile.education.date"))
           (text (Sel "user.profile.education.fieldName"))
           (text (Sel "user.profile.education.degreeName"))
           (text (Sel "user.profile.education.description"))
           (text (Sel "user.profile.education.activitiesAndSocieties"))) w.
Proof.
  intros Htext Hhref. unfold educationItem, bind, promise.
  rewrite !Htext, Hhref. reflexivity.
Qed.

(** Once the section is there, [education] is its callback over the list
    items of the page. *)
Lemma education_items (w w1 : World) (section : option handle) (items : list handle) :
  let w2 := ScrollUntilElementAppears (Sel "user.profile.education.section") :: w1 in
  let w3 := ClickUntilElementDissapears (Sel "user.profile.education.seeMoreButton")
              section :: w2 in
  init sf id w = Ret tt w1 ->
  scrollUntilElementAppears sf (Sel "user.profile.education.section") w1 = Ok tt ->
  query sf (Sel "user.profile.education.section") w2 = Ok section ->
  clickUntilElementDissapears sf (Sel "user.profile.education.seeMoreButton") section w2
    = Ok tt ->
  queryAll sf (Sel "user.profile.education.listItem") w3 = Ok items ->
  education splitDashes sf id w = mapM (educationItem splitDashes sf) items w3.
Proof.
  cbv zeta. intros Hinit Hscroll Hsection Hmore Hitems.
  unfold education, bind, tryOrReturn, perform, promise.
  rewrite Hinit, Hscroll, Hsection. cbv beta iota delta [await ret].
  rewrite Hmore, Hitems. reflexivity.
Qed.

(** The date of an item whose date text the helper answers in parts none
    of which starts with an integer. *)
Lemma educationDate_unparseable (parts : list string) :
  parts <> [] ->
  (forall part, In part parts -> JS.parseInt part = JS.NaN) ->
  educationDate parts
  = {| EducationDate.start := JS.NaN; EducationDate.end_ := JS.NaN |}.
Proof.
  intros Hsome Hnan. destruct parts as [|d0 others]; [contradiction Hsome; reflexivity|].
  rewrite educationDate_parts, (Hnan d0 (or_introl eq_refl)).
  destruct others as [|d1 others]; [reflexivity|].
  rewrite (Hnan d1 (or_intror (or_introl eq_refl))). reflexivity.
Qed.

(** C2, where the code departs from it.  The default [-1] is written for a
    part that is missing and nowhere for a part that does not parse: when
    the helper answers, for the date text of every list item, parts none of
    which starts with an integer, [education] returns every item with the
    date NaN to NaN, not [-1] to [-1]; when the helper answers no part at
    all, the default is what is parsed and the date is [-1] to [-1]. *)
Theorem C2_unparseable_date_is_NaN
  (w w1 : World) (section : option handle) (items : list handle)
  (text : selector -> handle -> string) (href : handle -> string)
  (Hinit : init sf id w = Ret tt w1) :
  let w2 := ScrollUntilElementAppears (Sel "user.profile.education.section") :: w1 in
  let w3 := ClickUntilElementDissapears (Sel "user.profile.education.seeMoreButton")
              section :: w2 in
  let parts item := splitDashes (text (Sel "user.profile.education.date") item) in
  let record date item :=
    {| Education.school :=
         {| School.name := text (Sel "user.profile.education.schoolName") item;
            School.url := href item |};
       Education.fieldOfStudy := text (Sel "user.profile.education.fieldName") item;
       Education.degree := text (Sel "user.profile.education.degreeName") item;
       Education.description := text (Sel "user.profile.education.description") item;
       Education.activitiesAndSocieties :=
         text (Sel "user.profile.education.activitiesAndSocieties") item;
       Education.date := date |} in
  scrollUntilElementAppears sf (Sel "user.profile.education.section") w1 = Ok tt ->
  query sf (Sel "user.profile.education.section") w2 = Ok section ->
  clickUntilElementDissapears sf (Sel "user.profile.education.seeMoreButton") section w2
    = Ok tt ->
  queryAll sf (Sel "user.profile.education.listItem") w3 = Ok items ->
  (forall item sel, In item items -> safeTextContent sf sel item w3 = Ok (text sel item)) ->
  (forall item, In item items ->
     getAttributeSafe sf (XPath "//a") "href" item w3 = Ok (href item)) ->
  ((forall item, In item items -> parts item <> []) ->
   (forall item part, In item items -> In part (parts item) -> JS.parseInt part = JS.NaN) ->
   education splitDashes sf id w
   = Ret (map (record {| EducationDate.start := JS.NaN; EducationDate.end_ := JS.NaN |})
            items) w3)
  /\ ((forall item, In item items -> parts item = []) ->
      education splitDashes sf id w
      = Ret (map (record {| EducationDate.start := JS.Num (-1);
                            EducationDate.end_ := JS.Num (-1) |})
               items) w3).
Proof.
  cbv zeta. intros Hscroll Hsection Hmore Hitems Htext Hhref.
  rewrite (education_items w w1 section items Hinit Hscroll Hsection Hmore Hitems).
  split.
  - intros Hsome Hnan. apply mapM_results. intros item Hin.
    rewrite (educationItem_of_texts item _ (fun sel => text sel item) (href item)
               (fun sel => Htext item sel Hin) (Hhref item Hin)).
    unfold educationOf.
    rewrite (educationDate_unparseable _ (Hsome item Hin)
               (fun part => Hnan item part Hin)).
    reflexivity.
  - intros Hnone. apply mapM_results. intros item Hin.
    rewrite (educationItem_of_texts item _ (fun sel => text sel item) (href item)
               (fun sel => Htext item sel Hin) (Hhref item Hin)).
    unfold educationOf. rewrite (Hnone item Hin). reflexivity.
Qed.

(** X1. Education years are read back from their numerals.  For an
    education list of one item and natural numbers [a] and [b] below 2^53:
    when the date text is ["<a> - <b>"] and the helper answers two parts
    that trim to the two numerals, [education] returns the item with the
    years [a] and [b]; when the date text is ["<a>"] and the helper answers
    one part that trims to it, the item has the year [a] twice. *)
Theorem education_years_round_trip
  (w w1 : World) (section : option handle) (item : handle)
  (text : selector -> string) (href : string) (a b : nat)
  (Hinit : init sf id w = Ret tt w1)
  (Ha : (Z.of_nat a < 2 ^ 53)%Z) (Hb : (Z.of_nat b < 2 ^ 53)%Z) :
  let w2 := ScrollUntilElementAppears (Sel "user.profile.education.section") :: w1 in
  let w3 := ClickUntilElementDissapears (Sel "user.profile.education.seeMoreButton")
              section :: w2 in
  let dateText := text (Sel "user.profile.education.date") in
  let record (start end_ : nat) :=
    {| Education.school :=
         {| School.name := text (Sel "user.profile.education.schoolName");
            School.url := href |};
       Education.fieldOfStudy := text (Sel "user.profile.education.fieldName");
       Education.degree := text (Sel "user.profile.education.degreeName");
       Education.description := text (Sel "user.profile.education.description");
       Education.activitiesAndSocieties :=
         text (Sel "user.profile.education.activitiesAndSocieties");
       Education.date :=
         {| EducationDate.start := JS.Num (Z.of_nat start);
            EducationDate.end_ := JS.Num (Z.of_nat end_) |} |} in
  scrollUntilElementAppears sf (Sel "user.profile.education.section") w1 = Ok tt ->
  query sf (Sel "user.profile.education.section") w2 = Ok section ->
  clickUntilElementDissapears sf (Sel "user.profile.education.seeMoreButton") section w2
    = Ok tt ->
  queryAll sf (Sel "user.profile.education.listItem") w3 = Ok [item] ->
  (forall sel, safeTextContent sf sel item w3 = Ok (text sel)) ->
  getAttributeSafe sf (XPath "//a") "href" item w3 = Ok href ->
  (forall pa pb : string,
     dateText = decimal a ++ " - " ++ decimal b ->
     splitDashes dateText = [pa; pb] ->
     JS.trim pa = decimal a ->
     JS.trim pb = decimal b ->
     education splitDashes sf id w = Ret [record a b] w3)
  /\ (forall p : string,
        dateText = decimal a ->
        splitDashes dateText = [p] ->
        JS.trim p = decimal a ->
        education splitDashes sf id w = Ret [record a a] w3).
Proof.
  cbv zeta. intros Hscroll Hsection Hmore Hitems Htext Hhref.
  rewrite (education_items w w1 section [item] Hinit Hscroll Hsection Hmore Hitems).
  cbn [mapM]. unfold bind.
  rewrite (educationItem_of_texts item _ text href Htext Hhref).
  cbv beta iota delta [ret]. unfold educationOf. split.
  - intros pa pb _ Hsplit Hpa Hpb. rewrite Hsplit, educationDate_parts.
    rewrite (parseInt_of_trimmed a pa Hpa), (parseInt_of_trimmed b pb Hpb).
    rewrite !toNumber_exact by lia. reflexivity.
  - intros p _ Hsplit Hp. rewrite Hsplit, educationDate_parts.
    rewrite (parseInt_of_trimmed a p Hp).
    rewrite !toNumber_exact by lia. reflexivity.
Qed.

End EducationYears.

Section EducationRuns.
Import Surface Async Trace UserProfileModule.

Lemma C2_unparseable_date_is_NaN_witness :
  let record date :=
    {| Education.school := {| School.name := "unknown"; School.url := "unknown" |};
       Education.fieldOfStudy := "unknown";
       Education.degree := "unknown";
       Education.description := "unknown";
       Education.activitiesAndSocieties := "unknown";
       Education.date := date |} in
  let page := Sample.page true TimeoutError [1] [] (fun _ => "unknown") "" in
  let history :=
    [ ClickUntilElementDissapears (Sel "user.profile.education.seeMoreButton") (Some 0);
      ScrollUntilElementAppears (Sel "user.profile.education.section") ] in
  education StringHelpers.splitDashes page "jane-doe" []
  = Ret [record {| EducationDate.start := JS.NaN; EducationDate.end_ := JS.NaN |}] history
  /\ education (fun _ => []) page "jane-doe" []
     = Ret [record {| EducationDate.start := JS.Num (-1);
                      EducationDate.end_ := JS.Num (-1) |}] history.
Proof.
  cbv zeta. split.
  - refine (proj1
              (C2_unparseable_date_is_NaN StringHelpers.splitDashes
                 (Sample.page true TimeoutError [1] [] (fun _ => "unknown") "")
                 "jane-doe" [] [] (Some 0) [1] (fun _ _ => "unknown") (fun _ => "unknown")
                 eq_refl eq_refl eq_refl eq_refl eq_refl
                 (fun _ _ _ => eq_refl) (fun _ _ => eq_refl))
              _ _).
    + intros item _. discriminate.
    + intros item part _ [<-|[]]. reflexivity.
  - exact (proj2
             (C2_unparseable_date_is_NaN (fun _ => [])
                (Sample.page true TimeoutError [1] [] (fun _ => "unknown") "")
                "jane-doe" [] [] (Some 0) [1] (fun _ _ => "unknown") (fun _ => "unknown")
                eq_refl eq_refl eq_refl eq_refl eq_refl
                (fun _ _ _ => eq_refl) (fun _ _ => eq_refl))
             (fun _ _ => eq_refl)).
Defined.

Lemma education_years_round_trip_witness :
  let record (texts : string) (start end_ : Z) :=
    {| Education.school := {| School.name := texts; School.url := texts |};
       Education.fieldOfStudy := texts;
       Education.degree := texts;
       Education.description := texts;
       Education.activitiesAndSocieties := texts;
       Education.date :=
         {| EducationDate.start := JS.Num start; EducationDate.end_ := JS.Num end_ |} |} in
  let history :=
    [ ClickUntilElementDissapears (Sel "user.profile.education.seeMoreButton") (Some 0);
      ScrollUntilElementAppears (Sel "user.profile.education.section") ] in
  education StringHelpers.splitDashes
    (Sample.page true TimeoutError [1] [] Pages.records "") "jane-doe" []
  = Ret [record "MIT" 2015%Z 2019%Z] history
  /\ education StringHelpers.splitDashes
       (Sample.page true TimeoutError [1] [] (fun _ => "2020") "") "jane-doe" []
     = Ret [record "2020" 2020%Z 2020%Z] history.
Proof.
  cbv zeta. split.
  - exact (proj1
             (education_years_round_trip StringHelpers.splitDashes
                (Sample.page true TimeoutError [1] [] Pages.records "") "jane-doe"
                [] [] (Some 0) 1 Pages.records "MIT" 2015 2019
                eq_refl eq_refl eq_refl
                eq_refl eq_refl eq_refl eq_refl (fun _ => eq_refl) eq_refl)
             "2015 " " 2019" eq_refl eq_refl eq_refl eq_refl).
  - exact (proj2
             (education_years_round_trip StringHelpers.splitDashes
                (Sample.page true TimeoutError [1] [] (fun _ => "2020") "") "jane-doe"
                [] [] (Some 0) 1 (fun _ => "2020") "2020" 2020 2020
                eq_refl eq_refl eq_refl
                eq_refl eq_refl eq_refl eq_refl (fun _ => eq_refl) eq_refl)
             "2020" eq_refl eq_refl eq_refl).
Defined.

End EducationRuns.

(* ===================================================================== *)
(** * What the matcher finds is a match                                   *)
(* ===================================================================== *)

Section MatcherFacts.
Import RegExp Matching.

Lemma mstar_stops (k : cclass) (s : string) (p : nat) (cs : captures) (c : cont)
  (z : mstate) :
  mstar k s p cs c = Some z ->
  exists seg t,
    s = seg ++ t /\ allOf (cclass_mem k) seg = true
    /\ c (MState (p + String.length seg) t cs) = Some z.
Proof.
  revert p. induction s as [|a s IH]; intros p H.
  - exists "", "". simpl in *. rewrite Nat.add_0_r. auto.
  - cbn [mstar] in H. destruct (cclass_mem k a) eqn:Ha.
    + destruct (mstar k s (S p) cs c) eqn:E.
      * injection H as ->. destruct (IH (S p) E) as (seg & t & -> & Hseg & Hz).
        exists (String a seg), t. simpl. rewrite Ha, Hseg.
        replace (p + S (String.length seg))%nat with (S p + String.length seg)%nat by lia.
        auto.
      * exists "", (String a s). simpl. rewrite Nat.add_0_r. auto.
    + exists "", (String a s). simpl. rewrite Nat.add_0_r. auto.
Qed.

(** The matcher is sound: the state it hands to its continuation is
    reached by a match of the expression. *)
Lemma m_sound (i : bool) (r : regex) :
  forall (x : mstate) (c : cont) (z : mstate),
    m i r x c = Some z -> exists y, Matches i r x y /\ c y = Some z.
Proof.
  induction r as [|a|k| | |k|r IH|n r IH|r1 IH1 r2 IH2]; intros x c z H; cbn [m] in H.
  - exists x. split; [reflexivity|exact H].
  - destruct (rest x) as [|b s'] eqn:E; [discriminate|].
    destruct (litMatches i a b) eqn:L; [|discriminate].
    eexists. split; [|exact H]. exists b, s'. auto.
  - destruct (rest x) as [|b s'] eqn:E; [discriminate|].
    destruct (cclass_mem k b) eqn:L; [|discriminate].
    eexists. split; [|exact H]. exists b, s'. auto.
  - destruct (Nat.eqb_spec (pos x) 0) as [E|]; [|discriminate].
    exists x. split; [split; [exact E|reflexivity]|exact H].
  - destruct (rest x) eqn:E; [|discriminate].
    exists x. split; [split; [exact E|reflexivity]|exact H].
  - apply mstar_stops in H as (seg & t & E & Hseg & Hz).
    eexists. split; [|exact Hz]. exists seg. cbn [rest pos caps]. auto.
  - destruct (m i r x (fun y => if Nat.eqb (pos y) (pos x) then None else c y)) eqn:E.
    + injection H as ->. apply IH in E as (y & Hy & Hc).
      destruct (Nat.eqb_spec (pos y) (pos x)) as [|Hne]; [discriminate|].
      exists y. split; [right; split; assumption|exact Hc].
    + exists x. split; [left; reflexivity|exact H].
  - apply IH in H as (y0 & Hy0 & Hc).
    eexists. split; [|exact Hc]. exists y0. auto.
  - apply IH1 in H as (y1 & Hy1 & H). apply IH2 in H as (y & Hy & Hc).
    exists y. split; [exists y1; auto|exact Hc].
Qed.

(** A search that succeeds has found a match from some position on. *)
Lemma scan_sound (i : bool) (r : regex) (n : nat) (s : string) (p : nat)
  (mr : MatchResult) :
  scan i r n s p = Some mr ->
  exists k y,
    Matches i r (MState (p + k) (JS.drop k s) (repeat None n)) y
    /\ mr = Match (p + k) (JS.take (pos y - (p + k)) (JS.drop k s)) (caps y).
Proof.
  revert p. induction s as [|a s IH]; intros p H; cbn [scan] in H.
  - destruct (m i r (MState p "" (repeat None n)) Some) as [y|] eqn:E; [|discriminate].
    injection H as <-. apply m_sound in E as (y' & Hy & Hc). injection Hc as ->.
    exists 0%nat, y. rewrite Nat.add_0_r. auto.
  - destruct (m i r (MState p (String a s) (repeat None n)) Some) as [y|] eqn:E.
    + injection H as <-. apply m_sound in E as (y' & Hy & Hc). injection Hc as ->.
      exists 0%nat, y. rewrite Nat.add_0_r. auto.
    + apply IH in H as (k & y & Hy & ->).
      exists (S k), y. replace (p + S k)%nat with (S p + k)%nat by lia. auto.
Qed.

(** A match only moves forward, over a piece of the input. *)
Lemma Matches_advance (i : bool) (r : regex) :
  forall x y, Matches i r x y ->
    exists seg, rest x = seg ++ rest y /\ pos y = (pos x + String.length seg)%nat.
Proof.
  induction r as [|a|k| | |k|r IH|n r IH|r1 IH1 r2 IH2]; intros x y H; cbn [Matches] in H.
  - subst. exists "". simpl. auto.
  - destruct H as (b & s' & E & _ & ->). exists (String b ""). simpl. split; [exact E|lia].
  - destruct H as (b & s' & E & _ & ->). exists (String b ""). simpl. split; [exact E|lia].
  - destruct H as [_ ->]. exists "". simpl. auto.
  - destruct H as [_ ->]. exists "". simpl. auto.
  - destruct H as (seg & _ & E & P & _). exists seg. auto.
  - destruct H as [->|[H _]]; [exists ""; simpl; auto|exact (IH _ _ H)].
  - destruct H as (y0 & H & ->). exact (IH _ _ H).
  - destruct H as (z & H1 & H2).
    destruct (IH1 _ _ H1) as (s1 & E1 & P1). destruct (IH2 _ _ H2) as (s2 & E2 & P2).
    exists (s1 ++ s2). rewrite E1, E2, append_assoc, length_app. split; [reflexivity|lia].
Qed.

(** Without a capture group no capture changes. *)
Lemma Matches_groupFree (i : bool) (r : regex) :
  groupFree r = true -> forall x y, Matches i r x y -> caps y = caps x.
Proof.
  induction r as [|a|k| | |k|r IH|n r IH|r1 IH1 r2 IH2]; intros G x y H;
    cbn [Matches groupFree] in *.
  - subst. reflexivity.
  - destruct H as (b & s' & _ & _ & ->). reflexivity.
  - destruct H as (b & s' & _ & _ & ->). reflexivity.
  - destruct H as [_ ->]. reflexivity.
  - destruct H as [_ ->]. reflexivity.
  - destruct H as (seg & _ & _ & _ & E). exact E.
  - destruct H as [->|[H _]]; [reflexivity|exact (IH G _ _ H)].
  - discriminate G.
  - apply andb_true_iff in G as [G1 G2]. destruct H as (z & H1 & H2).
    rewrite (IH2 G2 _ _ H2). exact (IH1 G1 _ _ H1).
Qed.

(** What a group around a group-free expression captures: the piece of the
    input the expression went over. *)
Lemma Matches_group (i : bool) (n : nat) (r : regex) (x y : mstate) :
  groupFree r = true -> Matches i (Grp n r) x y ->
  exists seg,
    rest x = seg ++ rest y /\ pos y = (pos x + String.length seg)%nat
    /\ caps y = setCapture (n - 1) (Some seg) (caps x).
Proof.
  intros G (y0 & H & ->). cbn [rest pos caps].
  destruct (Matches_advance _ _ _ _ H) as (seg & E & P).
  exists seg. rewrite (Matches_groupFree _ _ G _ _ H), P, E.
  replace (pos x + String.length seg - pos x)%nat with (String.length seg) by lia.
  rewrite take_length_app. auto.
Qed.

End MatcherFacts.

Section CertificationDates.
Import Surface RegExp Matching UserProfileModule.

(** A date text of the pattern is never empty. *)
Lemma dateText_advances (i : bool) (x y : mstate) :
  Matches i dateText x y -> pos y <> pos x.
Proof.
  intros (z1 & H1 & z2 & (z3 & (b & s' & _ & _ & ->) & H3) & H4).
  apply Matches_advance in H1 as (s1 & _ & P1).
  apply Matches_advance in H3 as (s3 & _ & P3).
  apply Matches_advance in H4 as (s4 & _ & P4).
  cbn [pos] in *. lia.
Qed.

Lemma dateText_group (i : bool) (n : nat) (x y : mstate) :
  Matches i (Grp n dateText) x y ->
  exists g, g <> "" /\ caps y = setCapture (n - 1) (Some g) (caps x).
Proof.
  intros H. destruct (Matches_group i n dateText x y eq_refl H) as (seg & _ & P & C).
  exists seg. split; [|exact C]. intros ->.
  destruct H as (y0 & H0 & ->). apply dateText_advances in H0.
  cbn [pos] in P. simpl in P. lia.
Qed.

(** The captures of a match of the dates pattern: group 1 always, and
    neither group 1 nor group 3 is ever the empty text. *)
Lemma dates_captures (x y : mstate) :
  caps x = [None; None; None] ->
  Matches true (source datesRegExp) x y ->
  exists g1 g2 g3,
    caps y = [Some g1; g2; g3] /\ g1 <> "" /\ g3 <> Some "".
Proof.
  intros C0 H. cbn [source datesRegExp seq fold_right] in H.
  destruct H as (x1 & H1 & x2 & H2 & x3 & H3 & x4 & H4 & x5 & H5 & x6 & H6 & x7 & H7
                 & x8 & H8 & ->).
  apply (Matches_groupFree true (Str "issued") eq_refl) in H1.
  apply (Matches_groupFree true (Star CSpace) eq_refl) in H2.
  apply (Matches_groupFree true (Star CSpace) eq_refl) in H4.
  apply (Matches_groupFree true (Str " expiration date") eq_refl) in H6.
  apply (Matches_groupFree true (Star CSpace) eq_refl) in H7.
  apply dateText_group in H3 as (g1 & N1 & C3).
  rewrite H2, H1, C0 in C3. cbn in C3.
  assert (C5 : exists g2, caps x5 = [Some g1; g2; None]).
  { destruct H5 as [->|[H5 _]].
    - exists None. rewrite H4. exact C3.
    - apply (Matches_group true 2 (Str "no") x4 x5 eq_refl) in H5 as (seg & _ & _ & C).
      rewrite H4, C3 in C. cbn in C. eauto. }
  destruct C5 as (g2 & C5).
  destruct H8 as [->|[H8 _]].
  - exists g1, g2, None. rewrite H7, H6, C5. repeat split; [exact N1|discriminate].
  - apply dateText_group in H8 as (g3 & N3 & C).
    rewrite H7, H6, C5 in C. cbn in C.
    exists g1, g2, (Some g3). repeat split; [exact C|exact N1|].
    intros E. injection E as E. exact (N3 E).
Qed.

(** X16. The dates of a certification are empty exactly when the dates
    text does not match the pattern: on a match the issued date is the
    text of group 1, which is never empty, and the expiration is ["N/A"]
    or the text of group 3, never empty either. *)
Theorem dates_empty_iff_unmatched (dates : string) :
  (issued (parseDates dates) = "" <-> match_ dates datesRegExp = None)
  /\ (expiration (parseDates dates) = "" <-> match_ dates datesRegExp = None).
Proof.
  unfold parseDates, match_, exec.
  destruct (scan (ignoreCase datesRegExp) (source datesRegExp) (ngroups datesRegExp)
              dates 0) as [mr|] eqn:E.
  - apply scan_sound in E as (k & y & Hy & ->).
    apply dates_captures in Hy as (g1 & g2 & g3 & C & N1 & N3); [|reflexivity].
    unfold parsedDateOf, group. cbn [groups issued expiration Nat.sub nth]. rewrite C.
    cbn [nth nullish]. split; split; try discriminate; intros H; exfalso.
    + exact (N1 H).
    + destruct (truthy g2); [|discriminate H].
      destruct g3 as [g|]; [|discriminate H]. apply N3. rewrite <- H. reflexivity.
  - split; split; reflexivity.
Qed.

End CertificationDates.

Section CertificationDateRuns.
Import UserProfileModule.

Lemma dates_empty_iff_unmatched_witness :
  issued (parseDates "valid through 2025") = ""
  /\ expiration (parseDates "valid through 2025") = "".
Proof.
  split.
  - exact (proj2 (proj1 (dates_empty_iff_unmatched "valid through 2025")) eq_refl).
  - exact (proj2 (proj2 (dates_empty_iff_unmatched "valid through 2025")) eq_refl).
Defined.

End CertificationDateRuns.
